(** * PlotWeaver: the world, story and character models and their prompt contexts

    A shallow embedding of [world_manager.py], [story_manager.py],
    [memory_manager.py] and of the timeline and generation endpoints of
    [advanced_main.py], followed by the properties of the specification.

    Python values are embedded as follows.
    - [str] is the sequence of its code points, so that [len] is the number
      of characters; a literal is written [lit "..."] and decoded from the
      UTF-8 bytes of the Rocq string.
    - [int] is [Z]; [float] is an IEEE binary64 value ([spec_float] with
      precision 53 and maximal exponent 1024).
    - a [dict] is an association list in insertion order: iteration order is
      observable in every context builder.
    - a raised exception is the [Raise] outcome of the error monad.
    - the JSON library is taken at the level of values: a file holds the
      value [json.load] would return, or is unreadable text. *)

From Stdlib Require Import ZArith NArith List String Ascii Bool Lia.
From Stdlib Require Import Sorting.Sorted Sorting.Permutation.
From Stdlib Require Import Floats.SpecFloat.
From Stdlib Require Import DecimalString DecimalPos DecimalZ.
Import ListNotations.
Open Scope Z_scope.
Set Warnings "-register-all".

(* ================================================================== *)
(** * The fragment of Python the sources use *)
(* ================================================================== *)

Module Py.

(** ** Strings *)

Definition char := N.
Definition str := list char.

(** Decoding of the UTF-8 bytes of a source literal into code points. *)
Fixpoint utf8_decode (bs : list N) : str :=
  match bs with
  | [] => []
  | b0 :: r0 =>
      if (b0 <? 128)%N then b0 :: utf8_decode r0
      else match r0 with
      | [] => []
      | b1 :: r1 =>
          if (b0 <? 224)%N then
            ((b0 - 192) * 64 + (b1 - 128))%N :: utf8_decode r1
          else match r1 with
          | [] => []
          | b2 :: r2 =>
              if (b0 <? 240)%N then
                ((b0 - 224) * 4096 + (b1 - 128) * 64 + (b2 - 128))%N
                  :: utf8_decode r2
              else match r2 with
              | [] => []
              | b3 :: r3 =>
                  ((b0 - 240) * 262144 + (b1 - 128) * 4096
                   + (b2 - 128) * 64 + (b3 - 128))%N :: utf8_decode r3
              end
          end
      end
  end.

Definition lit (s : string) : str :=
  utf8_decode (List.map N_of_ascii (list_ascii_of_string s)).

Fixpoint str_eqb (a b : str) : bool :=
  match a, b with
  | [], [] => true
  | x :: a', y :: b' => (x =? y)%N && str_eqb a' b'
  | _, _ => false
  end.

(** A [str] may hold a code point of the surrogate range (U+D800 to
    U+DFFF) on its own; UTF-8 has no encoding for it. *)
Definition is_surrogate (c : char) : bool :=
  ((55296 <=? c) && (c <=? 57343))%N.

(** [s.encode('utf-8')] does not raise *)
Definition encodable (s : str) : bool :=
  forallb (fun c => negb (is_surrogate c)) s.

(** truth value of a sequence: [if x:] *)
Definition nonempty {A : Type} (l : list A) : bool :=
  match l with [] => false | _ :: _ => true end.

(** [sep.join(parts)] *)
Fixpoint join (sep : str) (parts : list str) : str :=
  match parts with
  | [] => []
  | [p] => p
  | p :: rest => p ++ sep ++ join sep rest
  end.

(** [sub in s] as a proposition: [sub] occurs as a contiguous slice. *)
Definition contains (sub s : str) : Prop :=
  exists pre post, s = pre ++ sub ++ post.

(** [len(x)] *)
Definition len {A : Type} (l : list A) : Z := Z.of_nat (List.length l).

(** [enumerate(l, start)] *)
Fixpoint enumerate {A : Type} (l : list A) (start : Z) : list (Z * A) :=
  match l with
  | [] => []
  | a :: rest => (start, a) :: enumerate rest (start + 1)
  end.

(** [str(n)] for an [int]: decimal digits, with a leading minus sign. *)
Definition str_of_int (z : Z) : str :=
  List.map N_of_ascii
    (list_ascii_of_string (NilZero.string_of_int (Z.to_int z))).

(** ** Exceptions *)

Inductive exn : Type :=
| KeyError | IndexError | ValueError | TypeError | AttributeError
| OverflowError | UnicodeEncodeError.

Inductive outcome (A : Type) : Type :=
| Ok (a : A)
| Raise (e : exn).
Arguments Ok {A} a.
Arguments Raise {A} e.

Definition bind {A B : Type} (m : outcome A) (k : A -> outcome B)
  : outcome B :=
  match m with
  | Ok a => k a
  | Raise e => Raise e
  end.

(** ** Sequences: indexing with Python's negative indices *)

Definition norm_index {A : Type} (l : list A) (i : Z) : outcome nat :=
  let n := len l in
  if (0 <=? i) && (i <? n) then Ok (Z.to_nat i)
  else if (- n <=? i) && (i <? 0) then Ok (Z.to_nat (i + n))
  else Raise IndexError.

(** [l[i]] *)
Definition getitem {A : Type} (l : list A) (i : Z) : outcome A :=
  bind (norm_index l i) (fun k =>
    match nth_error l k with
    | Some a => Ok a
    | None => Raise IndexError
    end).

(** the list whose [k]-th cell holds [a] (an in-place mutation of the
    object stored there) *)
Fixpoint set_nth {A : Type} (l : list A) (k : nat) (a : A) : list A :=
  match l, k with
  | [], _ => []
  | _ :: t, O => a :: t
  | h :: t, S k' => h :: set_nth t k' a
  end.

(** ** Dictionaries, in insertion order *)

Definition dict (V : Type) := list (str * V).

Fixpoint dict_get {V : Type} (d : dict V) (k : str) : option V :=
  match d with
  | [] => None
  | (k', v) :: rest => if str_eqb k' k then Some v else dict_get rest k
  end.

(** [k in d] *)
Definition dict_mem {V : Type} (d : dict V) (k : str) : bool :=
  match dict_get d k with Some _ => true | None => false end.

(** [d[k] = v]: an existing key keeps its position, a new one goes last. *)
Fixpoint dict_set {V : Type} (d : dict V) (k : str) (v : V) : dict V :=
  match d with
  | [] => [(k, v)]
  | (k', v') :: rest =>
      if str_eqb k' k then (k', v) :: rest
      else (k', v') :: dict_set rest k v
  end.

(** [d[k]] *)
Definition dict_item {V : Type} (d : dict V) (k : str) : outcome V :=
  match dict_get d k with
  | Some v => Ok v
  | None => Raise KeyError
  end.

Definition keys {V : Type} (d : dict V) : list str := List.map fst d.
Definition values {V : Type} (d : dict V) : list V := List.map snd d.

(** ** [sorted(l, key=...)] with integer keys

    Python's sort is stable; the insertion sort below returns the stable
    non-decreasing arrangement (shown unique in [stable_sort_unique]). *)

Section Sorted.
Context {A : Type} (key : A -> Z).

Fixpoint insert_by (x : A) (l : list A) : list A :=
  match l with
  | [] => [x]
  | h :: t => if key x <=? key h then x :: h :: t
              else h :: insert_by x t
  end.

Definition sorted_by (l : list A) : list A :=
  List.fold_right insert_by [] l.
End Sorted.

(** ** Floats: [int * float] and [int < float] *)

Definition float := spec_float.
Definition prec : Z := 53.
Definition emax : Z := 1024.

(** Conversion of an [int] operand: correctly rounded, and an
    [OverflowError] when the rounded value is not finite. *)
Definition float_of_int (z : Z) : outcome float :=
  match binary_normalize prec emax z 0 false with
  | S754_infinity _ => Raise OverflowError
  | f => Ok f
  end.

Definition int_mul_float (z : Z) (f : float) : outcome float :=
  bind (float_of_int z) (fun x => Ok (SFmul prec emax x f)).

(** [w < f] for an [int] and a [float] compares the exact values. *)
Definition int_lt_float (w : Z) (f : float) : bool :=
  match f with
  | S754_zero _ => w <? 0
  | S754_infinity s => negb s
  | S754_nan => false
  | S754_finite s m e =>
      let v := if s then Z.neg m else Z.pos m in
      if 0 <=? e then w <? v * 2 ^ e else w * 2 ^ (- e) <? v
  end.

(** The literals [0.1], [0.5] and [0.8] as binary64 values. *)
Definition f0_1 : float := S754_finite false 7205759403792794 (-56).
Definition f0_5 : float := S754_finite false 4503599627370496 (-53).
Definition f0_8 : float := S754_finite false 7205759403792794 (-53).

(** ** Deletion *)

(** [del d[k]] on a present key *)
Fixpoint dict_del {V : Type} (d : dict V) (k : str) : dict V :=
  match d with
  | [] => []
  | (k', v) :: rest =>
      if str_eqb k' k then rest else (k', v) :: dict_del rest k
  end.

End Py.

Import Py.

Declare Scope py_scope.
Notation "x <- m ;; k" := (bind m (fun x => k))
  (at level 61, m at next level, right associativity) : py_scope.
Open Scope py_scope.

(* ================================================================== *)
(** * Values exchanged with the JSON library, and files *)
(* ================================================================== *)

Module Json.

(** The values [asdict] produces and [json.load] returns.  [PEnum] is a
    member of an [Enum] class: an object [json.dump] cannot encode. *)
Inductive pyval : Type :=
| PNone
| PBool (b : bool)
| PInt (z : Z)
| PFloat (f : float)
| PStr (s : str)
| PList (l : list pyval)
| PDict (d : list (str * pyval))
| PEnum (cls value : str).

Fixpoint serializable (v : pyval) : bool :=
  match v with
  | PList l => forallb serializable l
  | PDict d => forallb (fun kv => serializable (snd kv)) d
  | PEnum _ _ => false
  | _ => true
  end.

(** A file is missing, holds text that is not a JSON document, or holds a
    document, kept as the value [json.load] returns for it. *)
Inductive file : Type :=
| Absent
| Unreadable
| Doc (v : pyval).

(** every string of a value, the keys included, can be encoded *)
Fixpoint encodable_text (v : pyval) : bool :=
  match v with
  | PStr s => encodable s
  | PList l => forallb encodable_text l
  | PDict d =>
      forallb (fun kv => encodable (fst kv) && encodable_text (snd kv)) d
  | _ => true
  end.

(** The first exception of [json.dump(data, f, ensure_ascii=False)] into a
    file opened with [encoding='utf-8'].  The encoder yields the text
    chunk by chunk, a key before its value and the entries in order, and
    the file encodes each chunk as it is written: a string with a lone
    surrogate raises [UnicodeEncodeError] there, and an enum member
    raises [TypeError] when the encoder reaches it. *)
Fixpoint dump_error (v : pyval) : option exn :=
  match v with
  | PStr s => if encodable s then None else Some UnicodeEncodeError
  | PList l =>
      (fix items (l : list pyval) : option exn :=
         match l with
         | [] => None
         | x :: rest =>
             match dump_error x with
             | Some e => Some e
             | None => items rest
             end
         end) l
  | PDict d =>
      (fix entries (d : list (str * pyval)) : option exn :=
         match d with
         | [] => None
         | kv :: rest =>
             if encodable (fst kv) then
               match dump_error (snd kv) with
               | Some e => Some e
               | None => entries rest
               end
             else Some UnicodeEncodeError
         end) d
  | PEnum _ _ => Some TypeError
  | _ => None
  end.

(** [with open(f, 'w', encoding='utf-8') as f: json.dump(data, f,
    ensure_ascii=False)]: the file is truncated on opening; an exception
    of the dump leaves a partial text behind. *)
Definition json_dump (data : pyval) : file * outcome unit :=
  match dump_error data with
  | None => (Doc data, Ok tt)
  | Some e => (Unreadable, Raise e)
  end.

(** ** Rebuilding typed objects from loaded values

    The dataclasses do not check their field types.  A loaded value whose
    type differs from the declared one gives an object outside the typed
    model: [IllTyped]. *)
Inductive loaded (A : Type) : Type :=
| Built (a : A)
| Threw (e : exn)
| IllTyped.
Arguments Built {A} a.
Arguments Threw {A} e.
Arguments IllTyped {A}.

Definition lbind {A B : Type} (m : loaded A) (k : A -> loaded B)
  : loaded B :=
  match m with
  | Built a => k a
  | Threw e => Threw e
  | IllTyped => IllTyped
  end.

Definition of_outcome {A : Type} (m : outcome A) : loaded A :=
  match m with Ok a => Built a | Raise e => Threw e end.

Fixpoint lmap {A B : Type} (f : A -> loaded B) (l : list A)
  : loaded (list B) :=
  match l with
  | [] => Built []
  | a :: rest =>
      lbind (f a) (fun b => lbind (lmap f rest) (fun bs => Built (b :: bs)))
  end.

Definition to_str (v : pyval) : loaded str :=
  match v with PStr s => Built s | _ => IllTyped end.

Definition to_int (v : pyval) : loaded Z :=
  match v with PInt z => Built z | _ => IllTyped end.

Definition to_list {A : Type} (f : pyval -> loaded A) (v : pyval)
  : loaded (list A) :=
  match v with PList l => lmap f l | _ => IllTyped end.

Definition to_optional {A : Type} (f : pyval -> loaded A) (v : pyval)
  : loaded (option A) :=
  match v with
  | PNone => Built None
  | _ => lbind (f v) (fun a => Built (Some a))
  end.

Definition to_dict (v : pyval) : loaded (dict pyval) :=
  match v with PDict d => Built d | _ => IllTyped end.

Definition to_str_dict (v : pyval) : loaded (dict str) :=
  match v with
  | PDict d => lmap (fun kv => lbind (to_str (snd kv))
                                 (fun s => Built (fst kv, s))) d
  | _ => IllTyped
  end.

(** A constructor called with the entries of a dictionary as keyword
    arguments: an unexpected or a missing required keyword is a
    [TypeError], raised before any field is stored. *)
Definition kwargs_ok (fields required given : list str) : bool :=
  forallb (fun k => existsb (str_eqb k) fields) given
  && forallb (fun k => existsb (str_eqb k) given) required.

Definition with_kwargs {A : Type} (fields required given : list str)
    (build : loaded A) : loaded A :=
  if kwargs_ok fields required given then build else Threw TypeError.

(** a keyword argument, or the default of the parameter *)
Definition arg {A : Type} (d : dict pyval) (k : string)
    (f : pyval -> loaded A) (default : loaded A) : loaded A :=
  match dict_get d (lit k) with
  | Some v => f v
  | None => default
  end.

(** [v.items()] and [v.get(k, default)] exist on dictionaries only *)
Definition items (v : pyval) : loaded (dict pyval) :=
  match v with PDict d => Built d | _ => Threw AttributeError end.

Definition get (v : pyval) (k : string) (default : pyval) : loaded pyval :=
  match v with
  | PDict d =>
      Built (match dict_get d (lit k) with Some x => x | None => default end)
  | _ => Threw AttributeError
  end.

(** [for x in v] *)
Definition iterate (v : pyval) : loaded (list pyval) :=
  match v with
  | PList l => Built l
  | PDict d => Built (List.map PStr (keys d))
  | PStr s => Built (List.map (fun c => PStr [c]) s)
  | _ => Threw TypeError
  end.

End Json.

Import Json.

Notation "x <~ m ;; k" := (lbind m (fun x => k))
  (at level 61, m at next level, right associativity) : py_scope.

(* ================================================================== *)
(** * story_manager.py *)
(* ================================================================== *)

Module story_manager.

Inductive ChapterStatus : Type :=
| PLANNED | OUTLINE | DRAFTING | DRAFT | REVISION | COMPLETED.

(** [status.value] *)
Definition ChapterStatus_value (s : ChapterStatus) : str :=
  match s with
  | PLANNED => lit "planned"
  | OUTLINE => lit "outline"
  | DRAFTING => lit "drafting"
  | DRAFT => lit "draft"
  | REVISION => lit "revision"
  | COMPLETED => lit "completed"
  end.

Definition ChapterStatus_eqb (a b : ChapterStatus) : bool :=
  match a, b with
  | PLANNED, PLANNED | OUTLINE, OUTLINE | DRAFTING, DRAFTING
  | DRAFT, DRAFT | REVISION, REVISION | COMPLETED, COMPLETED => true
  | _, _ => false
  end.

(** [ChapterStatus(v)] for a loaded value: lookup by value, [ValueError]
    when no member has it. *)
Definition ChapterStatus_of (v : pyval) : outcome ChapterStatus :=
  match v with
  | PStr s =>
      if str_eqb s (lit "planned") then Ok PLANNED
      else if str_eqb s (lit "outline") then Ok OUTLINE
      else if str_eqb s (lit "drafting") then Ok DRAFTING
      else if str_eqb s (lit "draft") then Ok DRAFT
      else if str_eqb s (lit "revision") then Ok REVISION
      else if str_eqb s (lit "completed") then Ok COMPLETED
      else Raise ValueError
  | _ => Raise ValueError
  end.

Module Scene.
Record t : Type := mk {
  id : str;
  name : str;
  description : str;
  location : str;
  characters : list str;
  purpose : str;
  content : str;
  word_count : Z;
  notes : str;
  plot_threads : list str
}.

(** [Scene(...)], with [__post_init__] *)
Definition init (id name description location : str)
    (characters : list str) (purpose content : str) (word_count : Z)
    (notes : str) (plot_threads : option (list str)) : t :=
  mk id name description location characters purpose content
     (if nonempty content then len content else word_count)
     notes
     (match plot_threads with None => [] | Some l => l end).

(** [scene.content = c; scene.word_count = n] *)
Definition set_content (s : t) (c : str) (n : Z) : t :=
  mk (id s) (name s) (description s) (location s) (characters s)
     (purpose s) c n (notes s) (plot_threads s).
End Scene.

Module Chapter.
Record t : Type := mk {
  id : str;
  number : Z;
  title : str;
  summary : str;
  scenes : list Scene.t;
  status : ChapterStatus;
  target_word_count : Z;
  actual_word_count : Z;
  notes : str;
  created_at : str;
  updated_at : str
}.

Definition sum_word_count (l : list Scene.t) : Z :=
  List.fold_left (fun acc s => acc + Scene.word_count s) l 0.

Definition set_scenes (c : t) (l : list Scene.t) : t :=
  mk (id c) (number c) (title c) (summary c) l (status c)
     (target_word_count c) (actual_word_count c) (notes c)
     (created_at c) (updated_at c).

Definition _update_word_count (c : t) : t :=
  mk (id c) (number c) (title c) (summary c) (scenes c) (status c)
     (target_word_count c) (sum_word_count (scenes c)) (notes c)
     (created_at c) (updated_at c).

(** [Chapter(...)], with [__post_init__]; [now] is the reading of
    [datetime.now().isoformat()] *)
Definition init (now : str) (id : str) (number : Z) (title summary : str)
    (scenes : list Scene.t) (status : ChapterStatus)
    (target_word_count actual_word_count : Z) (notes : str)
    (created_at updated_at : option str) : t :=
  let created := match created_at with None => now | Some c => c end in
  let updated := match updated_at with None => created | Some u => u end in
  _update_word_count
    (mk id number title summary scenes status target_word_count
        actual_word_count notes created updated).
End Chapter.

Module Story.
Record t : Type := mk {
  id : str;
  title : str;
  genre : str;
  summary : str;
  chapters : list Chapter.t;
  target_word_count : Z;
  current_word_count : Z;
  status : str;
  created_at : str;
  updated_at : str
}.

Definition sum_word_count (l : list Chapter.t) : Z :=
  List.fold_left (fun acc c => acc + Chapter.actual_word_count c) l 0.

Definition set_chapters (s : t) (l : list Chapter.t) : t :=
  mk (id s) (title s) (genre s) (summary s) l (target_word_count s)
     (current_word_count s) (status s) (created_at s) (updated_at s).

Definition set_updated_at (s : t) (u : str) : t :=
  mk (id s) (title s) (genre s) (summary s) (chapters s)
     (target_word_count s) (current_word_count s) (status s)
     (created_at s) u.

Definition _update_word_count (s : t) : t :=
  mk (id s) (title s) (genre s) (summary s) (chapters s)
     (target_word_count s) (sum_word_count (chapters s)) (status s)
     (created_at s) (updated_at s).

Definition init (now : str) (id title genre summary : str)
    (chapters : list Chapter.t) (target_word_count current_word_count : Z)
    (status : str) (created_at updated_at : option str) : t :=
  let created := match created_at with None => now | Some c => c end in
  let updated := match updated_at with None => created | Some u => u end in
  _update_word_count
    (mk id title genre summary chapters target_word_count
        current_word_count status created updated).
End Story.

(** The manager: the [stories] dictionary, the selected story, and the
    contents of [stories.json]. *)
Record StoryManager : Type := mkStoryManager {
  stories : dict Story.t;
  current_story_id : option str;
  stories_file : file
}.

(** ** Persistence *)

(** [asdict(scene)] *)
Definition asdict_Scene (s : Scene.t) : pyval :=
  PDict [ (lit "id", PStr (Scene.id s));
          (lit "name", PStr (Scene.name s));
          (lit "description", PStr (Scene.description s));
          (lit "location", PStr (Scene.location s));
          (lit "characters", PList (List.map PStr (Scene.characters s)));
          (lit "purpose", PStr (Scene.purpose s));
          (lit "content", PStr (Scene.content s));
          (lit "word_count", PInt (Scene.word_count s));
          (lit "notes", PStr (Scene.notes s));
          (lit "plot_threads", PList (List.map PStr (Scene.plot_threads s))) ].

(** [asdict(chapter)]: the status is still the enum member *)
Definition asdict_Chapter (c : Chapter.t) : pyval :=
  PDict [ (lit "id", PStr (Chapter.id c));
          (lit "number", PInt (Chapter.number c));
          (lit "title", PStr (Chapter.title c));
          (lit "summary", PStr (Chapter.summary c));
          (lit "scenes", PList (List.map asdict_Scene (Chapter.scenes c)));
          (lit "status",
             PEnum (lit "ChapterStatus")
                   (ChapterStatus_value (Chapter.status c)));
          (lit "target_word_count", PInt (Chapter.target_word_count c));
          (lit "actual_word_count", PInt (Chapter.actual_word_count c));
          (lit "notes", PStr (Chapter.notes c));
          (lit "created_at", PStr (Chapter.created_at c));
          (lit "updated_at", PStr (Chapter.updated_at c)) ].

(** [asdict(story)] *)
Definition asdict_Story (s : Story.t) : pyval :=
  PDict [ (lit "id", PStr (Story.id s));
          (lit "title", PStr (Story.title s));
          (lit "genre", PStr (Story.genre s));
          (lit "summary", PStr (Story.summary s));
          (lit "chapters", PList (List.map asdict_Chapter (Story.chapters s)));
          (lit "target_word_count", PInt (Story.target_word_count s));
          (lit "current_word_count", PInt (Story.current_word_count s));
          (lit "status", PStr (Story.status s));
          (lit "created_at", PStr (Story.created_at s));
          (lit "updated_at", PStr (Story.updated_at s)) ].

(** [chapter['status'] = chapter['status'].value] *)
Definition status_to_value (chapter : pyval) : pyval :=
  match chapter with
  | PDict d =>
      match dict_get d (lit "status") with
      | Some (PEnum _ v) => PDict (dict_set d (lit "status") (PStr v))
      | _ => chapter
      end
  | _ => chapter
  end.

(** the loop of [save_stories] over [story_dict['chapters']] *)
Definition chapters_status_to_value (story_dict : pyval) : pyval :=
  match story_dict with
  | PDict d =>
      match dict_get d (lit "chapters") with
      | Some (PList l) =>
          PDict (dict_set d (lit "chapters")
                   (PList (List.map status_to_value l)))
      | _ => story_dict
      end
  | _ => story_dict
  end.

Definition save_stories (sm : StoryManager) : StoryManager :=
  let data :=
    List.fold_left
      (fun data kv =>
         dict_set data (fst kv) (chapters_status_to_value (asdict_Story (snd kv))))
      (stories sm) [] in
  (* an exception of the dump is caught and printed *)
  mkStoryManager (stories sm) (current_story_id sm)
                 (fst (json_dump (PDict data))).

Definition Scene_fields : list str :=
  List.map lit ["id"; "name"; "description"; "location"; "characters";
                "purpose"; "content"; "word_count"; "notes";
                "plot_threads"]%string.
Definition Scene_required : list str :=
  List.map lit ["id"; "name"; "description"; "location"; "characters";
                "purpose"]%string.

(** [Scene] called with the entries of [scene_data] as keywords *)
Definition Scene_of (scene_data : pyval) : loaded Scene.t :=
  match scene_data with
  | PDict d =>
      with_kwargs Scene_fields Scene_required (keys d)
        (id <~ arg d "id" to_str (Threw TypeError) ;;
         name <~ arg d "name" to_str (Threw TypeError) ;;
         description <~ arg d "description" to_str (Threw TypeError) ;;
         location <~ arg d "location" to_str (Threw TypeError) ;;
         characters <~ arg d "characters" (to_list to_str) (Threw TypeError) ;;
         purpose <~ arg d "purpose" to_str (Threw TypeError) ;;
         content <~ arg d "content" to_str (Built []) ;;
         word_count <~ arg d "word_count" to_int (Built 0) ;;
         notes <~ arg d "notes" to_str (Built []) ;;
         plot_threads <~ arg d "plot_threads"
                           (to_optional (to_list to_str)) (Built None) ;;
         Built (Scene.init id name description location characters purpose
                           content word_count notes plot_threads))
  | _ => Threw TypeError
  end.

Definition Chapter_fields : list str :=
  List.map lit ["id"; "number"; "title"; "summary"; "scenes"; "status";
                "target_word_count"; "actual_word_count"; "notes";
                "created_at"; "updated_at"]%string.
Definition Chapter_required : list str :=
  List.map lit ["id"; "number"; "title"; "summary"; "scenes"]%string.

(** [Chapter] called with the entries of [chapter_data], once [chapter_data['scenes']] and
    [chapter_data['status']] hold the rebuilt objects *)
Definition Chapter_of (now : str) (d : dict pyval)
    (scenes : list Scene.t) (status : ChapterStatus) : loaded Chapter.t :=
  with_kwargs Chapter_fields Chapter_required (keys d)
    (id <~ arg d "id" to_str (Threw TypeError) ;;
     number <~ arg d "number" to_int (Threw TypeError) ;;
     title <~ arg d "title" to_str (Threw TypeError) ;;
     summary <~ arg d "summary" to_str (Threw TypeError) ;;
     target <~ arg d "target_word_count" to_int (Built 3000) ;;
     actual <~ arg d "actual_word_count" to_int (Built 0) ;;
     notes <~ arg d "notes" to_str (Built []) ;;
     created_at <~ arg d "created_at" (to_optional to_str) (Built None) ;;
     updated_at <~ arg d "updated_at" (to_optional to_str) (Built None) ;;
     Built (Chapter.init now id number title summary scenes status target
                         actual notes created_at updated_at)).

Definition Story_fields : list str :=
  List.map lit ["id"; "title"; "genre"; "summary"; "chapters";
                "target_word_count"; "current_word_count"; "status";
                "created_at"; "updated_at"]%string.
Definition Story_required : list str :=
  List.map lit ["id"; "title"; "genre"; "summary"; "chapters"]%string.

(** [Story] called with the entries of [story_data], once [story_data['chapters']] holds the
    rebuilt chapters *)
Definition Story_of (now : str) (d : dict pyval)
    (chapters : list Chapter.t) : loaded Story.t :=
  with_kwargs Story_fields Story_required (keys d)
    (id <~ arg d "id" to_str (Threw TypeError) ;;
     title <~ arg d "title" to_str (Threw TypeError) ;;
     genre <~ arg d "genre" to_str (Threw TypeError) ;;
     summary <~ arg d "summary" to_str (Threw TypeError) ;;
     target <~ arg d "target_word_count" to_int (Built 50000) ;;
     current <~ arg d "current_word_count" to_int (Built 0) ;;
     status <~ arg d "status" to_str (Built (lit "planning")) ;;
     created_at <~ arg d "created_at" (to_optional to_str) (Built None) ;;
     updated_at <~ arg d "updated_at" (to_optional to_str) (Built None) ;;
     Built (Story.init now id title genre summary chapters target current
                       status created_at updated_at)).

(** the body of the loop over [story_data.get('chapters', [])] *)
Definition load_chapter (now : str) (chapter_data : pyval)
  : loaded Chapter.t :=
  scenes_data <~ get chapter_data "scenes" (PList []) ;;
  scene_list <~ iterate scenes_data ;;
  scenes <~ lmap Scene_of scene_list ;;
  d <~ items chapter_data ;;
  let d := dict_set d (lit "scenes") (PList []) in
  status <~ of_outcome (v <- dict_item d (lit "status") ;;
                        ChapterStatus_of v) ;;
  Chapter_of now d scenes status.

(** the body of the loop over [data.items()] *)
Definition load_story (now : str) (story_data : pyval) : loaded Story.t :=
  chapters_data <~ get story_data "chapters" (PList []) ;;
  chapter_list <~ iterate chapters_data ;;
  chapters <~ lmap (load_chapter now) chapter_list ;;
  d <~ items story_data ;;
  Story_of now (dict_set d (lit "chapters") (PList [])) chapters.

Definition load_stories_data (now : str) (data : pyval)
  : loaded (dict Story.t) :=
  entries <~ items data ;;
  List.fold_left
    (fun acc kv =>
       stories <~ acc ;;
       story <~ load_story now (snd kv) ;;
       Built (dict_set stories (fst kv) story))
    entries (Built []).

(** [_load_stories]: every exception is caught and printed, and the empty
    dictionary returned; [None] stands for a result outside the typed
    model.  [now] is the clock reading used for absent timestamps. *)
Definition _load_stories (now : str) (f : file) : option (dict Story.t) :=
  match f with
  | Absent => Some []
  | Unreadable => Some []
  | Doc data =>
      match load_stories_data now data with
      | Built stories => Some stories
      | Threw _ => Some []
      | IllTyped => None
      end
  end.

(** ** Operations *)

Definition STORY_TARGET : Z := 50000.
Definition CHAPTER_TARGET : Z := 3000.

(** [ts] is [int(datetime.now().timestamp())] *)
Definition create_story (ts : Z) (now : str) (sm : StoryManager)
    (title genre summary : str) : StoryManager * str :=
  let story_id :=
    lit "story_" ++ str_of_int (len (stories sm) + 1) ++ lit "_"
      ++ str_of_int ts in
  let story :=
    Story.init now story_id title genre summary [] STORY_TARGET 0
               (lit "planning") None None in
  (save_stories
     (mkStoryManager (dict_set (stories sm) story_id story)
                     (Some story_id) (stories_file sm)),
   story_id).

Definition add_chapter (now_created now_updated : str) (sm : StoryManager)
    (story_id title summary : str) : StoryManager * outcome str :=
  if negb (dict_mem (stories sm) story_id) then (sm, Raise ValueError)
  else
    match dict_item (stories sm) story_id with
    | Raise e => (sm, Raise e)
    | Ok story =>
        let chapter_number := len (Story.chapters story) + 1 in
        let chapter_id :=
          story_id ++ lit "_chapter_" ++ str_of_int chapter_number in
        let chapter :=
          Chapter.init now_created chapter_id chapter_number title summary
                       [] PLANNED CHAPTER_TARGET 0 [] None None in
        let story :=
          Story.set_updated_at
            (Story.set_chapters story (Story.chapters story ++ [chapter]))
            now_updated in
        (save_stories
           (mkStoryManager (dict_set (stories sm) story_id story)
                           (current_story_id sm) (stories_file sm)),
         Ok chapter_id)
    end.

(** the story, the normalised chapter index and the chapter of
    [story.chapters[chapter_number - 1]] *)
Definition chapter_at (story : Story.t) (chapter_number : Z)
  : outcome (nat * Chapter.t) :=
  k <- norm_index (Story.chapters story) (chapter_number - 1) ;;
  chapter <- getitem (Story.chapters story) (chapter_number - 1) ;;
  Ok (k, chapter).

Definition add_scene (now : str) (sm : StoryManager) (story_id : str)
    (chapter_number : Z) (name description location : str)
    (characters : list str) (purpose : str) : StoryManager * outcome str :=
  if negb (dict_mem (stories sm) story_id) then (sm, Raise ValueError)
  else
    match dict_item (stories sm) story_id with
    | Raise e => (sm, Raise e)
    | Ok story =>
        if len (Story.chapters story) <? chapter_number
        then (sm, Raise ValueError)
        else
          match chapter_at story chapter_number with
          | Raise e => (sm, Raise e)
          | Ok (k, chapter) =>
              let scene_id :=
                Chapter.id chapter ++ lit "_scene_"
                  ++ str_of_int (len (Chapter.scenes chapter) + 1) in
              let scene :=
                Scene.init scene_id name description location characters
                           purpose [] 0 [] None in
              let chapter :=
                Chapter.set_scenes chapter (Chapter.scenes chapter ++ [scene]) in
              let story :=
                Story.set_updated_at
                  (Story.set_chapters story
                     (set_nth (Story.chapters story) k chapter))
                  now in
              (save_stories
                 (mkStoryManager (dict_set (stories sm) story_id story)
                                 (current_story_id sm) (stories_file sm)),
               Ok scene_id)
          end
    end.

Definition update_scene_content (now : str) (sm : StoryManager)
    (story_id : str) (chapter_number scene_index : Z) (content : str)
  : StoryManager * outcome unit :=
  match
    (story <- dict_item (stories sm) story_id ;;
     kc <- chapter_at story chapter_number ;;
     j <- norm_index (Chapter.scenes (snd kc)) scene_index ;;
     scene <- getitem (Chapter.scenes (snd kc)) scene_index ;;
     Ok (story, kc, j, scene))
  with
  | Raise e => (sm, Raise e)
  | Ok (story, (k, chapter), j, scene) =>
      let scene := Scene.set_content scene content (len content) in
      let chapter :=
        Chapter._update_word_count
          (Chapter.set_scenes chapter
             (set_nth (Chapter.scenes chapter) j scene)) in
      let story :=
        Story.set_updated_at
          (Story._update_word_count
             (Story.set_chapters story
                (set_nth (Story.chapters story) k chapter)))
          now in
      (save_stories
         (mkStoryManager (dict_set (stories sm) story_id story)
                         (current_story_id sm) (stories_file sm)),
       Ok tt)
  end.

(** ** Contexts for the prompt *)

(** the separator ["\n"] *)
Definition NL : str := [10%N].

Definition scene_lines (parts : list str) (ie : Z * Scene.t) : list str :=
  let (i, scene) := ie in
  let parts :=
    parts ++ [lit "    " ++ str_of_int i ++ lit ". " ++ Scene.name scene
                ++ lit " (" ++ Scene.location scene ++ lit ")"] in
  let parts := parts ++ [lit "       目的: " ++ Scene.purpose scene] in
  if nonempty (Scene.content scene)
  then parts ++ [lit "       文字数: " ++ str_of_int (Scene.word_count scene)]
  else parts.

Definition chapter_lines (parts : list str) (chapter : Chapter.t)
  : list str :=
  let parts :=
    parts ++ [lit "第" ++ str_of_int (Chapter.number chapter) ++ lit "章: "
                ++ Chapter.title chapter] in
  let parts := parts ++ [lit "  概要: " ++ Chapter.summary chapter] in
  let parts :=
    parts ++ [lit "  状態: " ++ ChapterStatus_value (Chapter.status chapter)] in
  let parts :=
    parts ++ [lit "  進捗: " ++ str_of_int (Chapter.actual_word_count chapter)
                ++ lit "/" ++ str_of_int (Chapter.target_word_count chapter)
                ++ lit "文字"] in
  let parts :=
    if nonempty (Chapter.scenes chapter)
    then List.fold_left scene_lines
           (enumerate (Chapter.scenes chapter) 1)
           (parts ++ [lit "  シーン:"])
    else parts in
  parts ++ [[]].

Definition get_story_context (sm : StoryManager) (story_id : str)
  : outcome str :=
  if negb (dict_mem (stories sm) story_id) then Ok []
  else
    story <- dict_item (stories sm) story_id ;;
    let context_parts :=
      [ lit "=== 物語: " ++ Story.title story ++ lit " ===";
        lit "ジャンル: " ++ Story.genre story;
        lit "あらすじ: " ++ Story.summary story;
        lit "進捗: " ++ str_of_int (Story.current_word_count story)
          ++ lit "/" ++ str_of_int (Story.target_word_count story)
          ++ lit "文字";
        [];
        lit "=== 章構成 ===" ] in
    Ok (join NL (List.fold_left chapter_lines (Story.chapters story)
                                context_parts)).

(** [chapter.status in [ChapterStatus.DRAFTING, ChapterStatus.OUTLINE]] *)
Definition is_in_progress (chapter : Chapter.t) : bool :=
  existsb (ChapterStatus_eqb (Chapter.status chapter)) [DRAFTING; OUTLINE].

(** the [for ... break] loop of [get_current_chapter_context] *)
Fixpoint first_in_progress (chapters : list Chapter.t) : option Chapter.t :=
  match chapters with
  | [] => None
  | chapter :: rest =>
      if is_in_progress chapter then Some chapter
      else first_in_progress rest
  end.

Definition current_scene_lines (parts : list str) (ie : Z * Scene.t)
  : list str :=
  let (i, scene) := ie in
  let parts :=
    parts ++ [lit "【シーン" ++ str_of_int i ++ lit ": " ++ Scene.name scene
                ++ lit "】"] in
  let parts := parts ++ [lit "場所: " ++ Scene.location scene] in
  let parts :=
    parts ++ [lit "登場人物: " ++ join (lit ", ") (Scene.characters scene)] in
  let parts := parts ++ [lit "目的: " ++ Scene.purpose scene] in
  let parts :=
    if nonempty (Scene.content scene)
    then (parts ++ [lit "内容:"]) ++ [Scene.content scene]
    else parts in
  parts ++ [[]].

(** the chapter [get_current_chapter_context] settles on *)
Definition current_chapter_of (story : Story.t)
  : outcome (option Chapter.t) :=
  match first_in_progress (Story.chapters story) with
  | Some chapter => Ok (Some chapter)
  | None =>
      if nonempty (Story.chapters story)
      then chapter <- getitem (Story.chapters story) (-1) ;; Ok (Some chapter)
      else Ok None
  end.

Definition get_current_chapter_context (sm : StoryManager) (story_id : str)
  : outcome str :=
  story <- dict_item (stories sm) story_id ;;
  current_chapter <- current_chapter_of story ;;
  match current_chapter with
  | None => Ok []
  | Some current_chapter =>
      let context_parts :=
        [ lit "=== 現在の章: 第" ++ str_of_int (Chapter.number current_chapter)
            ++ lit "章 " ++ Chapter.title current_chapter ++ lit " ===";
          lit "概要: " ++ Chapter.summary current_chapter;
          [] ] in
      Ok (join NL (List.fold_left current_scene_lines
                     (enumerate (Chapter.scenes current_chapter) 1)
                     context_parts))
  end.

Definition SUGGEST_INTRODUCTION : str :=
  lit "物語の導入部分をもっと詳しく描写しましょう".
Definition SUGGEST_RELATIONSHIPS : str :=
  lit "キャラクターの関係性を深く掘り下げましょう".
Definition SUGGEST_TENSION : str :=
  lit "クライマックスに向けて緊張感を高めましょう".
Definition SUGGEST_ENDING : str :=
  lit "結末に向けて伏線を回収していきましょう".

(** the [if]/[elif] chain on the progress of the story *)
Definition progress_suggestion (current target : Z) : outcome str :=
  t1 <- int_mul_float target f0_1 ;;
  if int_lt_float current t1 then Ok SUGGEST_INTRODUCTION
  else
    t5 <- int_mul_float target f0_5 ;;
    if int_lt_float current t5 then Ok SUGGEST_RELATIONSHIPS
    else
      t8 <- int_mul_float target f0_8 ;;
      if int_lt_float current t8 then Ok SUGGEST_TENSION
      else Ok SUGGEST_ENDING.

Definition chapter_suggestion (suggestions : list str) (chapter : Chapter.t)
  : list str :=
  if ChapterStatus_eqb (Chapter.status chapter) PLANNED
  then suggestions ++ [lit "第" ++ str_of_int (Chapter.number chapter)
                         ++ lit "章のアウトラインを作成しましょう"]
  else if ChapterStatus_eqb (Chapter.status chapter) OUTLINE
  then suggestions ++ [lit "第" ++ str_of_int (Chapter.number chapter)
                         ++ lit "章の執筆を開始しましょう"]
  else suggestions.

Definition get_writing_suggestions (sm : StoryManager) (story_id : str)
  : outcome (list str) :=
  story <- dict_item (stories sm) story_id ;;
  progress <- progress_suggestion (Story.current_word_count story)
                                  (Story.target_word_count story) ;;
  Ok (List.fold_left chapter_suggestion (Story.chapters story) [progress]).

(** [StoryManager(data_dir)] over the contents of [stories.json] *)
Definition StoryManager_init (now : str) (f : file) : option StoryManager :=
  match _load_stories now f with
  | Some stories => Some (mkStoryManager stories None f)
  | None => None
  end.

End story_manager.

(* ================================================================== *)
(** * world_manager.py *)
(* ================================================================== *)

Module world_manager.

Inductive SettingType : Type :=
| GEOGRAPHY | HISTORY | CULTURE | MAGIC | TECHNOLOGY | POLITICS | RELIGION
| ECONOMY.

Definition SettingType_value (t : SettingType) : str :=
  match t with
  | GEOGRAPHY => lit "geography"
  | HISTORY => lit "history"
  | CULTURE => lit "culture"
  | MAGIC => lit "magic"
  | TECHNOLOGY => lit "technology"
  | POLITICS => lit "politics"
  | RELIGION => lit "religion"
  | ECONOMY => lit "economy"
  end.

Definition SettingType_eqb (a b : SettingType) : bool :=
  str_eqb (SettingType_value a) (SettingType_value b).

Definition SettingType_members : list SettingType :=
  [GEOGRAPHY; HISTORY; CULTURE; MAGIC; TECHNOLOGY; POLITICS; RELIGION;
   ECONOMY].

(** [SettingType(v)]: lookup by value, as the endpoint does on a request *)
Definition SettingType_of (v : str) : outcome SettingType :=
  match List.find (fun t => str_eqb (SettingType_value t) v)
                  SettingType_members with
  | Some t => Ok t
  | None => Raise ValueError
  end.

Module WorldSetting.
Record t : Type := mk {
  id : str;
  name : str;
  type : SettingType;
  description : str;
  details : dict pyval;
  related_settings : list str;
  created_at : str;
  updated_at : str
}.

Definition init (now : str) (id name : str) (type : SettingType)
    (description : str) (details : dict pyval)
    (related_settings : option (list str))
    (created_at updated_at : option str) : t :=
  let created := match created_at with None => now | Some c => c end in
  let updated := match updated_at with None => created | Some u => u end in
  mk id name type description details
     (match related_settings with None => [] | Some l => l end)
     created updated.
End WorldSetting.

Module TimelineEvent.
Record t : Type := mk {
  id : str;
  name : str;
  description : str;
  year : Z;
  month : option Z;
  day : option Z;
  importance : Z;
  related_characters : list str;
  related_settings : list str;
  consequences : list str
}.

Definition init (id name description : str) (year : Z)
    (month day : option Z) (importance : Z)
    (related_characters related_settings consequences
       : option (list str)) : t :=
  let dflt o := match o with None => [] | Some l => l end in
  mk id name description year month day importance
     (dflt related_characters) (dflt related_settings) (dflt consequences).
End TimelineEvent.

Module PlotThread.
Record t : Type := mk {
  id : str;
  name : str;
  description : str;
  setup_events : list str;
  payoff_events : list str;
  status : str;
  importance : Z;
  related_characters : list str
}.

Definition init (id name description : str)
    (setup_events payoff_events : list str) (status : str)
    (importance : Z) (related_characters : option (list str)) : t :=
  mk id name description setup_events payoff_events status importance
     (match related_characters with None => [] | Some l => l end).
End PlotThread.

(** The manager: the three dictionaries and the contents of
    [world_settings.json], [timeline.json] and [plot_threads.json]. *)
Record WorldManager : Type := mkWorldManager {
  settings : dict WorldSetting.t;
  timeline : dict TimelineEvent.t;
  plot_threads : dict PlotThread.t;
  settings_file : file;
  timeline_file : file;
  plots_file : file
}.

(** ** Persistence *)

Definition of_optional_int (o : option Z) : pyval :=
  match o with None => PNone | Some z => PInt z end.

(** [asdict(setting)]: the [type] entry is the enum member itself *)
Definition asdict_WorldSetting (s : WorldSetting.t) : pyval :=
  PDict [ (lit "id", PStr (WorldSetting.id s));
          (lit "name", PStr (WorldSetting.name s));
          (lit "type",
             PEnum (lit "SettingType")
                   (SettingType_value (WorldSetting.type s)));
          (lit "description", PStr (WorldSetting.description s));
          (lit "details", PDict (WorldSetting.details s));
          (lit "related_settings",
             PList (List.map PStr (WorldSetting.related_settings s)));
          (lit "created_at", PStr (WorldSetting.created_at s));
          (lit "updated_at", PStr (WorldSetting.updated_at s)) ].

Definition asdict_TimelineEvent (e : TimelineEvent.t) : pyval :=
  PDict [ (lit "id", PStr (TimelineEvent.id e));
          (lit "name", PStr (TimelineEvent.name e));
          (lit "description", PStr (TimelineEvent.description e));
          (lit "year", PInt (TimelineEvent.year e));
          (lit "month", of_optional_int (TimelineEvent.month e));
          (lit "day", of_optional_int (TimelineEvent.day e));
          (lit "importance", PInt (TimelineEvent.importance e));
          (lit "related_characters",
             PList (List.map PStr (TimelineEvent.related_characters e)));
          (lit "related_settings",
             PList (List.map PStr (TimelineEvent.related_settings e)));
          (lit "consequences",
             PList (List.map PStr (TimelineEvent.consequences e))) ].

Definition asdict_PlotThread (p : PlotThread.t) : pyval :=
  PDict [ (lit "id", PStr (PlotThread.id p));
          (lit "name", PStr (PlotThread.name p));
          (lit "description", PStr (PlotThread.description p));
          (lit "setup_events",
             PList (List.map PStr (PlotThread.setup_events p)));
          (lit "payoff_events",
             PList (List.map PStr (PlotThread.payoff_events p)));
          (lit "status", PStr (PlotThread.status p));
          (lit "importance", PInt (PlotThread.importance p));
          (lit "related_characters",
             PList (List.map PStr (PlotThread.related_characters p))) ].

(** [{k: asdict(v) for k, v in d.items()}] *)
Definition asdict_all {V : Type} (asdict : V -> pyval) (d : dict V)
  : pyval :=
  PDict (List.fold_left (fun data kv => dict_set data (fst kv) (asdict (snd kv)))
                        d []).

(** [save_all]: the three dumps in sequence, with no handler around them *)
Definition save_all (wm : WorldManager) : WorldManager * outcome unit :=
  let (f1, r1) := json_dump (asdict_all asdict_WorldSetting (settings wm)) in
  let wm := mkWorldManager (settings wm) (timeline wm) (plot_threads wm)
                           f1 (timeline_file wm) (plots_file wm) in
  match r1 with
  | Raise e => (wm, Raise e)
  | Ok _ =>
      let (f2, r2) :=
        json_dump (asdict_all asdict_TimelineEvent (timeline wm)) in
      let wm := mkWorldManager (settings wm) (timeline wm) (plot_threads wm)
                               (settings_file wm) f2 (plots_file wm) in
      match r2 with
      | Raise e => (wm, Raise e)
      | Ok _ =>
          let (f3, r3) :=
            json_dump (asdict_all asdict_PlotThread (plot_threads wm)) in
          (mkWorldManager (settings wm) (timeline wm) (plot_threads wm)
                          (settings_file wm) (timeline_file wm) f3,
           r3)
      end
  end.




Definition TimelineEvent_fields : list str :=
  List.map lit ["id"; "name"; "description"; "year"; "month"; "day";
                "importance"; "related_characters"; "related_settings";
                "consequences"]%string.
Definition TimelineEvent_required : list str :=
  List.map lit ["id"; "name"; "description"; "year"]%string.

Definition TimelineEvent_of (v : pyval) : loaded TimelineEvent.t :=
  match v with
  | PDict d =>
      with_kwargs TimelineEvent_fields TimelineEvent_required (keys d)
        (id <~ arg d "id" to_str (Threw TypeError) ;;
         name <~ arg d "name" to_str (Threw TypeError) ;;
         description <~ arg d "description" to_str (Threw TypeError) ;;
         year <~ arg d "year" to_int (Threw TypeError) ;;
         month <~ arg d "month" (to_optional to_int) (Built None) ;;
         day <~ arg d "day" (to_optional to_int) (Built None) ;;
         importance <~ arg d "importance" to_int (Built 1) ;;
         chars <~ arg d "related_characters"
                    (to_optional (to_list to_str)) (Built None) ;;
         related <~ arg d "related_settings"
                      (to_optional (to_list to_str)) (Built None) ;;
         consequences <~ arg d "consequences"
                           (to_optional (to_list to_str)) (Built None) ;;
         Built (TimelineEvent.init id name description year month day
                                   importance chars related consequences))
  | _ => Threw TypeError
  end.



(** the comprehension over [data.items()] of the three loaders, and the
    handler around it *)
Definition load_all {V : Type} (build : pyval -> loaded V) (f : file)
  : option (dict V) :=
  match f with
  | Absent => Some []
  | Unreadable => Some []
  | Doc data =>
      match
        (entries <~ items data ;;
         List.fold_left
           (fun acc kv =>
              d <~ acc ;;
              v <~ build (snd kv) ;;
              Built (dict_set d (fst kv) v))
           entries (Built []))
      with
      | Built d => Some d
      | Threw _ => Some []
      | IllTyped => None
      end
  end.

Definition _load_timeline (f : file) : option (dict TimelineEvent.t) :=
  load_all TimelineEvent_of f.

(** ** Operations *)

Definition add_setting (wm : WorldManager) (setting : WorldSetting.t)
  : WorldManager * outcome unit :=
  save_all (mkWorldManager
              (dict_set (settings wm) (WorldSetting.id setting) setting)
              (timeline wm) (plot_threads wm)
              (settings_file wm) (timeline_file wm) (plots_file wm)).

Definition add_timeline_event (wm : WorldManager) (event : TimelineEvent.t)
  : WorldManager * outcome unit :=
  save_all (mkWorldManager
              (settings wm)
              (dict_set (timeline wm) (TimelineEvent.id event) event)
              (plot_threads wm)
              (settings_file wm) (timeline_file wm) (plots_file wm)).

Definition add_plot_thread (wm : WorldManager) (plot : PlotThread.t)
  : WorldManager * outcome unit :=
  save_all (mkWorldManager
              (settings wm) (timeline wm)
              (dict_set (plot_threads wm) (PlotThread.id plot) plot)
              (settings_file wm) (timeline_file wm) (plots_file wm)).

(** [[e for e in self.timeline.values() if e.importance >= 3]] *)
Definition is_important (e : TimelineEvent.t) : bool :=
  3 <=? TimelineEvent.importance e.

(** [[p for p in self.plot_threads.values() if p.status == "active"]] *)
Definition is_active (p : PlotThread.t) : bool :=
  str_eqb (PlotThread.status p) (lit "active").

Definition important_events (wm : WorldManager) : list TimelineEvent.t :=
  sorted_by TimelineEvent.year
            (List.filter is_important (values (timeline wm))).

Definition active_plots (wm : WorldManager) : list PlotThread.t :=
  List.filter is_active (values (plot_threads wm)).

Definition event_lines (parts : list str) (event : TimelineEvent.t)
  : list str :=
  ((parts ++ [lit "【" ++ str_of_int (TimelineEvent.year event) ++ lit "年】"
                ++ TimelineEvent.name event])
     ++ [TimelineEvent.description event]) ++ [[]].

Definition plot_lines (parts : list str) (plot : PlotThread.t) : list str :=
  ((parts ++ [lit "【" ++ PlotThread.name plot ++ lit "】"])
     ++ [PlotThread.description plot]) ++ [[]].

Section WorldContext.
(** How an f-string renders a stored detail value: the built-in [str]
    of an arbitrary object. *)
Variable format_value : pyval -> str.

Definition detail_line (parts : list str) (kv : str * pyval) : list str :=
  parts ++ [lit "  - " ++ fst kv ++ lit ": " ++ format_value (snd kv)].

Definition setting_lines (relevant_types : option (list SettingType))
    (parts : list str) (setting : WorldSetting.t) : list str :=
  if match relevant_types with
     | None => true
     | Some types => existsb (SettingType_eqb (WorldSetting.type setting))
                             types
     end
  then
    let parts :=
      parts ++ [lit "【" ++ WorldSetting.name setting ++ lit "】("
                  ++ SettingType_value (WorldSetting.type setting)
                  ++ lit ")"] in
    let parts := parts ++ [WorldSetting.description setting] in
    let parts :=
      if nonempty (WorldSetting.details setting)
      then List.fold_left detail_line (WorldSetting.details setting) parts
      else parts in
    parts ++ [[]]
  else parts.

Definition get_world_context (wm : WorldManager)
    (relevant_types : option (list SettingType)) : str :=
  let context_parts := [lit "=== 世界設定 ==="] in
  let context_parts :=
    List.fold_left (setting_lines relevant_types) (values (settings wm))
                   context_parts in
  let context_parts := context_parts ++ [lit "=== 重要な歴史 ==="] in
  let context_parts :=
    List.fold_left event_lines (important_events wm) context_parts in
  let context_parts := context_parts ++ [lit "=== アクティブな伏線 ==="] in
  let context_parts :=
    List.fold_left plot_lines (active_plots wm) context_parts in
  join [10%N] context_parts.
End WorldContext.

(** the grouping of [check_consistency], which no later statement reads *)
Fixpoint group_add (groups : list (Z * list TimelineEvent.t))
    (event : TimelineEvent.t) : list (Z * list TimelineEvent.t) :=
  match groups with
  | [] => [(TimelineEvent.year event, [event])]
  | (y, l) :: rest =>
      if y =? TimelineEvent.year event then (y, l ++ [event]) :: rest
      else (y, l) :: group_add rest event
  end.

Definition issue_of (issues : list str) (plot : PlotThread.t) : list str :=
  if is_active plot && negb (nonempty (PlotThread.payoff_events plot))
  then issues ++ [lit "伏線「" ++ PlotThread.name plot ++ lit "」が未回収です"]
  else issues.

Definition check_consistency (wm : WorldManager) : list str :=
  let issues : list str := [] in
  let events_by_year :=
    List.fold_left group_add (values (timeline wm)) [] in
  List.fold_left issue_of (values (plot_threads wm)) issues.

(** ** The context of given characters *)

(** [any(char in related for char in character_names)] *)
Definition any_in (character_names related : list str) : bool :=
  existsb (fun char => existsb (str_eqb char) related) character_names.

Definition plot_status_lines (parts : list str) (plot : PlotThread.t)
  : list str :=
  ((parts ++ [lit "【" ++ PlotThread.name plot ++ lit "】("
                ++ PlotThread.status plot ++ lit ")"])
     ++ [PlotThread.description plot]) ++ [[]].

Definition get_character_relevant_context (wm : WorldManager)
    (character_names : list str) : str :=
  let context_parts : list str := [] in
  let relevant_events :=
    List.filter
      (fun event =>
         any_in character_names (TimelineEvent.related_characters event))
      (values (timeline wm)) in
  let context_parts :=
    if nonempty relevant_events then
      List.fold_left event_lines
        (sorted_by TimelineEvent.year relevant_events)
        (context_parts ++ [lit "=== 関連する歴史的イベント ==="])
    else context_parts in
  let relevant_plots :=
    List.filter
      (fun plot =>
         any_in character_names (PlotThread.related_characters plot))
      (values (plot_threads wm)) in
  let context_parts :=
    if nonempty relevant_plots then
      List.fold_left plot_status_lines relevant_plots
        (context_parts ++ [lit "=== 関連する伏線 ==="])
    else context_parts in
  join [10%N] context_parts.

End world_manager.

(* ================================================================== *)
(** * memory_manager.py *)
(* ================================================================== *)

Module memory_manager.

(** An entry of [story_appearances] and of [development_notes]. *)
Record Appearance : Type := mkAppearance {
  story_title : str;
  role : str;
  appearance_date : str
}.

Record Development : Type := mkDevelopment {
  note : str;
  development_date : str
}.

(** The dictionary [add_character] stores under a name.  The key
    [updated_at] exists once [update_character] has run. *)
Module CharacterProfile.
Record t : Type := mk {
  description : str;
  traits : list str;
  background : str;
  relationships : dict str;
  story_appearances : list Appearance;
  development_notes : list Development;
  created_at : str;
  updated_at : option str
}.
End CharacterProfile.

Record CharacterMemoryManager : Type := mkCharacterMemoryManager {
  characters : dict CharacterProfile.t;
  memory_file : file
}.

(** ** Persistence: the stored dictionaries as the JSON library sees them *)

Definition value_of_Appearance (a : Appearance) : pyval :=
  PDict [ (lit "story_title", PStr (story_title a));
          (lit "role", PStr (role a));
          (lit "date", PStr (appearance_date a)) ].

Definition value_of_Development (d : Development) : pyval :=
  PDict [ (lit "note", PStr (note d));
          (lit "date", PStr (development_date d)) ].

Definition value_of_profile (c : CharacterProfile.t) : pyval :=
  PDict
    ([ (lit "description", PStr (CharacterProfile.description c));
       (lit "traits", PList (List.map PStr (CharacterProfile.traits c)));
       (lit "background", PStr (CharacterProfile.background c));
       (lit "relationships",
          PDict (List.map (fun kv => (fst kv, PStr (snd kv)))
                          (CharacterProfile.relationships c)));
       (lit "story_appearances",
          PList (List.map value_of_Appearance
                          (CharacterProfile.story_appearances c)));
       (lit "development_notes",
          PList (List.map value_of_Development
                          (CharacterProfile.development_notes c)));
       (lit "created_at", PStr (CharacterProfile.created_at c)) ]
     ++ match CharacterProfile.updated_at c with
        | None => []
        | Some u => [(lit "updated_at", PStr u)]
        end).

(** the keys of a stored dictionary, in their order of creation *)
Fixpoint keys_eqb (a b : list str) : bool :=
  match a, b with
  | [], [] => true
  | x :: a', y :: b' => str_eqb x y && keys_eqb a' b'
  | _, _ => false
  end.

Definition exact_keys (d : dict pyval) (expected : list string) : bool :=
  keys_eqb (keys d) (List.map lit expected).

Definition Appearance_of (v : pyval) : loaded Appearance :=
  match v with
  | PDict d =>
      if exact_keys d ["story_title"; "role"; "date"]%string then
        t <~ arg d "story_title" to_str IllTyped ;;
        r <~ arg d "role" to_str IllTyped ;;
        x <~ arg d "date" to_str IllTyped ;;
        Built (mkAppearance t r x)
      else IllTyped
  | _ => IllTyped
  end.

Definition Development_of (v : pyval) : loaded Development :=
  match v with
  | PDict d =>
      if exact_keys d ["note"; "date"]%string then
        n <~ arg d "note" to_str IllTyped ;;
        x <~ arg d "date" to_str IllTyped ;;
        Built (mkDevelopment n x)
      else IllTyped
  | _ => IllTyped
  end.

(** A loaded entry is kept as it is: it is a profile when it has the
    shape [add_character] and [update_character] give it. *)
Definition profile_of (v : pyval) : loaded CharacterProfile.t :=
  match v with
  | PDict d =>
      if exact_keys d ["description"; "traits"; "background";
                       "relationships"; "story_appearances";
                       "development_notes"; "created_at"]%string
         || exact_keys d ["description"; "traits"; "background";
                          "relationships"; "story_appearances";
                          "development_notes"; "created_at";
                          "updated_at"]%string
      then
        description <~ arg d "description" to_str IllTyped ;;
        traits <~ arg d "traits" (to_list to_str) IllTyped ;;
        background <~ arg d "background" to_str IllTyped ;;
        relationships <~ arg d "relationships" to_str_dict IllTyped ;;
        appearances <~ arg d "story_appearances" (to_list Appearance_of)
                          IllTyped ;;
        notes <~ arg d "development_notes" (to_list Development_of)
                    IllTyped ;;
        created_at <~ arg d "created_at" to_str IllTyped ;;
        updated_at <~ arg d "updated_at"
                         (fun v => u <~ to_str v ;; Built (Some u))
                         (Built None) ;;
        Built (CharacterProfile.mk description traits background
                 relationships appearances notes created_at updated_at)
      else IllTyped
  | _ => IllTyped
  end.

(** [_save_memory]; an exception of the dump is caught and printed *)
Definition _save_memory (now : str) (cm : CharacterMemoryManager)
  : CharacterMemoryManager :=
  let data :=
    PDict [ (lit "characters",
               PDict (List.map (fun kv => (fst kv, value_of_profile (snd kv)))
                               (characters cm)));
            (lit "last_updated", PStr now) ] in
  mkCharacterMemoryManager (characters cm) (fst (json_dump data)).

(** [_load_memory]: the value of [data.get('characters', {})]; an
    exception leaves the empty dictionary; [None] stands for a result
    outside the typed model. *)
Definition _load_memory (f : file) : option (dict CharacterProfile.t) :=
  match f with
  | Absent => Some []
  | Unreadable => Some []
  | Doc data =>
      match
        (chars <~ get data "characters" (PDict []) ;;
         entries <~ to_dict chars ;;
         lmap (fun kv => c <~ profile_of (snd kv) ;; Built (fst kv, c))
              entries)
      with
      | Built d => Some d
      | Threw _ => Some []
      | IllTyped => None
      end
  end.

(** ** Operations *)

(** [x or []] *)
Definition or_empty {A : Type} (o : option (list A)) : list A :=
  match o with None => [] | Some l => l end.

(** the manager after [add_character]: the profile is stored and saved
    before the closing message is printed *)
Definition add_character (now_created now_saved : str)
    (cm : CharacterMemoryManager) (name description : str)
    (traits : option (list str)) (background : str)
    (relationships : option (dict str)) : CharacterMemoryManager :=
  _save_memory now_saved
    (mkCharacterMemoryManager
       (dict_set (characters cm) name
          (CharacterProfile.mk description (or_empty traits) background
             (or_empty relationships) [] [] now_created None))
       (memory_file cm)).

Definition NO_CHARACTER_INFO : str := lit "キャラクター情報なし".

(** the block of one stored character *)
Definition char_info (name : str) (char : CharacterProfile.t) : str :=
  let char_info := lit "【" ++ name ++ lit "】" ++ [10%N] in
  let char_info :=
    char_info ++ (lit "説明: " ++ CharacterProfile.description char
                    ++ [10%N]) in
  let char_info :=
    if nonempty (CharacterProfile.traits char)
    then char_info ++ (lit "特徴: "
                         ++ join (lit ", ") (CharacterProfile.traits char)
                         ++ [10%N])
    else char_info in
  let char_info :=
    if nonempty (CharacterProfile.background char)
    then char_info ++ (lit "背景: " ++ CharacterProfile.background char
                         ++ [10%N])
    else char_info in
  if nonempty (CharacterProfile.relationships char)
  then
    let relationships :=
      List.map (fun kv => fst kv ++ lit ": " ++ snd kv)
               (CharacterProfile.relationships char) in
    char_info ++ (lit "関係性: " ++ join (lit ", ") relationships ++ [10%N])
  else char_info.

Definition memory_part (cm : CharacterMemoryManager)
    (memory_parts : list str) (name : str) : list str :=
  if dict_mem (characters cm) name then
    match dict_get (characters cm) name with
    | Some char => memory_parts ++ [char_info name char]
    | None => memory_parts
    end
  else memory_parts.

Definition get_character_memory_string (cm : CharacterMemoryManager)
    (character_names : option (list str)) : str :=
  if negb (nonempty (or_empty character_names)) then NO_CHARACTER_INFO
  else
    let memory_parts :=
      List.fold_left (memory_part cm) (or_empty character_names) [] in
    if nonempty memory_parts then join [10%N] memory_parts
    else NO_CHARACTER_INFO.

(** ** Further operations *)

(** [get_character_info]: [self.characters.get(name)] *)
Definition get_character_info (cm : CharacterMemoryManager) (name : str)
  : option CharacterProfile.t :=
  dict_get (characters cm) name.

Definition get_all_characters (cm : CharacterMemoryManager)
  : dict CharacterProfile.t :=
  characters cm.

(** [x if x is not None else old] *)
Definition or_keep {A : Type} (o : option A) (old : A) : A :=
  match o with Some a => a | None => old end.

Definition update_character (now_updated now_saved : str)
    (cm : CharacterMemoryManager) (name : str)
    (description : option str) (traits : option (list str))
    (background : option str) (relationships : option (dict str))
  : CharacterMemoryManager * outcome unit :=
  if negb (dict_mem (characters cm) name) then (cm, Raise ValueError)
  else
    match dict_item (characters cm) name with
    | Raise e => (cm, Raise e)
    | Ok char =>
        let char :=
          CharacterProfile.mk
            (or_keep description (CharacterProfile.description char))
            (or_keep traits (CharacterProfile.traits char))
            (or_keep background (CharacterProfile.background char))
            (or_keep relationships (CharacterProfile.relationships char))
            (CharacterProfile.story_appearances char)
            (CharacterProfile.development_notes char)
            (CharacterProfile.created_at char)
            (Some now_updated) in
        (_save_memory now_saved
           (mkCharacterMemoryManager
              (dict_set (characters cm) name char) (memory_file cm)),
         Ok tt)
    end.

Definition add_story_appearance (now_date now_saved : str)
    (cm : CharacterMemoryManager) (character_name story_title role : str)
  : CharacterMemoryManager :=
  if dict_mem (characters cm) character_name then
    match dict_get (characters cm) character_name with
    | Some char =>
        let char :=
          CharacterProfile.mk
            (CharacterProfile.description char)
            (CharacterProfile.traits char)
            (CharacterProfile.background char)
            (CharacterProfile.relationships char)
            (CharacterProfile.story_appearances char
               ++ [mkAppearance story_title role now_date])
            (CharacterProfile.development_notes char)
            (CharacterProfile.created_at char)
            (CharacterProfile.updated_at char) in
        _save_memory now_saved
          (mkCharacterMemoryManager
             (dict_set (characters cm) character_name char)
             (memory_file cm))
    | None => cm
    end
  else cm.

Definition add_character_development (now_date now_saved : str)
    (cm : CharacterMemoryManager) (character_name development_note : str)
  : CharacterMemoryManager :=
  if dict_mem (characters cm) character_name then
    match dict_get (characters cm) character_name with
    | Some char =>
        let char :=
          CharacterProfile.mk
            (CharacterProfile.description char)
            (CharacterProfile.traits char)
            (CharacterProfile.background char)
            (CharacterProfile.relationships char)
            (CharacterProfile.story_appearances char)
            (CharacterProfile.development_notes char
               ++ [mkDevelopment development_note now_date])
            (CharacterProfile.created_at char)
            (CharacterProfile.updated_at char) in
        _save_memory now_saved
          (mkCharacterMemoryManager
             (dict_set (characters cm) character_name char)
             (memory_file cm))
    | None => cm
    end
  else cm.

Definition get_character_relationships (cm : CharacterMemoryManager)
    (character_name : str) : dict str :=
  if dict_mem (characters cm) character_name then
    match dict_get (characters cm) character_name with
    | Some char => CharacterProfile.relationships char
    | None => []
    end
  else [].

Definition add_character_relationship (now_saved : str)
    (cm : CharacterMemoryManager)
    (character_name related_character relationship : str)
  : CharacterMemoryManager :=
  if dict_mem (characters cm) character_name then
    match dict_get (characters cm) character_name with
    | Some char =>
        let char :=
          CharacterProfile.mk
            (CharacterProfile.description char)
            (CharacterProfile.traits char)
            (CharacterProfile.background char)
            (dict_set (CharacterProfile.relationships char)
                      related_character relationship)
            (CharacterProfile.story_appearances char)
            (CharacterProfile.development_notes char)
            (CharacterProfile.created_at char)
            (CharacterProfile.updated_at char) in
        _save_memory now_saved
          (mkCharacterMemoryManager
             (dict_set (characters cm) character_name char)
             (memory_file cm))
    | None => cm
    end
  else cm.

Record CharacterStatistics : Type := mkCharacterStatistics {
  total_characters : Z;
  total_story_appearances : Z;
  most_common_traits : list (str * Z);
  characters_with_relationships : Z
}.

(** [trait_counts[trait] = trait_counts.get(trait, 0) + 1] *)
Definition count_trait (trait_counts : dict Z) (trait : str) : dict Z :=
  dict_set trait_counts trait
    (match dict_get trait_counts trait with Some n => n | None => 0 end + 1).

(** [sorted(..., key=lambda x: x[1], reverse=True)] is the stable sort in
    non-increasing order of the count: the stable sort by the negated
    count. *)
Definition get_character_statistics (cm : CharacterMemoryManager)
  : CharacterStatistics :=
  let total_characters := len (characters cm) in
  let total_appearances :=
    List.fold_left
      (fun acc char => acc + len (CharacterProfile.story_appearances char))
      (values (characters cm)) 0 in
  let trait_counts :=
    List.fold_left
      (fun trait_counts char =>
         List.fold_left count_trait (CharacterProfile.traits char)
                        trait_counts)
      (values (characters cm)) [] in
  mkCharacterStatistics
    total_characters total_appearances
    (List.firstn 5 (sorted_by (fun kv => - snd kv) trait_counts))
    (len (List.filter
            (fun c => nonempty (CharacterProfile.relationships c))
            (values (characters cm)))).

End memory_manager.

(* ================================================================== *)
(** * advanced_main.py: the timeline and generation endpoints *)
(* ================================================================== *)

Module advanced_main.

Import world_manager story_manager memory_manager.

(** The module-level managers. *)
Record App : Type := mkApp {
  the_world_manager : WorldManager;
  the_story_manager : StoryManager;
  the_character_memory : CharacterMemoryManager
}.

(** [HTTPException(status_code, detail)]; the detail text is not modelled *)
Record HTTPException : Type := mkHTTPException { status_code : Z }.

Record TimelineEventRequest : Type := mkTimelineEventRequest {
  te_name : str;
  te_description : str;
  te_year : Z;
  te_month : option Z;
  te_day : option Z;
  te_importance : Z;
  te_related_characters : list str
}.

(** [POST /world/timeline] *)
Definition add_timeline_event (app : App) (request : TimelineEventRequest)
  : App * (HTTPException + pyval) :=
  let wm := the_world_manager app in
  let event_id := lit "event_" ++ str_of_int (len (timeline wm) + 1) in
  let event :=
    TimelineEvent.init event_id (te_name request) (te_description request)
      (te_year request) (te_month request) (te_day request)
      (te_importance request) (Some (te_related_characters request))
      None None in
  let (wm, r) := world_manager.add_timeline_event wm event in
  let app := mkApp wm (the_story_manager app) (the_character_memory app) in
  match r with
  | Raise _ => (app, inl (mkHTTPException 500))
  | Ok _ =>
      (app,
       inr (PDict [ (lit "message",
                       PStr (lit "時系列イベント「" ++ te_name request
                               ++ lit "」が追加されました"));
                    (lit "event_id", PStr event_id) ]))
  end.

Definition timeline_entry (events : list pyval) (event : TimelineEvent.t)
  : list pyval :=
  events ++
  [PDict [ (lit "id", PStr (TimelineEvent.id event));
           (lit "name", PStr (TimelineEvent.name event));
           (lit "description", PStr (TimelineEvent.description event));
           (lit "year", PInt (TimelineEvent.year event));
           (lit "month", of_optional_int (TimelineEvent.month event));
           (lit "day", of_optional_int (TimelineEvent.day event));
           (lit "importance", PInt (TimelineEvent.importance event));
           (lit "related_characters",
              PList (List.map PStr (TimelineEvent.related_characters event)))
         ]].

(** [GET /world/timeline] *)
Definition get_timeline (app : App) : pyval :=
  let events :=
    List.fold_left timeline_entry
      (sorted_by TimelineEvent.year
                 (values (timeline (the_world_manager app))))
      [] in
  PDict [ (lit "timeline", PList events);
          (lit "total_events", PInt (len events)) ].

Record AdvancedGenerationRequest : Type := mkAdvancedGenerationRequest {
  prompt : str;
  story_id : option str;
  chapter_number : option Z;
  scene_index : option Z;
  use_world_context : bool;
  use_character_memory : bool;
  max_tokens : Z;
  temperature : float
}.

Record GenerationResponse : Type := mkGenerationResponse {
  response : str;
  used_world_context : bool;
  used_story_context : bool;
  used_character_memory : bool
}.

(** truth value of an [Optional[str]] and of an [Optional[int]] *)
Definition truthy_str (o : option str) : bool :=
  match o with None => false | Some s => nonempty s end.
Definition truthy_int (o : option Z) : bool :=
  match o with None => false | Some z => negb (z =? 0) end.

Section Generation.
Variable format_value : pyval -> str.
(** The text-generation backend: [llama_engine.is_ready()] and
    [llama_engine.generate(prompt, max_tokens=..., temperature=...)]. *)
Variable is_ready : bool.
Variable generate : str -> Z -> float -> outcome str.

(** the blocks collected in [context_parts] *)
Definition context_parts (app : App) (request : AdvancedGenerationRequest)
  : outcome (list str) :=
  let context_parts : list str := [] in
  let context_parts :=
    if use_world_context request then
      let world_context :=
        get_world_context format_value (the_world_manager app) None in
      if nonempty world_context then context_parts ++ [world_context]
      else context_parts
    else context_parts in
  context_parts <-
    (if truthy_str (story_id request) then
       let sid := match story_id request with Some s => s | None => [] end in
       story_context <- get_story_context (the_story_manager app) sid ;;
       let context_parts :=
         if nonempty story_context then context_parts ++ [story_context]
         else context_parts in
       if truthy_int (chapter_number request) then
         chapter_context <-
           get_current_chapter_context (the_story_manager app) sid ;;
         Ok (if nonempty chapter_context
             then context_parts ++ [chapter_context]
             else context_parts)
       else Ok context_parts
     else Ok context_parts) ;;
  Ok (if use_character_memory request then
        let character_context :=
          get_character_memory_string (the_character_memory app) None in
        if negb (str_eqb character_context NO_CHARACTER_INFO)
        then context_parts
               ++ [lit "=== キャラクター情報 ===" ++ [10%N]
                     ++ character_context]
        else context_parts
      else context_parts).

Definition final_prompt (app : App) (request : AdvancedGenerationRequest)
  : outcome str :=
  context_parts <- context_parts app request ;;
  let full_context := join [10%N; 10%N] context_parts in
  Ok ([10%N] ++ full_context ++ [10%N; 10%N]
        ++ lit "=== 執筆指示 ===" ++ [10%N]
        ++ prompt request ++ [10%N; 10%N]
        ++ lit "上記の世界観、物語設定、キャラクター情報を踏まえて、一貫性のある内容を生成してください。"
        ++ [10%N]).

(** [POST /generate/advanced]: every exception raised in the body,
    the 503 included, reaches the handler and leaves as a 500. *)
Definition advanced_generate (app : App)
    (request : AdvancedGenerationRequest)
  : HTTPException + GenerationResponse :=
  match
    (if negb is_ready then inl (mkHTTPException 503)
     else
       match
         (final_prompt <- final_prompt app request ;;
          generate final_prompt (max_tokens request) (temperature request))
       with
       | Raise _ => inl (mkHTTPException 500)
       | Ok response =>
           inr (mkGenerationResponse response
                  (use_world_context request
                   && nonempty (get_world_context format_value
                                  (the_world_manager app) None))
                  (truthy_str (story_id request))
                  (use_character_memory request))
       end)
  with
  | inl _ => inl (mkHTTPException 500)
  | inr r => inr r
  end.
End Generation.

(** The other endpoints of [advanced_main.py]. *)
Module Endpoints.

Record WorldSettingRequest : Type := mkWorldSettingRequest {
  ws_name : str;
  ws_type : str;
  ws_description : str;
  ws_details : dict pyval
}.

Record PlotThreadRequest : Type := mkPlotThreadRequest {
  pt_name : str;
  pt_description : str;
  pt_setup_events : list str;
  pt_related_characters : list str
}.

Record StoryRequest : Type := mkStoryRequest {
  sr_title : str;
  sr_genre : str;
  sr_summary : str;
  sr_target_word_count : Z
}.

Record ChapterRequest : Type := mkChapterRequest {
  cr_title : str;
  cr_summary : str;
  cr_target_word_count : Z
}.

Record SceneRequest : Type := mkSceneRequest {
  sc_name : str;
  sc_description : str;
  sc_location : str;
  sc_characters : list str;
  sc_purpose : str
}.

Definition with_world (app : App) (wm : WorldManager) : App :=
  mkApp wm (the_story_manager app) (the_character_memory app).

Definition with_stories (app : App) (sm : StoryManager) : App :=
  mkApp (the_world_manager app) sm (the_character_memory app).

(** [POST /world/settings] *)
Definition add_world_setting (now : str) (app : App)
    (request : WorldSettingRequest) : App * (HTTPException + pyval) :=
  let wm := the_world_manager app in
  let setting_id := lit "setting_" ++ str_of_int (len (settings wm) + 1) in
  match SettingType_of (ws_type request) with
  | Raise _ => (app, inl (mkHTTPException 500))
  | Ok type =>
      let setting :=
        WorldSetting.init now setting_id (ws_name request) type
                          (ws_description request) (ws_details request)
                          None None None in
      let (wm, r) := add_setting wm setting in
      match r with
      | Raise _ => (with_world app wm, inl (mkHTTPException 500))
      | Ok _ =>
          (with_world app wm,
           inr (PDict [ (lit "message",
                           PStr (lit "世界設定「" ++ ws_name request
                                   ++ lit "」が追加されました"));
                        (lit "setting_id", PStr setting_id) ]))
      end
  end.

(** [GET /world/settings] *)
Definition get_world_settings (app : App) : pyval :=
  let wm := the_world_manager app in
  PDict [ (lit "settings",
             PDict (List.fold_left
                      (fun d kv =>
                         dict_set d (fst kv)
                           (PDict [ (lit "name",
                                       PStr (WorldSetting.name (snd kv)));
                                    (lit "type",
                                       PStr (SettingType_value
                                               (WorldSetting.type (snd kv))));
                                    (lit "description",
                                       PStr (WorldSetting.description
                                               (snd kv)));
                                    (lit "details",
                                       PDict (WorldSetting.details (snd kv)))
                                  ]))
                      (settings wm) []));
          (lit "total_count", PInt (len (settings wm))) ].

(** [POST /world/plots] *)
Definition add_plot_thread (app : App) (request : PlotThreadRequest)
  : App * (HTTPException + pyval) :=
  let wm := the_world_manager app in
  let plot_id := lit "plot_" ++ str_of_int (len (plot_threads wm) + 1) in
  let plot :=
    PlotThread.init plot_id (pt_name request) (pt_description request)
                    (pt_setup_events request) [] (lit "active") 1
                    (Some (pt_related_characters request)) in
  let (wm, r) := world_manager.add_plot_thread wm plot in
  match r with
  | Raise _ => (with_world app wm, inl (mkHTTPException 500))
  | Ok _ =>
      (with_world app wm,
       inr (PDict [ (lit "message",
                       PStr (lit "伏線「" ++ pt_name request
                               ++ lit "」が追加されました"));
                    (lit "plot_id", PStr plot_id) ]))
  end.

(** [POST /stories]: the manager is not given the requested target *)
Definition create_story (ts : Z) (now : str) (app : App)
    (request : StoryRequest) : App * (HTTPException + pyval) :=
  let (sm, story_id) :=
    story_manager.create_story ts now (the_story_manager app)
      (sr_title request) (sr_genre request) (sr_summary request) in
  (with_stories app sm,
   inr (PDict [ (lit "message",
                   PStr (lit "物語「" ++ sr_title request
                           ++ lit "」が作成されました"));
                (lit "story_id", PStr story_id) ])).

(** [GET /stories] *)
Definition get_stories (app : App) : pyval :=
  let stories_info :=
    List.fold_left
      (fun d kv =>
         let story := snd kv in
         dict_set d (fst kv)
           (PDict [ (lit "title", PStr (Story.title story));
                    (lit "genre", PStr (Story.genre story));
                    (lit "summary", PStr (Story.summary story));
                    (lit "progress",
                       PStr (str_of_int (Story.current_word_count story)
                               ++ lit "/"
                               ++ str_of_int (Story.target_word_count story)));
                    (lit "chapters", PInt (len (Story.chapters story)));
                    (lit "status", PStr (Story.status story)) ]))
      (stories (the_story_manager app)) [] in
  PDict [ (lit "stories", PDict stories_info);
          (lit "total_count", PInt (len stories_info)) ].

(** [POST /stories/{story_id}/chapters] *)
Definition add_chapter (now_created now_updated : str) (app : App)
    (story_id : str) (request : ChapterRequest)
  : App * (HTTPException + pyval) :=
  let (sm, r) :=
    story_manager.add_chapter now_created now_updated
      (the_story_manager app) story_id (cr_title request)
      (cr_summary request) in
  match r with
  | Raise _ => (with_stories app sm, inl (mkHTTPException 500))
  | Ok chapter_id =>
      (with_stories app sm,
       inr (PDict [ (lit "message",
                       PStr (lit "章「" ++ cr_title request
                               ++ lit "」が追加されました"));
                    (lit "chapter_id", PStr chapter_id) ]))
  end.

(** [POST /stories/{story_id}/chapters/{chapter_number}/scenes] *)
Definition add_scene (now : str) (app : App) (story_id : str)
    (chapter_number : Z) (request : SceneRequest)
  : App * (HTTPException + pyval) :=
  let (sm, r) :=
    story_manager.add_scene now (the_story_manager app) story_id
      chapter_number (sc_name request) (sc_description request)
      (sc_location request) (sc_characters request) (sc_purpose request) in
  match r with
  | Raise _ => (with_stories app sm, inl (mkHTTPException 500))
  | Ok scene_id =>
      (with_stories app sm,
       inr (PDict [ (lit "message",
                       PStr (lit "シーン「" ++ sc_name request
                               ++ lit "」が追加されました"));
                    (lit "scene_id", PStr scene_id) ]))
  end.

(** [GET /stories/{story_id}/suggestions] *)
Definition get_writing_suggestions (app : App) (story_id : str)
  : HTTPException + pyval :=
  match story_manager.get_writing_suggestions (the_story_manager app)
                                              story_id with
  | Raise _ => inl (mkHTTPException 500)
  | Ok suggestions =>
      let consistency_issues := check_consistency (the_world_manager app) in
      inr (PDict [ (lit "writing_suggestions",
                      PList (List.map PStr suggestions));
                   (lit "consistency_issues",
                      PList (List.map PStr consistency_issues));
                   (lit "story_id", PStr story_id) ])
  end.

(** [GET /dashboard] *)
Definition get_dashboard (app : App) : pyval :=
  let wm := the_world_manager app in
  let sm := the_story_manager app in
  PDict
    [ (lit "world_stats",
         PDict [ (lit "settings_count", PInt (len (settings wm)));
                 (lit "timeline_events", PInt (len (timeline wm)));
                 (lit "active_plots",
                    PInt (len (List.filter is_active
                                           (values (plot_threads wm))))) ]);
      (lit "story_stats",
         PDict [ (lit "total_stories", PInt (len (stories sm)));
                 (lit "total_chapters",
                    PInt (List.fold_left
                            (fun acc s => acc + len (Story.chapters s))
                            (values (stories sm)) 0));
                 (lit "total_words",
                    PInt (List.fold_left
                            (fun acc s => acc + Story.current_word_count s)
                            (values (stories sm)) 0)) ]);
      (lit "character_stats",
         PDict [ (lit "total_characters",
                    PInt (len (characters (the_character_memory app)))) ]) ].

End Endpoints.

End advanced_main.

(* ================================================================== *)
(** * main.py: the character endpoints *)
(* ================================================================== *)

Module main.

Import memory_manager advanced_main.

Record CharacterRequest : Type := mkCharacterRequest {
  name : str;
  description : str;
  traits : option (list str);
  background : option str;
  relationships : option (dict str)
}.

Definition NOT_FOUND : HTTPException := mkHTTPException 404.

(** [GET /characters/{character_name}]: a stored dictionary is never
    empty, so [not character] holds for [None] only *)
Definition get_character (cm : CharacterMemoryManager)
    (character_name : str) : HTTPException + pyval :=
  match get_character_info cm character_name with
  | None => inl NOT_FOUND
  | Some character =>
      inr (PDict [ (lit "name", PStr character_name);
                   (lit "character", value_of_profile character) ])
  end.

(** the [character] entry of an answer: [get_character_info(name)] *)
Definition character_value (cm : CharacterMemoryManager) (name : str)
  : pyval :=
  match get_character_info cm name with
  | Some character => value_of_profile character
  | None => PNone
  end.

(** [PUT /characters/{character_name}]: the 404 is raised outside the
    [try] block *)
Definition update_character (now_updated now_saved : str)
    (cm : CharacterMemoryManager) (character_name : str)
    (request : CharacterRequest)
  : CharacterMemoryManager * (HTTPException + pyval) :=
  if negb (dict_mem (get_all_characters cm) character_name)
  then (cm, inl NOT_FOUND)
  else
    let (cm, r) :=
      memory_manager.update_character now_updated now_saved cm
        character_name (Some (description request)) (traits request)
        (background request) (relationships request) in
    match r with
    | Raise _ => (cm, inl (mkHTTPException 500))
    | Ok _ =>
        (cm,
         inr (PDict [ (lit "message",
                         PStr (lit "キャラクター '" ++ character_name
                                 ++ lit "' が更新されました"));
                      (lit "character", character_value cm character_name) ]))
    end.

(** [DELETE /characters/{character_name}] *)
Definition delete_character (now_saved : str) (cm : CharacterMemoryManager)
    (character_name : str)
  : CharacterMemoryManager * (HTTPException + pyval) :=
  if negb (dict_mem (get_all_characters cm) character_name)
  then (cm, inl NOT_FOUND)
  else
    (_save_memory now_saved
       (mkCharacterMemoryManager (dict_del (characters cm) character_name)
                                 (memory_file cm)),
     inr (PDict [ (lit "message",
                     PStr (lit "キャラクター '" ++ character_name
                             ++ lit "' が削除されました")) ])).

(** [POST /characters/{character_name}/development]; [None] when the
    posted note is not a string, which the typed model does not hold *)
Definition add_character_development (now_date now_saved : str)
    (cm : CharacterMemoryManager) (character_name : str)
    (development : dict pyval)
  : option (CharacterMemoryManager * (HTTPException + pyval)) :=
  if negb (dict_mem (get_all_characters cm) character_name)
  then Some (cm, inl NOT_FOUND)
  else
    match match dict_get development (lit "note") with
          | Some (PStr note) => Some note
          | Some _ => None
          | None => Some []
          end with
    | None => None
    | Some note =>
        let cm :=
          memory_manager.add_character_development now_date now_saved cm
            character_name note in
        Some (cm,
              inr (PDict
                     [ (lit "message",
                          PStr (lit "キャラクター '" ++ character_name
                                  ++ lit "' の成長記録が追加されました"));
                       (lit "character",
                          character_value cm character_name) ]))
    end.

End main.


(* ================================================================== *)
(** * Vocabulary of the properties *)
(* ================================================================== *)

Import story_manager world_manager memory_manager advanced_main.

(** the sum of a list of integers *)
Definition zsum (l : list Z) : Z := List.fold_right Z.add 0 l.

(** ** Calls on the story manager *)

Inductive story_call : Type :=
| CreateStory (ts : Z) (now : str) (title genre summary : str)
| AddChapter (now_created now_updated : str) (story_id title summary : str)
| AddScene (now : str) (story_id : str) (chapter_number : Z)
           (name description location : str) (characters : list str)
           (purpose : str)
| UpdateSceneContent (now : str) (story_id : str)
                     (chapter_number scene_index : Z) (content : str).

(** the manager after a call, whether the call returned or raised *)
Definition story_step (sm : StoryManager) (c : story_call) : StoryManager :=
  match c with
  | CreateStory ts now title genre summary =>
      fst (create_story ts now sm title genre summary)
  | AddChapter n1 n2 story_id title summary =>
      fst (add_chapter n1 n2 sm story_id title summary)
  | AddScene now story_id k name description location characters purpose =>
      fst (add_scene now sm story_id k name description location characters
                     purpose)
  | UpdateSceneContent now story_id k j content =>
      fst (update_scene_content now sm story_id k j content)
  end.

Definition story_run (sm : StoryManager) (calls : list story_call)
  : StoryManager :=
  List.fold_left story_step calls sm.

(** the manager of a first start: no story, [stories.json] as found *)
Definition fresh_story_manager (f : file) : StoryManager :=
  mkStoryManager [] None f.

(** ** Story identifiers *)

(** the identifier [create_story] builds from a running index and a time *)
Definition story_key (index ts : Z) : str :=
  lit "story_" ++ str_of_int index ++ lit "_" ++ str_of_int ts.

(** the [i]-th key, counting from one, carries the index [i] *)
Definition keys_numbered (ks : list str) : Prop :=
  forall (i : nat) (k : str),
    nth_error ks i = Some k -> exists ts, k = story_key (Z.of_nat i + 1) ts.

(** ** Derived word counts *)

Definition scene_counted (s : Scene.t) : Prop :=
  Scene.word_count s = len (Scene.content s).

Definition chapter_counted (c : Chapter.t) : Prop :=
  Chapter.actual_word_count c
    = zsum (List.map (fun s => len (Scene.content s)) (Chapter.scenes c))
  /\ Forall scene_counted (Chapter.scenes c).

Definition story_counted (s : Story.t) : Prop :=
  Story.current_word_count s
    = zsum (List.map Chapter.actual_word_count (Story.chapters s))
  /\ Forall chapter_counted (Story.chapters s).

Definition store_counted (sm : StoryManager) : Prop :=
  Forall (fun kv => story_counted (snd kv)) (stories sm).

(** ** Blocks of lines of the contexts *)

Definition issue_message (plot : PlotThread.t) : str :=
  lit "伏線「" ++ PlotThread.name plot ++ lit "」が未回収です".

(** an active thread with no payoff event *)
Definition unresolved (plot : PlotThread.t) : bool :=
  str_eqb (PlotThread.status plot) (lit "active")
  && match PlotThread.payoff_events plot with [] => true | _ => false end.

Definition setting_block (format_value : pyval -> str)
    (setting : WorldSetting.t) : list str :=
  [ lit "【" ++ WorldSetting.name setting ++ lit "】("
      ++ SettingType_value (WorldSetting.type setting) ++ lit ")";
    WorldSetting.description setting ]
  ++ List.map (fun kv => lit "  - " ++ fst kv ++ lit ": "
                           ++ format_value (snd kv))
              (WorldSetting.details setting)
  ++ [[]].

Definition event_block (event : TimelineEvent.t) : list str :=
  [ lit "【" ++ str_of_int (TimelineEvent.year event) ++ lit "年】"
      ++ TimelineEvent.name event;
    TimelineEvent.description event;
    [] ].

Definition plot_block (plot : PlotThread.t) : list str :=
  [ lit "【" ++ PlotThread.name plot ++ lit "】";
    PlotThread.description plot;
    [] ].

(** the lines of [get_world_context] for given settings, events, plots *)
Definition world_lines (format_value : pyval -> str)
    (ss : list WorldSetting.t) (es : list TimelineEvent.t)
    (ps : list PlotThread.t) : list str :=
  [lit "=== 世界設定 ==="] ++ List.flat_map (setting_block format_value) ss
  ++ [lit "=== 重要な歴史 ==="] ++ List.flat_map event_block es
  ++ [lit "=== アクティブな伏線 ==="] ++ List.flat_map plot_block ps.

(** a list in non-decreasing order of a key *)
Definition sorted_on {A : Type} (key : A -> Z) (l : list A) : Prop :=
  Sorted (fun a b => key a <= key b) l.

(** [l'] keeps, among the elements of equal key, the order they have in
    [l] *)
Definition stable_on {A : Type} (key : A -> Z) (l l' : list A) : Prop :=
  forall k, List.filter (fun a => key a =? k) l'
            = List.filter (fun a => key a =? k) l.

(** ** The current chapter and the suggestions *)

Definition in_progress (c : Chapter.t) : Prop :=
  Chapter.status c = DRAFTING \/ Chapter.status c = OUTLINE.

Definition current_scene_block (ie : Z * Scene.t) : list str :=
  [ lit "【シーン" ++ str_of_int (fst ie) ++ lit ": " ++ Scene.name (snd ie)
      ++ lit "】";
    lit "場所: " ++ Scene.location (snd ie);
    lit "登場人物: " ++ join (lit ", ") (Scene.characters (snd ie));
    lit "目的: " ++ Scene.purpose (snd ie) ]
  ++ (if nonempty (Scene.content (snd ie))
      then [lit "内容:"; Scene.content (snd ie)] else [])
  ++ [[]].

(** the text [get_current_chapter_context] renders for a chapter *)
Definition chapter_text (c : Chapter.t) : str :=
  join [10%N]
    ([ lit "=== 現在の章: 第" ++ str_of_int (Chapter.number c) ++ lit "章 "
         ++ Chapter.title c ++ lit " ===";
       lit "概要: " ++ Chapter.summary c;
       [] ]
     ++ List.flat_map current_scene_block (enumerate (Chapter.scenes c) 1)).

(** the suggestion a chapter contributes, if any *)
Definition chapter_advice (c : Chapter.t) : list str :=
  match Chapter.status c with
  | PLANNED => [lit "第" ++ str_of_int (Chapter.number c)
                  ++ lit "章のアウトラインを作成しましょう"]
  | OUTLINE => [lit "第" ++ str_of_int (Chapter.number c)
                  ++ lit "章の執筆を開始しましょう"]
  | _ => []
  end.

(** ** The timeline listing *)

(** an entry of the list [GET /world/timeline] returns *)
Definition timeline_json (event : TimelineEvent.t) : pyval :=
  PDict [ (lit "id", PStr (TimelineEvent.id event));
          (lit "name", PStr (TimelineEvent.name event));
          (lit "description", PStr (TimelineEvent.description event));
          (lit "year", PInt (TimelineEvent.year event));
          (lit "month", of_optional_int (TimelineEvent.month event));
          (lit "day", of_optional_int (TimelineEvent.day event));
          (lit "importance", PInt (TimelineEvent.importance event));
          (lit "related_characters",
             PList (List.map PStr (TimelineEvent.related_characters event)))
        ].

(** a first start: nothing stored, no file *)
Definition fresh_world_manager : WorldManager :=
  mkWorldManager [] [] [] Absent Absent Absent.

Definition fresh_app : App :=
  mkApp fresh_world_manager (fresh_story_manager Absent)
        (mkCharacterMemoryManager [] Absent).

(** the scenario of the specification: events A (500), B (100), C (300) *)
Definition event_request (name : string) (year importance : Z)
  : TimelineEventRequest :=
  mkTimelineEventRequest (lit name) [] year None None importance [].

Definition app_with_three_events : App :=
  let app := fst (advanced_main.add_timeline_event fresh_app
                    (event_request "A" 500 2)) in
  let app := fst (advanced_main.add_timeline_event app
                    (event_request "B" 100 4)) in
  fst (advanced_main.add_timeline_event app (event_request "C" 300 5)).

(** the names in a timeline listing *)
Definition listed_names (resp : pyval) : list pyval :=
  match resp with
  | PDict ((_, PList events) :: _) =>
      List.map (fun e => match e with
                         | PDict (_ :: (_, n) :: _) => n
                         | _ => PNone
                         end) events
  | _ => []
  end.

(** ** Character blocks and the prompt *)

Definition starts_with (p s : str) : Prop := exists rest, s = p ++ rest.

(** the blocks of the requested names that are stored, in request order *)
Definition requested_blocks (cm : CharacterMemoryManager)
    (names : list str) : list str :=
  List.flat_map
    (fun name => match dict_get (characters cm) name with
                 | Some char => [char_info name char]
                 | None => []
                 end)
    names.

Definition CHARACTER_HEADER : str := lit "=== キャラクター情報 ===".

(** a block that is neither the sentinel nor a character block *)
Definition not_character_block (part : str) : Prop :=
  part <> NO_CHARACTER_INFO /\ ~ starts_with CHARACTER_HEADER part.

(** the prompt built around the joined context blocks *)
Definition prompt_around (full_context prompt : str) : str :=
  [10%N] ++ full_context ++ [10%N; 10%N]
    ++ lit "=== 執筆指示 ===" ++ [10%N]
    ++ prompt ++ [10%N; 10%N]
    ++ lit "上記の世界観、物語設定、キャラクター情報を踏まえて、一貫性のある内容を生成してください。"
    ++ [10%N].

(** ** Stored documents *)

Definition with_status (c : Chapter.t) (st : ChapterStatus) : Chapter.t :=
  Chapter.mk (Chapter.id c) (Chapter.number c) (Chapter.title c)
             (Chapter.summary c) (Chapter.scenes c) st
             (Chapter.target_word_count c) (Chapter.actual_word_count c)
             (Chapter.notes c) (Chapter.created_at c) (Chapter.updated_at c).

(** a chapter as [stories.json] holds it, with a given status text *)
Definition stored_chapter (status_text : Chapter.t -> str) (c : Chapter.t)
  : pyval :=
  PDict [ (lit "id", PStr (Chapter.id c));
          (lit "number", PInt (Chapter.number c));
          (lit "title", PStr (Chapter.title c));
          (lit "summary", PStr (Chapter.summary c));
          (lit "scenes", PList (List.map asdict_Scene (Chapter.scenes c)));
          (lit "status", PStr (status_text c));
          (lit "target_word_count", PInt (Chapter.target_word_count c));
          (lit "actual_word_count", PInt (Chapter.actual_word_count c));
          (lit "notes", PStr (Chapter.notes c));
          (lit "created_at", PStr (Chapter.created_at c));
          (lit "updated_at", PStr (Chapter.updated_at c)) ].

Definition stored_story (status_text : Chapter.t -> str) (s : Story.t)
  : pyval :=
  PDict [ (lit "id", PStr (Story.id s));
          (lit "title", PStr (Story.title s));
          (lit "genre", PStr (Story.genre s));
          (lit "summary", PStr (Story.summary s));
          (lit "chapters",
             PList (List.map (stored_chapter status_text)
                             (Story.chapters s)));
          (lit "target_word_count", PInt (Story.target_word_count s));
          (lit "current_word_count", PInt (Story.current_word_count s));
          (lit "status", PStr (Story.status s));
          (lit "created_at", PStr (Story.created_at s));
          (lit "updated_at", PStr (Story.updated_at s)) ].

Definition stored_stories (status_text : Chapter.t -> str)
    (d : dict Story.t) : pyval :=
  PDict (List.map (fun kv => (fst kv, stored_story status_text (snd kv))) d).

(** the document [save_stories] dumps: every status as its value *)
Definition stories_document (d : dict Story.t) : pyval :=
  stored_stories (fun c => ChapterStatus_value (Chapter.status c)) d.

(** the documents [save_all] dumps for the timeline and the plot threads *)
Definition timeline_document (d : dict TimelineEvent.t) : pyval :=
  PDict (List.map (fun kv => (fst kv, asdict_TimelineEvent (snd kv))) d).

Definition plots_document (d : dict PlotThread.t) : pyval :=
  PDict (List.map (fun kv => (fst kv, asdict_PlotThread (snd kv))) d).

(** the document [_save_memory] dumps at the clock reading [now] *)
Definition characters_document (d : dict CharacterProfile.t) : pyval :=
  PDict (List.map (fun kv => (fst kv, value_of_profile (snd kv))) d).

Definition memory_document (now : str) (d : dict CharacterProfile.t)
  : pyval :=
  PDict [ (lit "characters", characters_document d);
          (lit "last_updated", PStr now) ].


(** ** Calls on the world manager *)

Inductive world_call : Type :=
| AddSetting (setting : WorldSetting.t)
| AddTimelineEvent (event : TimelineEvent.t)
| AddPlotThread (plot : PlotThread.t).

Definition world_step (wm : WorldManager) (c : world_call) : WorldManager :=
  match c with
  | AddSetting s => fst (add_setting wm s)
  | AddTimelineEvent e => fst (world_manager.add_timeline_event wm e)
  | AddPlotThread p => fst (add_plot_thread wm p)
  end.

Definition world_run (wm : WorldManager) (calls : list world_call)
  : WorldManager :=
  List.fold_left world_step calls wm.

(** ** Stores that load back *)

(** a scene as [Scene.__post_init__] leaves it *)
Definition scene_loadable (s : Scene.t) : Prop :=
  nonempty (Scene.content s) = true ->
  Scene.word_count s = len (Scene.content s).

(** a chapter as [Chapter.__post_init__] leaves it *)
Definition chapter_loadable (c : Chapter.t) : Prop :=
  Forall scene_loadable (Chapter.scenes c)
  /\ Chapter.actual_word_count c = Chapter.sum_word_count (Chapter.scenes c).

(** a story as [Story.__post_init__] leaves it *)
Definition story_loadable (s : Story.t) : Prop :=
  Forall chapter_loadable (Story.chapters s)
  /\ Story.current_word_count s = Story.sum_word_count (Story.chapters s).

(** the chapters of a stored story, once their status texts are parsed *)
Definition parse_statuses (status_text : Chapter.t -> str)
    (l : list Chapter.t) : loaded (list Chapter.t) :=
  lmap (fun c => match ChapterStatus_of (PStr (status_text c)) with
                 | Ok st => Built (with_status c st)
                 | Raise e => Threw e
                 end) l.

(** the loop of [_load_stories] over the entries of a document *)
Definition load_entries (now : str) (entries : dict pyval)
    (acc : loaded (dict Story.t)) : loaded (dict Story.t) :=
  List.fold_left
    (fun acc kv =>
       stories <~ acc ;;
       story <~ load_story now (snd kv) ;;
       Built (dict_set stories (fst kv) story))
    entries acc.

(** every story of the store has the target [create_story] gives *)
Definition target_is_default (sm : StoryManager) : Prop :=
  Forall (fun kv => Story.target_word_count (snd kv) = STORY_TARGET)
         (stories sm).

(** ** Examples *)

Definition example_id : str := story_key 1 1700000000.

Definition example_calls : list story_call :=
  [ CreateStory 1700000000 (lit "2023-11-14T22:13:20")
      (lit "Tale") (lit "fantasy") (lit "A tale of two towers");
    AddChapter (lit "2023-11-14T22:14:00") (lit "2023-11-14T22:14:01")
      example_id (lit "Arrival") (lit "The hero arrives");
    AddScene (lit "2023-11-14T22:15:00") example_id 1
      (lit "Door") (lit "At the door") (lit "North door") [lit "Aria"]
      (lit "Introduce the hero");
    UpdateSceneContent (lit "2023-11-14T22:16:00") example_id 1 0
      (lit "The door stood open.");
    CreateStory 1700000100 (lit "2023-11-14T22:15:00")
      (lit "Second") (lit "mystery") (lit "Another tale") ].

Definition example_manager : StoryManager :=
  story_run (fresh_story_manager Absent) example_calls.

(** the example calls, then a content that is a lone surrogate *)
Definition surrogate_calls : list story_call :=
  example_calls
    ++ [ UpdateSceneContent (lit "2023-11-14T22:17:00") example_id 1 0
           [55296%N] ].

Definition surrogate_manager : StoryManager :=
  story_run (fresh_story_manager Absent) surrogate_calls.

Definition example_scene (content : str) : Scene.t :=
  Scene.init (lit "s1_chapter_2_scene_1") (lit "Door") (lit "At the door")
             (lit "North door") [lit "Aria"] (lit "Introduce the hero")
             content 0 [] None.

Definition example_chapter (number : Z) (title : string)
    (status : ChapterStatus) (scenes : list Scene.t) : Chapter.t :=
  Chapter.init (lit "2024-01-01T00:00:00")
               (lit "s1_chapter_" ++ str_of_int number) number (lit title)
               (lit "summary") scenes status 3000 0 [] None None.

Definition chapter_one : Chapter.t :=
  example_chapter 1 "Departure" COMPLETED [].
Definition chapter_two : Chapter.t :=
  example_chapter 2 "Arrival" DRAFTING
                  [example_scene (lit "The door stood open.")].
Definition chapter_three : Chapter.t :=
  example_chapter 3 "Return" OUTLINE [].

Definition example_story (chapters : list Chapter.t) (target : Z) : Story.t :=
  Story.init (lit "2024-01-01T00:00:00") (lit "s1") (lit "Tale")
             (lit "fantasy") (lit "A tale") chapters target 0
             (lit "planning") None None.

Definition manager_of (story : Story.t) : StoryManager :=
  mkStoryManager [(Story.id story, story)] None Absent.

Definition drafting_story : Story.t :=
  example_story [chapter_one; chapter_two; chapter_three] 50000.

(** a story of target 1000 holding [n] characters in a finished chapter *)
Definition story_of_length (n : nat) : Story.t :=
  example_story
    [example_chapter 1 "Only" DRAFT [example_scene (List.repeat 97%N n)]]
    1000.

Definition example_setting : WorldSetting.t :=
  WorldSetting.init (lit "2024-01-01T00:00:00") (lit "setting_1")
                    (lit "Eldoria") GEOGRAPHY (lit "A northern realm")
                    [] None None None.

(** a setting whose name is a lone surrogate *)
Definition surrogate_setting : WorldSetting.t :=
  WorldSetting.init (lit "2024-01-01T00:00:00") (lit "setting_1")
                    [55296%N] GEOGRAPHY (lit "A northern realm")
                    [] None None None.

Definition example_event (n : Z) (name : string) (year importance : Z)
  : TimelineEvent.t :=
  TimelineEvent.init (lit "event_" ++ str_of_int n) (lit name) []
                     year None None importance (Some []) None None.

Definition example_plot (n : Z) (name status : string)
    (payoff_events : list str) : PlotThread.t :=
  PlotThread.init (lit "plot_" ++ str_of_int n) (lit name)
                  (lit "a thread") [lit "event_1"] payoff_events
                  (lit status) 3 None.

Definition lost_heir : PlotThread.t := example_plot 1 "Lost heir" "active" [].
Definition stolen_crown : PlotThread.t :=
  example_plot 2 "Stolen crown" "active" [lit "event_3"].
Definition old_feud : PlotThread.t := example_plot 3 "Old feud" "resolved" [].

(** a world that holds a setting, the three events and the three threads *)
Definition example_world : WorldManager :=
  world_run fresh_world_manager
    [ AddSetting example_setting;
      AddTimelineEvent (example_event 1 "A" 500 2);
      AddTimelineEvent (example_event 2 "B" 100 4);
      AddTimelineEvent (example_event 3 "C" 300 5);
      AddPlotThread lost_heir;
      AddPlotThread stolen_crown;
      AddPlotThread old_feud ].

(** the same world without the event of importance 2 *)
Definition example_world_without_A : WorldManager :=
  world_run fresh_world_manager
    [ AddSetting example_setting;
      AddTimelineEvent (example_event 2 "B" 100 4);
      AddTimelineEvent (example_event 3 "C" 300 5);
      AddPlotThread lost_heir;
      AddPlotThread stolen_crown;
      AddPlotThread old_feud ].

(** a world with no setting *)
Definition saved_world_calls : list world_call :=
  [ AddTimelineEvent (example_event 1 "A" 500 2);
    AddTimelineEvent (example_event 2 "B" 100 4);
    AddPlotThread stolen_crown;
    AddPlotThread old_feud ].

Definition plain_value (v : pyval) : str :=
  match v with PStr s => s | _ => [] end.

Definition example_memory : CharacterMemoryManager :=
  add_character (lit "2024-01-01T00:00:00") (lit "2024-01-01T00:00:01")
                (mkCharacterMemoryManager [] Absent)
                (lit "Aria") (lit "A young knight")
                (Some [lit "brave"]) (lit "Raised in Eldoria") None.

(** a character whose description is a lone surrogate *)
Definition surrogate_memory : CharacterMemoryManager :=
  add_character (lit "2024-01-01T00:00:00") (lit "2024-01-01T00:00:01")
                (mkCharacterMemoryManager [] Absent)
                (lit "Aria") [55296%N]
                (Some [lit "brave"]) (lit "Raised in Eldoria") None.

Definition example_app : App :=
  mkApp example_world example_manager example_memory.

Definition example_request : AdvancedGenerationRequest :=
  mkAdvancedGenerationRequest (lit "Write the opening scene") None None None
                              true true 500 f0_8.

(* ================================================================== *)
(** * Vocabulary of the further properties *)
(* ================================================================== *)

(** the outcome of a call on the story manager *)
Definition story_outcome (sm : StoryManager) (c : story_call)
  : outcome unit :=
  match c with
  | CreateStory ts now title genre summary => Ok tt
  | AddChapter n1 n2 story_id title summary =>
      _ <- snd (add_chapter n1 n2 sm story_id title summary) ;; Ok tt
  | AddScene now story_id k name description location characters purpose =>
      _ <- snd (add_scene now sm story_id k name description location
                          characters purpose) ;; Ok tt
  | UpdateSceneContent now story_id k j content =>
      snd (update_scene_content now sm story_id k j content)
  end.

(** the cell that [l[i]] addresses in a list of [n] cells, if any *)
Definition cell (n i : Z) : option nat :=
  if (0 <=? i) && (i <? n) then Some (Z.to_nat i)
  else if (- n <=? i) && (i <? 0) then Some (Z.to_nat (n + i))
  else None.

(** identifiers as the manager builds them *)
Definition scenes_numbered (c : Chapter.t) : Prop :=
  forall (j : nat) (s : Scene.t),
    nth_error (Chapter.scenes c) j = Some s ->
    Scene.id s
    = Chapter.id c ++ lit "_scene_" ++ str_of_int (Z.of_nat j + 1).

Definition chapters_numbered (s : Story.t) : Prop :=
  forall (i : nat) (c : Chapter.t),
    nth_error (Story.chapters s) i = Some c ->
    Chapter.number c = Z.of_nat i + 1
    /\ Chapter.id c
       = Story.id s ++ lit "_chapter_" ++ str_of_int (Z.of_nat i + 1)
    /\ scenes_numbered c.

Definition store_identified (sm : StoryManager) : Prop :=
  Forall (fun kv => Story.id (snd kv) = fst kv /\ chapters_numbered (snd kv))
         (stories sm).

(** the story a call addresses; [create_story] addresses none *)
Definition call_story (c : story_call) : option str :=
  match c with
  | CreateStory _ _ _ _ _ => None
  | AddChapter _ _ story_id _ _ => Some story_id
  | AddScene _ story_id _ _ _ _ _ _ => Some story_id
  | UpdateSceneContent _ story_id _ _ _ => Some story_id
  end.

Definition story_scene_block (ie : Z * Scene.t) : list str :=
  [ lit "    " ++ str_of_int (fst ie) ++ lit ". " ++ Scene.name (snd ie)
      ++ lit " (" ++ Scene.location (snd ie) ++ lit ")";
    lit "       目的: " ++ Scene.purpose (snd ie) ]
  ++ (if nonempty (Scene.content (snd ie))
      then [lit "       文字数: " ++ str_of_int (Scene.word_count (snd ie))]
      else []).

Definition story_chapter_block (c : Chapter.t) : list str :=
  [ lit "第" ++ str_of_int (Chapter.number c) ++ lit "章: "
      ++ Chapter.title c;
    lit "  概要: " ++ Chapter.summary c;
    lit "  状態: " ++ ChapterStatus_value (Chapter.status c);
    lit "  進捗: " ++ str_of_int (Chapter.actual_word_count c)
      ++ lit "/" ++ str_of_int (Chapter.target_word_count c) ++ lit "文字" ]
  ++ (if nonempty (Chapter.scenes c)
      then lit "  シーン:"
             :: List.flat_map story_scene_block
                  (enumerate (Chapter.scenes c) 1)
      else [])
  ++ [[]].

(** the text [get_story_context] renders for a story *)
Definition story_text (s : Story.t) : str :=
  join [10%N]
    ([ lit "=== 物語: " ++ Story.title s ++ lit " ===";
       lit "ジャンル: " ++ Story.genre s;
       lit "あらすじ: " ++ Story.summary s;
       lit "進捗: " ++ str_of_int (Story.current_word_count s)
         ++ lit "/" ++ str_of_int (Story.target_word_count s) ++ lit "文字";
       [];
       lit "=== 章構成 ===" ]
     ++ List.flat_map story_chapter_block (Story.chapters s)).

(** a character of [names] is among [related] *)
Definition names_one_of (names related : list str) : Prop :=
  exists n, In n names /\ In n related.

Definition plot_status_block (plot : PlotThread.t) : list str :=
  [ lit "【" ++ PlotThread.name plot ++ lit "】("
      ++ PlotThread.status plot ++ lit ")";
    PlotThread.description plot;
    [] ].

(** the settings a category filter keeps *)
Definition of_types (types : list SettingType) (s : WorldSetting.t) : bool :=
  existsb (SettingType_eqb (WorldSetting.type s)) types.

(** the requests that change the state of the application *)
Inductive api_call : Type :=
| PostSetting (now : str) (request : Endpoints.WorldSettingRequest)
| PostTimeline (request : TimelineEventRequest)
| PostPlot (request : Endpoints.PlotThreadRequest)
| PostStory (ts : Z) (now : str) (request : Endpoints.StoryRequest)
| PostChapter (now_created now_updated : str) (story_id : str)
              (request : Endpoints.ChapterRequest)
| PostScene (now : str) (story_id : str) (chapter_number : Z)
            (request : Endpoints.SceneRequest).

Definition api_step (app : App) (c : api_call) : App :=
  match c with
  | PostSetting now request =>
      fst (Endpoints.add_world_setting now app request)
  | PostTimeline request => fst (advanced_main.add_timeline_event app request)
  | PostPlot request => fst (Endpoints.add_plot_thread app request)
  | PostStory ts now request => fst (Endpoints.create_story ts now app request)
  | PostChapter n1 n2 story_id request =>
      fst (Endpoints.add_chapter n1 n2 app story_id request)
  | PostScene now story_id k request =>
      fst (Endpoints.add_scene now app story_id k request)
  end.

Definition api_run (app : App) (calls : list api_call) : App :=
  List.fold_left api_step calls app.

(** the keys [prefix1], [prefix2], ... in this order *)
Definition numbered_from (prefix : str) (ks : list str) : Prop :=
  forall (i : nat) (k : str),
    nth_error ks i = Some k -> k = prefix ++ str_of_int (Z.of_nat i + 1).

(** the call of the story manager behind a request *)
Definition story_call_of (c : api_call) : list story_call :=
  match c with
  | PostStory ts now request =>
      [CreateStory ts now (Endpoints.sr_title request)
                   (Endpoints.sr_genre request)
                   (Endpoints.sr_summary request)]
  | PostChapter n1 n2 story_id request =>
      [AddChapter n1 n2 story_id (Endpoints.cr_title request)
                  (Endpoints.cr_summary request)]
  | PostScene now story_id k request =>
      [AddScene now story_id k (Endpoints.sc_name request)
                (Endpoints.sc_description request)
                (Endpoints.sc_location request)
                (Endpoints.sc_characters request)
                (Endpoints.sc_purpose request)]
  | _ => []
  end.

(** the call of the world manager behind a request, when there is one *)
Definition world_call_of (app : App) (c : api_call) : list world_call :=
  let wm := the_world_manager app in
  match c with
  | PostSetting now request =>
      match SettingType_of (Endpoints.ws_type request) with
      | Ok type =>
          [AddSetting
             (WorldSetting.init now
                (lit "setting_" ++ str_of_int (len (settings wm) + 1))
                (Endpoints.ws_name request) type
                (Endpoints.ws_description request)
                (Endpoints.ws_details request) None None None)]
      | Raise _ => []
      end
  | PostTimeline request =>
      [AddTimelineEvent
         (TimelineEvent.init
            (lit "event_" ++ str_of_int (len (timeline wm) + 1))
            (te_name request) (te_description request) (te_year request)
            (te_month request) (te_day request) (te_importance request)
            (Some (te_related_characters request)) None None)]
  | PostPlot request =>
      [AddPlotThread
         (PlotThread.init
            (lit "plot_" ++ str_of_int (len (plot_threads wm) + 1))
            (Endpoints.pt_name request) (Endpoints.pt_description request)
            (Endpoints.pt_setup_events request) [] (lit "active") 1
            (Some (Endpoints.pt_related_characters request)))]
  | _ => []
  end.

(** what the API leaves of a world: numbered keys, threads active and
    without payoff *)
Definition api_world (wm : WorldManager) : Prop :=
  numbered_from (lit "setting_") (keys (settings wm))
  /\ numbered_from (lit "event_") (keys (timeline wm))
  /\ numbered_from (lit "plot_") (keys (plot_threads wm))
  /\ Forall (fun p => PlotThread.status p = lit "active"
                      /\ PlotThread.payoff_events p = [])
            (values (plot_threads wm)).

Definition is_PostPlot (c : api_call) : bool :=
  match c with PostPlot _ => true | _ => false end.

Definition chapter_blank (c : Chapter.t) : Prop :=
  Chapter.status c = PLANNED
  /\ Chapter.target_word_count c = CHAPTER_TARGET
  /\ Chapter.actual_word_count c = 0
  /\ Forall (fun s => Scene.content s = [] /\ Scene.word_count s = 0)
            (Chapter.scenes c).

Definition story_blank (s : Story.t) : Prop :=
  Story.target_word_count s = STORY_TARGET
  /\ Story.current_word_count s = 0
  /\ Forall chapter_blank (Story.chapters s).

Definition store_blank (sm : StoryManager) : Prop :=
  Forall (fun kv => story_blank (snd kv)) (stories sm).

(** calls on the character memory; the lists and dictionaries of a call
    are objects of its own, as the requests of [main.py] build them: no
    two characters hold the same dictionary of relationships *)
Inductive memory_call : Type :=
| AddCharacter (now_created now_saved name description : str)
               (traits : option (list str)) (background : str)
               (relationships : option (dict str))
| UpdateCharacter (now_updated now_saved name : str)
                  (description : option str) (traits : option (list str))
                  (background : option str)
                  (relationships : option (dict str))
| AddStoryAppearance (now_date now_saved character_name story_title
                        role : str)
| AddCharacterDevelopment (now_date now_saved character_name note : str)
| AddCharacterRelationship (now_saved character_name related_character
                              relationship : str).

(** the memory after a call, whether the call returned or raised *)
Definition memory_step (cm : CharacterMemoryManager) (c : memory_call)
  : CharacterMemoryManager :=
  match c with
  | AddCharacter n1 n2 name description traits background relationships =>
      add_character n1 n2 cm name description traits background relationships
  | UpdateCharacter n1 n2 name description traits background relationships =>
      fst (update_character n1 n2 cm name description traits background
                            relationships)
  | AddStoryAppearance n1 n2 name title role =>
      add_story_appearance n1 n2 cm name title role
  | AddCharacterDevelopment n1 n2 name note =>
      add_character_development n1 n2 cm name note
  | AddCharacterRelationship n name related relationship =>
      add_character_relationship n cm name related relationship
  end.

Definition memory_run (cm : CharacterMemoryManager)
    (calls : list memory_call) : CharacterMemoryManager :=
  List.fold_left memory_step calls cm.

(** the clock reading [_save_memory] writes when the call saves *)
Definition saved_at (c : memory_call) : str :=
  match c with
  | AddCharacter _ now_saved _ _ _ _ _ => now_saved
  | UpdateCharacter _ now_saved _ _ _ _ _ => now_saved
  | AddStoryAppearance _ now_saved _ _ _ => now_saved
  | AddCharacterDevelopment _ now_saved _ _ => now_saved
  | AddCharacterRelationship now_saved _ _ _ => now_saved
  end.

(** a first start of the character memory: nobody stored, no file *)
Definition fresh_memory : CharacterMemoryManager :=
  mkCharacterMemoryManager [] Absent.

(** the number of occurrences of a trait in a list *)
Definition occurrences (t : str) (l : list str) : Z :=
  len (List.filter (str_eqb t) l).

(** all the traits of the stored characters, in order *)
Definition all_traits (cm : CharacterMemoryManager) : list str :=
  List.flat_map CharacterProfile.traits (values (characters cm)).

(** the counts a dictionary gives: [0] for an absent trait *)
Definition count_of (tc : dict Z) (t : str) : Z :=
  match dict_get tc t with Some n => n | None => 0 end.

Definition counts_positive (tc : dict Z) : Prop :=
  forall t n, dict_get tc t = Some n -> 1 <= n.

(** ** Examples of the further properties *)

(** the first story of the example store *)
Definition example_first_story : Story.t :=
  match dict_get (stories example_manager) example_id with
  | Some story => story
  | None => example_story [] 0
  end.

(** a story stored with a count that its chapters do not give *)
Definition miscounted_story : Story.t :=
  Story.mk (lit "s1") (lit "Tale") (lit "fantasy") (lit "A tale") []
           50000 999 (lit "planning") (lit "2024-01-01T00:00:00")
           (lit "2024-01-01T00:00:00").

Definition miscounted_file : file :=
  Doc (stored_stories (fun c => ChapterStatus_value (Chapter.status c))
                      [(lit "s1", miscounted_story)]).

Definition recounted_story : Story.t :=
  Story.mk (lit "s1") (lit "Tale") (lit "fantasy") (lit "A tale") []
           50000 0 (lit "planning") (lit "2024-01-01T00:00:00")
           (lit "2024-01-01T00:00:00").

(** a request for an event whose name is a lone surrogate *)
Definition surrogate_event_request : TimelineEventRequest :=
  mkTimelineEventRequest [55296%N] [] 500 None None 2 [].

(** the memory after the example character and one whose description is
    a lone surrogate *)
Definition mixed_memory_calls : list memory_call :=
  [ AddCharacter (lit "2024-01-01T00:00:00") (lit "2024-01-01T00:00:01")
      (lit "Aria") (lit "A young knight") (Some [lit "brave"])
      (lit "Raised in Eldoria") None;
    AddCharacter (lit "2024-01-02T00:00:00") (lit "2024-01-02T00:00:01")
      (lit "Bran") [55296%N] None [] None ].

(** requests: a story with a target of 1000, then a chapter *)
Definition example_requests : list api_call :=
  [ PostStory 1700000000 (lit "2023-11-14T22:13:20")
      (Endpoints.mkStoryRequest (lit "Tale") (lit "fantasy")
                                (lit "A tale of two towers") 1000);
    PostChapter (lit "2023-11-14T22:14:00") (lit "2023-11-14T22:14:01")
      example_id
      (Endpoints.mkChapterRequest (lit "Arrival") (lit "The hero arrives")
                                  500) ].

Definition example_api_story : Story.t :=
  match dict_get (stories (the_story_manager (api_run fresh_app
                                                      example_requests)))
                 example_id with
  | Some story => story
  | None => example_story [] 0
  end.

(* ================================================================== *)
(** * General facts *)
(* ================================================================== *)

(** Literals are compared as they are written; they are evaluated only
    by [vm_compute]. *)
Opaque lit.

(** evaluation of the comparisons of literal keys *)
Ltac eval_keys :=
  repeat match goal with
  | |- context [str_eqb (lit ?a) (lit ?b)] =>
      let r := eval vm_compute in (str_eqb (lit a) (lit b)) in
      replace (str_eqb (lit a) (lit b)) with r by (vm_compute; reflexivity)
  end.

Ltac lookup_keys :=
  unfold arg; simpl dict_get; eval_keys; cbv iota.

Ltac lbind_inv H :=
  repeat match type of H with
  | lbind ?m _ = Built _ =>
      let E := fresh "E" in
      destruct m eqn:E; cbn [lbind] in H; try discriminate H
  end.

Lemma str_eqb_refl (a : str) : str_eqb a a = true.
Proof.
  induction a as [|x a IH]; simpl; [reflexivity|].
  now rewrite N.eqb_refl, IH.
Qed.

Lemma str_eqb_eq (a b : str) : str_eqb a b = true <-> a = b.
Proof.
  split.
  - revert b. induction a as [|x a IH]; intros [|y b]; simpl;
      try discriminate; [reflexivity|].
    intros H. apply andb_true_iff in H as [Hx Hr].
    apply N.eqb_eq in Hx. apply IH in Hr. now subst.
  - intros ->. apply str_eqb_refl.
Qed.

Lemma str_eqb_neq (a b : str) : str_eqb a b = false <-> a <> b.
Proof.
  rewrite <- str_eqb_eq. destruct (str_eqb a b); split; congruence.
Qed.

Lemma zsum_app (l1 l2 : list Z) : zsum (l1 ++ l2) = zsum l1 + zsum l2.
Proof.
  induction l1 as [|x l1 IH]; simpl; [reflexivity|]. rewrite IH. lia.
Qed.

Lemma fold_left_add {A : Type} (f : A -> Z) (l : list A) (acc : Z) :
  List.fold_left (fun a x => a + f x) l acc = acc + zsum (List.map f l).
Proof.
  revert acc. induction l as [|x l IH]; intros acc; simpl; [lia|].
  rewrite IH. lia.
Qed.

(** a loop that appends a block per element builds their concatenation *)
Lemma fold_left_blocks {A B : Type} (body : list B -> A -> list B)
    (block : A -> list B) :
  (forall acc x, body acc x = acc ++ block x) ->
  forall l acc, List.fold_left body l acc = acc ++ List.flat_map block l.
Proof.
  intros Hbody l. induction l as [|x l IH]; intros acc; simpl.
  - now rewrite app_nil_r.
  - rewrite IH, Hbody, <- app_assoc. reflexivity.
Qed.

(** ** Dictionaries *)

Lemma dict_get_set_same {V : Type} (d : dict V) (k : str) (v : V) :
  dict_get (dict_set d k v) k = Some v.
Proof.
  induction d as [|[k' v'] d IH]; simpl.
  - now rewrite str_eqb_refl.
  - destruct (str_eqb k' k) eqn:E; simpl; rewrite E; auto.
Qed.

Lemma dict_get_set_other {V : Type} (d : dict V) (k k' : str) (v : V) :
  k <> k' -> dict_get (dict_set d k v) k' = dict_get d k'.
Proof.
  intros Hne. induction d as [|[k0 v0] d IH]; simpl.
  - apply str_eqb_neq in Hne. now rewrite Hne.
  - destruct (str_eqb k0 k) eqn:E; simpl.
    + apply str_eqb_eq in E. subst k0.
      apply str_eqb_neq in Hne. now rewrite Hne.
    + destruct (str_eqb k0 k'); auto.
Qed.

Lemma dict_get_In {V : Type} (d : dict V) (k : str) (v : V) :
  dict_get d k = Some v -> In (k, v) d.
Proof.
  induction d as [|[k0 v0] d IH]; simpl; [discriminate|].
  destruct (str_eqb k0 k) eqn:E.
  - apply str_eqb_eq in E. intros [= ->]. subst. now left.
  - intros H. right. auto.
Qed.

Lemma dict_get_None {V : Type} (d : dict V) (k : str) :
  dict_get d k = None <-> ~ In k (keys d).
Proof.
  induction d as [|[k0 v0] d IH]; simpl.
  - tauto.
  - destruct (str_eqb k0 k) eqn:E.
    + apply str_eqb_eq in E. subst. split; [discriminate|]. tauto.
    + apply str_eqb_neq in E. rewrite IH. tauto.
Qed.

Lemma dict_set_fresh {V : Type} (d : dict V) (k : str) (v : V) :
  ~ In k (keys d) -> dict_set d k v = d ++ [(k, v)].
Proof.
  induction d as [|[k0 v0] d IH]; simpl; intros Hn; [reflexivity|].
  destruct (str_eqb k0 k) eqn:E.
  - apply str_eqb_eq in E. subst. tauto.
  - rewrite IH; tauto.
Qed.

Lemma keys_dict_set_mem {V : Type} (d : dict V) (k : str) (v : V) :
  In k (keys d) -> keys (dict_set d k v) = keys d.
Proof.
  induction d as [|[k0 v0] d IH]; simpl; intros Hin; [tauto|].
  destruct (str_eqb k0 k) eqn:E; simpl; [reflexivity|].
  apply str_eqb_neq in E. f_equal. apply IH. destruct Hin; congruence.
Qed.

Lemma dict_set_Forall {V : Type} (P : str * V -> Prop) (d : dict V)
    (k : str) (v : V) :
  Forall P d -> (forall k0, P (k0, v)) -> Forall P (dict_set d k v).
Proof.
  intros Hd Hv. induction Hd as [|[k0 v0] d Hx Hd IH]; simpl.
  - constructor; auto.
  - destruct (str_eqb k0 k); constructor; auto.
Qed.

(** rebuilding a dictionary entry by entry gives it back *)
Lemma rebuild_dict {V W : Type} (f : V -> W) (d : dict V) (acc : dict W) :
  NoDup (keys acc ++ keys d) ->
  List.fold_left (fun data kv => dict_set data (fst kv) (f (snd kv))) d acc
  = acc ++ List.map (fun kv => (fst kv, f (snd kv))) d.
Proof.
  revert acc. induction d as [|[k v] d IH]; intros acc Hnd; simpl.
  - now rewrite app_nil_r.
  - assert (Hk : ~ In k (keys acc)).
    { intros Hin. apply NoDup_remove_2 in Hnd. apply Hnd.
      apply in_or_app. now left. }
    rewrite dict_set_fresh by exact Hk.
    rewrite IH.
    + rewrite <- app_assoc. reflexivity.
    + unfold keys in *. rewrite map_app. simpl. rewrite <- app_assoc.
      exact Hnd.
Qed.

(* ================================================================== *)
(** * Derived word counts (story_manager) *)
(* ================================================================== *)

Lemma norm_index_bound {A : Type} (l : list A) (i : Z) (k : nat) :
  norm_index l i = Ok k -> (k < List.length l)%nat.
Proof.
  unfold norm_index, len.
  destruct ((0 <=? i) && (i <? Z.of_nat (List.length l))) eqn:E1.
  - intros [= <-]. apply andb_true_iff in E1 as [H1 H2]. lia.
  - destruct ((- Z.of_nat (List.length l) <=? i) && (i <? 0)) eqn:E2;
      [|discriminate].
    intros [= <-]. apply andb_true_iff in E2 as [H1 H2]. lia.
Qed.

Lemma getitem_nth {A : Type} (l : list A) (i : Z) (k : nat) (a : A) :
  norm_index l i = Ok k -> getitem l i = Ok a -> nth_error l k = Some a.
Proof.
  unfold getitem. intros ->. simpl.
  destruct (nth_error l k); [intros [= ->]; reflexivity | discriminate].
Qed.

Lemma set_nth_Forall {A : Type} (P : A -> Prop) (l : list A) (k : nat)
    (a : A) :
  Forall P l -> P a -> Forall P (set_nth l k a).
Proof.
  intros Hl Ha. revert k. induction Hl as [|x l Hx Hl IH]; intros k; simpl.
  - constructor.
  - destruct k; constructor; auto.
Qed.

Lemma set_nth_zsum {A : Type} (f : A -> Z) (l : list A) (k : nat)
    (a a' : A) :
  nth_error l k = Some a -> f a' = f a ->
  zsum (List.map f (set_nth l k a')) = zsum (List.map f l).
Proof.
  revert k. induction l as [|x l IH]; intros k; simpl.
  - destruct k; discriminate.
  - destruct k; simpl.
    + intros [= ->] ->. reflexivity.
    + intros Hn Hf. now rewrite (IH k Hn Hf).
Qed.

Lemma scenes_counted_sum (l : list Scene.t) :
  Forall scene_counted l ->
  Chapter.sum_word_count l
  = zsum (List.map (fun s => len (Scene.content s)) l).
Proof.
  intros Hl. unfold Chapter.sum_word_count. rewrite fold_left_add. simpl.
  induction Hl as [|s l Hs Hl IH]; simpl; [reflexivity|].
  rewrite IH, Hs. reflexivity.
Qed.

Lemma dict_item_In {V : Type} (d : dict V) (k : str) (v : V) :
  dict_item d k = Ok v -> In (k, v) d.
Proof.
  unfold dict_item. destruct (dict_get d k) eqn:E; [|discriminate].
  intros [= ->]. now apply dict_get_In.
Qed.

Lemma store_counted_item (sm : StoryManager) (k : str) (s : Story.t) :
  store_counted sm -> dict_item (stories sm) k = Ok s -> story_counted s.
Proof.
  intros Hsm Hk. apply dict_item_In in Hk.
  unfold store_counted in Hsm. rewrite Forall_forall in Hsm.
  exact (Hsm _ Hk).
Qed.

Lemma save_stories_stories (sm : StoryManager) :
  stories (save_stories sm) = stories sm.
Proof. reflexivity. Qed.

Lemma store_counted_set (sm : StoryManager) (k : str) (s : Story.t)
    (cur : option str) :
  store_counted sm -> story_counted s ->
  store_counted
    (save_stories (mkStoryManager (dict_set (stories sm) k s) cur
                                  (stories_file sm))).
Proof.
  intros Hsm Hs. unfold store_counted. rewrite save_stories_stories. simpl.
  apply dict_set_Forall; auto.
Qed.

Lemma create_story_counted ts now sm title genre summary :
  store_counted sm ->
  store_counted (fst (create_story ts now sm title genre summary)).
Proof.
  intros Hsm. unfold create_story. simpl fst.
  apply store_counted_set; [exact Hsm|].
  split; simpl; [reflexivity | constructor].
Qed.

Lemma add_chapter_counted n1 n2 sm story_id title summary :
  store_counted sm ->
  store_counted (fst (add_chapter n1 n2 sm story_id title summary)).
Proof.
  intros Hsm. unfold add_chapter.
  destruct (negb (dict_mem (stories sm) story_id)); [exact Hsm|].
  destruct (dict_item (stories sm) story_id) as [story|e] eqn:Hit;
    [|exact Hsm].
  simpl fst. apply store_counted_set; [exact Hsm|].
  destruct (store_counted_item _ _ _ Hsm Hit) as [Hcur Hchs].
  split; simpl.
  - rewrite map_app, zsum_app. simpl. unfold Chapter.sum_word_count.
    simpl. lia.
  - apply Forall_app. split; [exact Hchs|].
    constructor; [|constructor]. split; simpl; [reflexivity | constructor].
Qed.

Lemma add_scene_counted now sm story_id k name description location
    characters purpose :
  store_counted sm ->
  store_counted (fst (add_scene now sm story_id k name description location
                                characters purpose)).
Proof.
  intros Hsm. unfold add_scene.
  destruct (negb (dict_mem (stories sm) story_id)); [exact Hsm|].
  destruct (dict_item (stories sm) story_id) as [story|e] eqn:Hit;
    [|exact Hsm].
  destruct (len (Story.chapters story) <? k); [exact Hsm|].
  unfold chapter_at.
  destruct (norm_index (Story.chapters story) (k - 1)) as [i|e] eqn:Hi;
    [|exact Hsm].
  simpl bind.
  destruct (getitem (Story.chapters story) (k - 1)) as [chapter|e] eqn:Hg;
    [|exact Hsm].
  simpl. apply store_counted_set; [exact Hsm|].
  destruct (store_counted_item _ _ _ Hsm Hit) as [Hcur Hchs].
  pose proof (getitem_nth _ _ _ _ Hi Hg) as Hnth.
  assert (Hch : chapter_counted chapter).
  { rewrite Forall_forall in Hchs. apply Hchs.
    eapply nth_error_In; eauto. }
  destruct Hch as [Hact Hsc].
  split; simpl.
  - rewrite (set_nth_zsum _ _ _ chapter); auto.
  - apply set_nth_Forall; [exact Hchs|].
    split; simpl.
    + rewrite map_app, zsum_app. simpl. simpl. rewrite Hact. lia.
    + apply Forall_app. split; [exact Hsc|].
      constructor; [|constructor]. reflexivity.
Qed.

Lemma update_scene_content_counted now sm story_id k j content :
  store_counted sm ->
  store_counted (fst (update_scene_content now sm story_id k j content)).
Proof.
  intros Hsm. unfold update_scene_content.
  destruct (dict_item (stories sm) story_id) as [story|e] eqn:Hit;
    [|exact Hsm].
  simpl bind. unfold chapter_at.
  destruct (norm_index (Story.chapters story) (k - 1)) as [i|e] eqn:Hi;
    [|exact Hsm].
  simpl bind.
  destruct (getitem (Story.chapters story) (k - 1)) as [chapter|e] eqn:Hg;
    [|exact Hsm].
  simpl bind.
  destruct (norm_index (Chapter.scenes chapter) j) as [jj|e] eqn:Hj;
    [|exact Hsm].
  simpl bind.
  destruct (getitem (Chapter.scenes chapter) j) as [scene|e] eqn:Hgs;
    [|exact Hsm].
  simpl. apply store_counted_set; [exact Hsm|].
  destruct (store_counted_item _ _ _ Hsm Hit) as [Hcur Hchs].
  pose proof (getitem_nth _ _ _ _ Hi Hg) as Hnth.
  assert (Hch : chapter_counted chapter).
  { rewrite Forall_forall in Hchs. apply Hchs.
    eapply nth_error_In; eauto. }
  destruct Hch as [Hact Hsc].
  assert (Hsc' : Forall scene_counted
                   (set_nth (Chapter.scenes chapter) jj
                      (Scene.set_content scene content (len content)))).
  { apply set_nth_Forall; [exact Hsc | reflexivity]. }
  split; simpl.
  - unfold Story.sum_word_count. rewrite fold_left_add. simpl. reflexivity.
  - apply set_nth_Forall; [exact Hchs|].
    split; simpl; [|exact Hsc'].
    apply scenes_counted_sum. exact Hsc'.
Qed.

Lemma story_step_counted (sm : StoryManager) (c : story_call) :
  store_counted sm -> store_counted (story_step sm c).
Proof.
  destruct c; simpl.
  - apply create_story_counted.
  - apply add_chapter_counted.
  - apply add_scene_counted.
  - apply update_scene_content_counted.
Qed.

Lemma story_run_counted (calls : list story_call) (sm : StoryManager) :
  store_counted sm -> store_counted (story_run sm calls).
Proof.
  revert sm. induction calls as [|c calls IH]; intros sm Hsm; simpl.
  - exact Hsm.
  - apply IH. now apply story_step_counted.
Qed.

(** C1. In every store the manager reaches from a first start by
    [create_story], [add_chapter], [add_scene] and [update_scene_content]
    calls, returning or raising, each story's [current_word_count] is the
    sum of its chapters' [actual_word_count], each chapter's
    [actual_word_count] is the sum of [len(scene.content)] over its scenes,
    and each scene's [word_count] is the length of its content. *)
Theorem word_counts_are_derived (f : file) (calls : list story_call) :
  Forall
    (fun kv =>
       let story := snd kv in
       Story.current_word_count story
         = zsum (List.map Chapter.actual_word_count (Story.chapters story))
       /\ Forall
            (fun chapter =>
               Chapter.actual_word_count chapter
                 = zsum (List.map (fun s => len (Scene.content s))
                                  (Chapter.scenes chapter))
               /\ Forall
                    (fun scene =>
                       Scene.word_count scene = len (Scene.content scene))
                    (Chapter.scenes chapter))
            (Story.chapters story))
    (stories (story_run (fresh_story_manager f) calls)).
Proof.
  apply (story_run_counted calls (fresh_story_manager f)).
  constructor.
Qed.

(* ================================================================== *)
(** * The consistency check (world_manager) *)
(* ================================================================== *)

Lemma unresolved_iff (p : PlotThread.t) :
  unresolved p = true
  <-> PlotThread.status p = lit "active" /\ PlotThread.payoff_events p = [].
Proof.
  unfold unresolved. rewrite andb_true_iff, str_eqb_eq.
  destruct (PlotThread.payoff_events p); split; intros [H1 H2];
    split; auto; discriminate.
Qed.

Lemma issue_of_block (issues : list str) (p : PlotThread.t) :
  issue_of issues p
  = issues ++ (if unresolved p then [issue_message p] else []).
Proof.
  unfold issue_of, unresolved, is_active, issue_message.
  destruct (str_eqb (PlotThread.status p) (lit "active")); simpl.
  - destruct (PlotThread.payoff_events p); simpl;
      [reflexivity | now rewrite app_nil_r].
  - now rewrite app_nil_r.
Qed.

Lemma flat_map_if {A B : Type} (keep : A -> bool) (f : A -> B)
    (l : list A) :
  List.flat_map (fun a => if keep a then [f a] else []) l
  = List.map f (List.filter keep l).
Proof.
  induction l as [|a l IH]; simpl; [reflexivity|].
  destruct (keep a); simpl; now rewrite IH.
Qed.

Lemma filter_none {A : Type} (keep : A -> bool) (l : list A) :
  (forall a, In a l -> keep a = false) -> List.filter keep l = [].
Proof.
  induction l as [|a l IH]; simpl; intros H; [reflexivity|].
  rewrite (H a (or_introl eq_refl)). apply IH. intros b Hb. apply H. now right.
Qed.

(** C4. [check_consistency] returns the message of each plot thread whose
    status is ["active"] and whose [payoff_events] is empty, one per such
    thread and in the order of the collection; no other thread gives a
    message, and the list is empty when every active thread has a payoff
    event. *)
Theorem check_consistency_reports_unresolved (wm : WorldManager) :
  check_consistency wm
  = List.map issue_message
             (List.filter unresolved (values (plot_threads wm)))
  /\ List.length (check_consistency wm)
     = List.length (List.filter unresolved (values (plot_threads wm)))
  /\ (forall p, unresolved p = true
                <-> PlotThread.status p = lit "active"
                    /\ PlotThread.payoff_events p = [])
  /\ ((forall p, In p (values (plot_threads wm)) ->
                 PlotThread.status p = lit "active" ->
                 PlotThread.payoff_events p <> []) ->
      check_consistency wm = []).
Proof.
  assert (E : check_consistency wm
              = List.map issue_message
                  (List.filter unresolved (values (plot_threads wm)))).
  { unfold check_consistency.
    rewrite (fold_left_blocks issue_of _ issue_of_block). simpl.
    apply flat_map_if. }
  split; [exact E|]. split; [rewrite E; apply length_map|].
  split; [exact unresolved_iff|].
  intros Hall. rewrite E, filter_none; [reflexivity|].
  intros p Hp. destruct (unresolved p) eqn:Hu; [|reflexivity].
  apply unresolved_iff in Hu as [Hs He]. now destruct (Hall p Hp Hs).
Qed.

(* ================================================================== *)
(** * Text containment *)
(* ================================================================== *)

Lemma contains_refl (s : str) : contains s s.
Proof. exists [], []. now rewrite app_nil_r. Qed.

Lemma contains_nil (s : str) : contains [] s.
Proof. exists [], s. reflexivity. Qed.

Lemma contains_app_l (x a b : str) : contains x a -> contains x (a ++ b).
Proof.
  intros (pre & post & ->). exists pre, (post ++ b).
  now rewrite <- !app_assoc.
Qed.

Lemma contains_app_r (x a b : str) : contains x b -> contains x (a ++ b).
Proof.
  intros (pre & post & ->). exists (a ++ pre), post.
  now rewrite <- !app_assoc.
Qed.

Lemma contains_trans (x y z : str) :
  contains x y -> contains y z -> contains x z.
Proof.
  intros (p1 & q1 & ->) (p2 & q2 & ->).
  exists (p2 ++ p1), (q1 ++ q2). now rewrite <- !app_assoc.
Qed.

Lemma join_cons (sep p : str) (rest : list str) :
  rest <> [] -> join sep (p :: rest) = p ++ sep ++ join sep rest.
Proof. destruct rest; [congruence | reflexivity]. Qed.

(** every joined part occurs in the joined text *)
Lemma contains_join (sep x : str) (parts : list str) :
  In x parts -> contains x (join sep parts).
Proof.
  induction parts as [|p rest IH]; intros Hin; [destruct Hin|].
  destruct rest as [|q rest].
  - destruct Hin as [->|[]]. apply contains_refl.
  - rewrite join_cons by discriminate.
    destruct Hin as [->|Hin].
    + apply contains_app_l, contains_refl.
    + apply contains_app_r, contains_app_r, IH, Hin.
Qed.

(* ================================================================== *)
(** * The current chapter and the suggestions (story_manager) *)
(* ================================================================== *)

Lemma dict_item_Some {V : Type} (d : dict V) (k : str) (v : V) :
  dict_get d k = Some v -> dict_item d k = Ok v.
Proof. unfold dict_item. now intros ->. Qed.

Lemma dict_item_None {V : Type} (d : dict V) (k : str) :
  ~ In k (keys d) -> dict_item d k = Raise KeyError.
Proof.
  intros H. apply dict_get_None in H. unfold dict_item. now rewrite H.
Qed.

Lemma is_in_progress_iff (c : Chapter.t) :
  is_in_progress c = true <-> in_progress c.
Proof.
  unfold is_in_progress, in_progress. simpl.
  destruct (Chapter.status c); simpl; split; intros H;
    try discriminate; try reflexivity; auto;
    destruct H; discriminate.
Qed.

Lemma first_in_progress_split (pre post : list Chapter.t) (c : Chapter.t) :
  Forall (fun x => ~ in_progress x) pre -> in_progress c ->
  first_in_progress (pre ++ c :: post) = Some c.
Proof.
  intros Hpre Hc. induction Hpre as [|x pre Hx Hpre IH]; simpl.
  - apply is_in_progress_iff in Hc. now rewrite Hc.
  - destruct (is_in_progress x) eqn:E; [|exact IH].
    apply is_in_progress_iff in E. contradiction.
Qed.

Lemma first_in_progress_none (l : list Chapter.t) :
  Forall (fun x => ~ in_progress x) l -> first_in_progress l = None.
Proof.
  intros Hl. induction Hl as [|x pre Hx Hpre IH]; simpl; [reflexivity|].
  destruct (is_in_progress x) eqn:E; [|exact IH].
  apply is_in_progress_iff in E. contradiction.
Qed.

Lemma nth_error_last {A : Type} (l : list A) (d : A) :
  l <> [] -> nth_error l (List.length l - 1) = Some (List.last l d).
Proof.
  induction l as [|x l IH]; [congruence|]. intros _.
  destruct l as [|y l]; [reflexivity|].
  specialize (IH ltac:(discriminate)).
  change (List.last (x :: y :: l) d) with (List.last (y :: l) d).
  rewrite <- IH. simpl List.length.
  replace (S (S (List.length l)) - 1)%nat with (S (List.length l)) by lia.
  replace (S (List.length l) - 1)%nat with (List.length l) by lia.
  reflexivity.
Qed.

Lemma getitem_last {A : Type} (l : list A) (d : A) :
  l <> [] -> getitem l (-1) = Ok (List.last l d).
Proof.
  intros Hne. unfold getitem, norm_index, len.
  assert (Hlen : (0 < List.length l)%nat).
  { destruct l; [congruence | simpl; lia]. }
  replace ((0 <=? -1) && (-1 <? Z.of_nat (List.length l))) with false
    by (symmetry; apply andb_false_iff; left; reflexivity).
  replace ((- Z.of_nat (List.length l) <=? -1) && (-1 <? 0)) with true
    by (symmetry; apply andb_true_iff; split;
        [apply Z.leb_le; lia | reflexivity]).
  cbv beta iota delta [bind].
  replace (Z.to_nat (-1 + Z.of_nat (List.length l)))
    with (List.length l - 1)%nat by lia.
  now rewrite (nth_error_last l d Hne).
Qed.

Lemma current_scene_lines_block (parts : list str) (ie : Z * Scene.t) :
  current_scene_lines parts ie = parts ++ current_scene_block ie.
Proof.
  destruct ie as [i scene]. unfold current_scene_lines, current_scene_block.
  simpl. destruct (nonempty (Scene.content scene));
    repeat rewrite <- app_assoc; reflexivity.
Qed.

Lemma render_chapter (sm : StoryManager) (k : str) (story : Story.t)
    (c : Chapter.t) :
  dict_get (stories sm) k = Some story ->
  current_chapter_of story = Ok (Some c) ->
  get_current_chapter_context sm k = Ok (chapter_text c).
Proof.
  intros Hk Hc. unfold get_current_chapter_context.
  rewrite (dict_item_Some _ _ _ Hk). simpl bind. rewrite Hc. simpl bind.
  rewrite (fold_left_blocks current_scene_lines _ current_scene_lines_block).
  reflexivity.
Qed.

Lemma In_enumerate {A : Type} (l : list A) (a : A) (start : Z) :
  In a l -> exists i, In (i, a) (enumerate l start).
Proof.
  revert start. induction l as [|x l IH]; intros start Hin; [destruct Hin|].
  destruct Hin as [->|Hin].
  - exists start. now left.
  - destruct (IH (start + 1) Hin) as [i Hi]. exists i. now right.
Qed.

Lemma chapter_text_has_content (c : Chapter.t) (scene : Scene.t) :
  In scene (Chapter.scenes c) ->
  contains (Scene.content scene) (chapter_text c).
Proof.
  intros Hin. destruct (Scene.content scene) as [|ch rest] eqn:Hcontent.
  - apply contains_nil.
  - rewrite <- Hcontent. unfold chapter_text. apply contains_join.
    apply in_or_app. right. apply in_flat_map.
    destruct (In_enumerate _ _ 1 Hin) as [i Hi].
    exists (i, scene). split; [exact Hi|].
    unfold current_scene_block. simpl snd. rewrite Hcontent. simpl.
    right. right. right. right. right. left. reflexivity.
Qed.

(** C6. For a story of the store, [get_current_chapter_context] renders
    the first chapter, in the order of the list, whose status is
    [DRAFTING] or [OUTLINE]; when no chapter has such a status it renders
    the last chapter; the rendered text contains the content of every
    scene of that chapter; and it is the empty string when the story has
    no chapter. *)
Theorem current_chapter_context_choice (sm : StoryManager) (k : str)
    (story : Story.t) (Hk : dict_get (stories sm) k = Some story) :
  (forall pre c post,
      Story.chapters story = pre ++ c :: post ->
      Forall (fun x => ~ in_progress x) pre -> in_progress c ->
      get_current_chapter_context sm k = Ok (chapter_text c))
  /\ (forall d,
        Story.chapters story <> [] ->
        Forall (fun x => ~ in_progress x) (Story.chapters story) ->
        get_current_chapter_context sm k
        = Ok (chapter_text (List.last (Story.chapters story) d)))
  /\ (forall c scene,
        In scene (Chapter.scenes c) ->
        contains (Scene.content scene) (chapter_text c))
  /\ (Story.chapters story = [] ->
      get_current_chapter_context sm k = Ok []).
Proof.
  split; [|split; [|split]].
  - intros pre c post Hsplit Hpre Hc.
    apply (render_chapter sm k story c Hk).
    unfold current_chapter_of. rewrite Hsplit.
    now rewrite (first_in_progress_split pre post c Hpre Hc).
  - intros d Hne Hnone.
    apply (render_chapter sm k story _ Hk).
    unfold current_chapter_of.
    rewrite (first_in_progress_none _ Hnone).
    destruct (Story.chapters story) as [|x l] eqn:E; [congruence|].
    simpl nonempty. cbv iota.
    rewrite (getitem_last (x :: l) d) by discriminate. reflexivity.
  - exact chapter_text_has_content.
  - intros Hnil. unfold get_current_chapter_context.
    rewrite (dict_item_Some _ _ _ Hk). simpl bind.
    unfold current_chapter_of. rewrite Hnil. reflexivity.
Qed.

(** C10. For an identifier absent from the store, [get_story_context]
    returns the empty string, while [get_current_chapter_context] and
    [get_writing_suggestions] raise [KeyError]. *)
Theorem absent_story_lookups (sm : StoryManager) (k : str)
    (Hk : ~ In k (keys (stories sm))) :
  get_story_context sm k = Ok []
  /\ get_current_chapter_context sm k = Raise KeyError
  /\ get_writing_suggestions sm k = Raise KeyError.
Proof.
  pose proof (dict_item_None _ _ Hk) as Hitem.
  split; [|split].
  - unfold get_story_context, dict_mem.
    apply dict_get_None in Hk. now rewrite Hk.
  - unfold get_current_chapter_context. now rewrite Hitem.
  - unfold get_writing_suggestions. now rewrite Hitem.
Qed.

Lemma chapter_suggestion_block (suggestions : list str) (c : Chapter.t) :
  chapter_suggestion suggestions c = suggestions ++ chapter_advice c.
Proof.
  unfold chapter_suggestion, chapter_advice.
  destruct (Chapter.status c); simpl; try reflexivity;
    now rewrite app_nil_r.
Qed.

Lemma chapter_advice_count (c : Chapter.t) :
  List.length (chapter_advice c)
  = match Chapter.status c with
    | PLANNED | OUTLINE => 1%nat
    | _ => 0%nat
    end.
Proof. unfold chapter_advice. now destruct (Chapter.status c). Qed.

Lemma progress_suggestion_chain (w target : Z) (fT : float) :
  float_of_int target = Ok fT ->
  progress_suggestion w target
  = Ok (if int_lt_float w (SFmul prec emax fT f0_1)
        then SUGGEST_INTRODUCTION
        else if int_lt_float w (SFmul prec emax fT f0_5)
        then SUGGEST_RELATIONSHIPS
        else if int_lt_float w (SFmul prec emax fT f0_8)
        then SUGGEST_TENSION
        else SUGGEST_ENDING).
Proof.
  intros HT. unfold progress_suggestion, int_mul_float. rewrite HT.
  cbv beta iota delta [bind].
  destruct (int_lt_float w (SFmul prec emax fT f0_1)); [reflexivity|].
  destruct (int_lt_float w (SFmul prec emax fT f0_5)); [reflexivity|].
  destruct (int_lt_float w (SFmul prec emax fT f0_8)); reflexivity.
Qed.

(** the suggestions of a story whose target converts to a float: the
    progress suggestion decided by the three products, tested in order,
    then the advice of the chapters *)
Lemma writing_suggestions_chain (sm : StoryManager) (k : str)
    (story : Story.t) (fT : float)
    (Hk : dict_get (stories sm) k = Some story)
    (HT : float_of_int (Story.target_word_count story) = Ok fT) :
  let w := Story.current_word_count story in
  let below c := int_lt_float w (SFmul prec emax fT c) in
  exists progress,
    get_writing_suggestions sm k
    = Ok (progress :: List.flat_map chapter_advice (Story.chapters story))
    /\ (below f0_1 = true -> progress = SUGGEST_INTRODUCTION)
    /\ (below f0_1 = false -> below f0_5 = true ->
        progress = SUGGEST_RELATIONSHIPS)
    /\ (below f0_1 = false -> below f0_5 = false -> below f0_8 = true ->
        progress = SUGGEST_TENSION)
    /\ (below f0_1 = false -> below f0_5 = false -> below f0_8 = false ->
        progress = SUGGEST_ENDING)
    /\ (forall c,
          List.length (chapter_advice c)
          = match Chapter.status c with
            | PLANNED | OUTLINE => 1%nat
            | _ => 0%nat
            end).
Proof.
  intros w below.
  exists (if below f0_1 then SUGGEST_INTRODUCTION
          else if below f0_5 then SUGGEST_RELATIONSHIPS
          else if below f0_8 then SUGGEST_TENSION
          else SUGGEST_ENDING).
  split.
  - unfold get_writing_suggestions.
    rewrite (dict_item_Some _ _ _ Hk). cbv beta iota delta [bind].
    rewrite (progress_suggestion_chain _ _ fT HT).
    rewrite (fold_left_blocks chapter_suggestion _ chapter_suggestion_block).
    reflexivity.
  - repeat split.
    + now intros ->.
    + now intros -> ->.
    + now intros -> -> ->.
    + now intros -> -> ->.
    + intros c. exact (chapter_advice_count c).
Qed.

(* ================================================================== *)
(** * Stable sorting by year *)
(* ================================================================== *)

Section SortedFacts.
Context {A : Type} (key : A -> Z).

Lemma insert_by_perm (x : A) (l : list A) :
  Permutation (x :: l) (insert_by key x l).
Proof.
  induction l as [|h t IH]; simpl; [apply Permutation_refl|].
  destruct (key x <=? key h); [apply Permutation_refl|].
  eapply Permutation_trans; [apply perm_swap|].
  now apply perm_skip.
Qed.

Lemma sorted_by_perm (l : list A) : Permutation l (sorted_by key l).
Proof.
  induction l as [|x l IH]; simpl; [constructor|].
  eapply Permutation_trans; [|apply insert_by_perm].
  now apply perm_skip.
Qed.

Lemma insert_by_hd (x a : A) (l : list A) :
  key a <= key x -> HdRel (fun a b => key a <= key b) a l ->
  HdRel (fun a b => key a <= key b) a (insert_by key x l).
Proof.
  intros Hax Hal. destruct l as [|h t]; simpl.
  - now constructor.
  - destruct (key x <=? key h); constructor; auto.
    now inversion Hal.
Qed.

Lemma insert_by_sorted (x : A) (l : list A) :
  sorted_on key l -> sorted_on key (insert_by key x l).
Proof.
  unfold sorted_on. induction 1 as [|h t Ht IH Hh]; simpl.
  - repeat constructor.
  - destruct (key x <=? key h) eqn:E.
    + apply Z.leb_le in E. constructor; [now constructor|].
      now constructor.
    + apply Z.leb_gt in E. constructor; [exact IH|].
      apply insert_by_hd; [lia | exact Hh].
Qed.

Lemma sorted_by_sorted (l : list A) : sorted_on key (sorted_by key l).
Proof.
  induction l as [|x l IH]; simpl; [constructor|].
  now apply insert_by_sorted.
Qed.

Lemma insert_by_filter (k : Z) (x : A) (l : list A) :
  List.filter (fun a => key a =? k) (insert_by key x l)
  = List.filter (fun a => key a =? k) (x :: l).
Proof.
  induction l as [|h t IH]; [reflexivity|].
  simpl insert_by. destruct (key x <=? key h) eqn:E; [reflexivity|].
  apply Z.leb_gt in E. simpl in *. rewrite IH.
  destruct (key x =? k) eqn:Ex; [|reflexivity].
  destruct (key h =? k) eqn:Eh; [|reflexivity].
  apply Z.eqb_eq in Ex, Eh. lia.
Qed.

Lemma sorted_by_stable (l : list A) : stable_on key l (sorted_by key l).
Proof.
  intros k. induction l as [|x l IH]; [reflexivity|].
  simpl sorted_by. rewrite insert_by_filter. simpl. now rewrite IH.
Qed.

Lemma sorted_on_min (x : A) (l : list A) :
  sorted_on key (x :: l) -> forall y, In y l -> key x <= key y.
Proof.
  intros Hs. apply Sorted_StronglySorted in Hs.
  - inversion Hs as [|? ? _ Hall]; subst.
    rewrite Forall_forall in Hall. exact Hall.
  - intros a b c Hab Hbc. lia.
Qed.

Lemma filter_key_In (k : Z) (x : A) (l rest : list A) :
  List.filter (fun a => key a =? k) l = x :: rest -> In x l.
Proof.
  intros H. assert (Hin : In x (List.filter (fun a => key a =? k) l))
    by (rewrite H; now left).
  now apply filter_In in Hin.
Qed.

(** the stable non-decreasing arrangement of a list is unique: every
    stable sort returns what [sorted_by] returns *)
Lemma stable_sort_unique (l1 l2 : list A) :
  sorted_on key l1 -> sorted_on key l2 ->
  (forall k, List.filter (fun a => key a =? k) l1
             = List.filter (fun a => key a =? k) l2) ->
  l1 = l2.
Proof.
  revert l2. induction l1 as [|x t1 IH]; intros l2 H1 H2 Hf.
  - destruct l2 as [|y t2]; [reflexivity|].
    specialize (Hf (key y)). simpl in Hf. rewrite Z.eqb_refl in Hf.
    discriminate.
  - destruct l2 as [|y t2].
    + specialize (Hf (key x)). simpl in Hf. rewrite Z.eqb_refl in Hf.
      discriminate.
    + assert (Hxy : key x = key y).
      { pose proof (Hf (key x)) as Hx. pose proof (Hf (key y)) as Hy.
        simpl in Hx, Hy. rewrite Z.eqb_refl in Hx, Hy.
        destruct (key y =? key x) eqn:E; [apply Z.eqb_eq in E; lia|].
        apply Z.eqb_neq in E.
        symmetry in Hx. apply filter_key_In in Hx.
        destruct (key x =? key y) eqn:E'; [apply Z.eqb_eq in E'; lia|].
        apply filter_key_In in Hy.
        pose proof (sorted_on_min _ _ H2 _ Hx).
        pose proof (sorted_on_min _ _ H1 _ Hy). lia. }
      assert (Hhead : x = y).
      { specialize (Hf (key x)). simpl in Hf.
        rewrite Z.eqb_refl, <- Hxy, Z.eqb_refl in Hf. congruence. }
      subst y. f_equal. apply IH.
      * now inversion H1.
      * now inversion H2.
      * intros k. specialize (Hf k). simpl in Hf.
        destruct (key x =? k); congruence.
Qed.
End SortedFacts.

(* ================================================================== *)
(** * The timeline listing (advanced_main) *)
(* ================================================================== *)

Lemma timeline_entry_block (events : list pyval) (e : TimelineEvent.t) :
  timeline_entry events e = events ++ [timeline_json e].
Proof. reflexivity. Qed.

Lemma flat_map_singleton {A B : Type} (f : A -> B) (l : list A) :
  List.flat_map (fun a => [f a]) l = List.map f l.
Proof. induction l as [|a l IH]; simpl; [reflexivity | now rewrite IH]. Qed.

Lemma save_all_collections (wm : WorldManager) :
  settings (fst (save_all wm)) = settings wm
  /\ timeline (fst (save_all wm)) = timeline wm
  /\ plot_threads (fst (save_all wm)) = plot_threads wm.
Proof.
  unfold save_all.
  destruct (json_dump (asdict_all asdict_WorldSetting (settings wm)))
    as [f1 [u1|e1]]; simpl; [|auto].
  destruct (json_dump (asdict_all asdict_TimelineEvent (timeline wm)))
    as [f2 [u2|e2]]; simpl; [|auto].
  destruct (json_dump (asdict_all asdict_PlotThread (plot_threads wm)))
    as [f3 r3]; simpl; auto.
Qed.

Lemma values_app {V : Type} (d1 d2 : dict V) :
  values (d1 ++ d2) = values d1 ++ values d2.
Proof. apply map_app. Qed.

(** C9. [GET /world/timeline] lists every stored event, each once, in
    non-decreasing order of year, events of equal year in the order of the
    collection, which is the order of insertion; after inserting events of
    years 500, 100 and 300 in that order the listing is 100, 300, 500. *)
Theorem timeline_listing_sorted :
  (forall app : App,
     let events := values (timeline (the_world_manager app)) in
     let listed := sorted_by TimelineEvent.year events in
     get_timeline app
     = PDict [ (lit "timeline", PList (List.map timeline_json listed));
               (lit "total_events", PInt (len events)) ]
     /\ Permutation events listed
     /\ sorted_on TimelineEvent.year listed
     /\ stable_on TimelineEvent.year events listed)
  /\ (forall (wm : WorldManager) (e : TimelineEvent.t),
        ~ In (TimelineEvent.id e) (keys (timeline wm)) ->
        values (timeline (fst (world_manager.add_timeline_event wm e)))
        = values (timeline wm) ++ [e])
  /\ listed_names (get_timeline app_with_three_events)
     = [PStr (lit "B"); PStr (lit "C"); PStr (lit "A")].
Proof.
  split; [|split].
  - intros app. cbv zeta. split; [|split; [|split]].
    + unfold get_timeline.
      rewrite (fold_left_blocks timeline_entry _ timeline_entry_block).
      rewrite app_nil_l, flat_map_singleton. unfold len.
      rewrite length_map.
      rewrite <- (Permutation_length (sorted_by_perm TimelineEvent.year _)).
      reflexivity.
    + apply sorted_by_perm.
    + apply sorted_by_sorted.
    + apply sorted_by_stable.
  - intros wm e Hfresh. unfold world_manager.add_timeline_event.
    destruct (save_all_collections
                (mkWorldManager (settings wm)
                   (dict_set (timeline wm) (TimelineEvent.id e) e)
                   (plot_threads wm) (settings_file wm) (timeline_file wm)
                   (plots_file wm))) as (_ & -> & _).
    simpl. rewrite dict_set_fresh by exact Hfresh.
    now rewrite values_app.
  - vm_compute. reflexivity.
Qed.

(* ================================================================== *)
(** * The world context (world_manager) *)
(* ================================================================== *)

Section WorldContextFacts.
Variable format_value : pyval -> str.

Lemma detail_line_block (parts : list str) (kv : str * pyval) :
  detail_line format_value parts kv
  = parts ++ [lit "  - " ++ fst kv ++ lit ": " ++ format_value (snd kv)].
Proof. reflexivity. Qed.

Lemma setting_lines_block (parts : list str) (s : WorldSetting.t) :
  setting_lines format_value None parts s
  = parts ++ setting_block format_value s.
Proof.
  unfold setting_lines, setting_block.
  destruct (WorldSetting.details s) as [|kv rest] eqn:E.
  - simpl. now rewrite <- !app_assoc.
  - simpl nonempty. cbv iota.
    rewrite (fold_left_blocks (detail_line format_value) _
               detail_line_block).
    rewrite flat_map_singleton. now rewrite <- !app_assoc.
Qed.

Lemma event_lines_block (parts : list str) (e : TimelineEvent.t) :
  event_lines parts e = parts ++ event_block e.
Proof. unfold event_lines, event_block. now rewrite <- !app_assoc. Qed.

Lemma plot_lines_block (parts : list str) (p : PlotThread.t) :
  plot_lines parts p = parts ++ plot_block p.
Proof. unfold plot_lines, plot_block. now rewrite <- !app_assoc. Qed.

Lemma world_context_lines (wm : WorldManager) :
  get_world_context format_value wm None
  = join [10%N]
      (world_lines format_value (values (settings wm))
                   (important_events wm) (active_plots wm)).
Proof.
  unfold get_world_context, world_lines.
  rewrite (fold_left_blocks _ _ setting_lines_block).
  rewrite (fold_left_blocks _ _ event_lines_block).
  rewrite (fold_left_blocks _ _ plot_lines_block).
  now rewrite <- !app_assoc.
Qed.

Lemma world_lines_setting (ss : list WorldSetting.t)
    (es : list TimelineEvent.t) (ps : list PlotThread.t)
    (s : WorldSetting.t) :
  In s ss ->
  contains (WorldSetting.name s)
           (join [10%N] (world_lines format_value ss es ps)).
Proof.
  intros Hin.
  apply (contains_trans _
           (lit "【" ++ WorldSetting.name s ++ lit "】("
              ++ SettingType_value (WorldSetting.type s) ++ lit ")")).
  - apply contains_app_r, contains_app_l, contains_refl.
  - apply contains_join. unfold world_lines.
    apply in_or_app. right. apply in_or_app. left.
    apply in_flat_map. exists s. split; [exact Hin|]. now left.
Qed.

Lemma world_lines_event (ss : list WorldSetting.t)
    (es : list TimelineEvent.t) (ps : list PlotThread.t)
    (e : TimelineEvent.t) :
  In e es ->
  contains (TimelineEvent.name e)
           (join [10%N] (world_lines format_value ss es ps)).
Proof.
  intros Hin.
  apply (contains_trans _
           (lit "【" ++ str_of_int (TimelineEvent.year e) ++ lit "年】"
              ++ TimelineEvent.name e)).
  - apply contains_app_r, contains_app_r, contains_app_r, contains_refl.
  - apply contains_join. unfold world_lines.
    apply in_or_app. right. apply in_or_app. right.
    apply in_or_app. right. apply in_or_app. left.
    apply in_flat_map. exists e. split; [exact Hin|]. now left.
Qed.

Lemma world_lines_plot (ss : list WorldSetting.t)
    (es : list TimelineEvent.t) (ps : list PlotThread.t)
    (p : PlotThread.t) :
  In p ps ->
  contains (PlotThread.name p)
           (join [10%N] (world_lines format_value ss es ps)).
Proof.
  intros Hin.
  apply (contains_trans _ (lit "【" ++ PlotThread.name p ++ lit "】")).
  - apply contains_app_r, contains_app_l, contains_refl.
  - apply contains_join. unfold world_lines.
    apply in_or_app. right. apply in_or_app. right.
    apply in_or_app. right. apply in_or_app. right.
    apply in_or_app. right.
    apply in_flat_map. exists p. split; [exact Hin|]. now left.
Qed.
End WorldContextFacts.

Lemma important_events_In (wm : WorldManager) (e : TimelineEvent.t) :
  In e (important_events wm)
  <-> In e (values (timeline wm)) /\ 3 <= TimelineEvent.importance e.
Proof.
  unfold important_events. split.
  - intros Hin.
    apply (Permutation_in _
             (Permutation_sym (sorted_by_perm TimelineEvent.year _))) in Hin.
    apply filter_In in Hin as [Hin Himp]. split; [exact Hin|].
    now apply Z.leb_le.
  - intros [Hin Himp].
    apply (Permutation_in _ (sorted_by_perm TimelineEvent.year _)).
    apply filter_In. split; [exact Hin|]. now apply Z.leb_le.
Qed.

Lemma active_plots_In (wm : WorldManager) (p : PlotThread.t) :
  In p (active_plots wm)
  <-> In p (values (plot_threads wm)) /\ PlotThread.status p = lit "active".
Proof.
  unfold active_plots, is_active. rewrite filter_In, str_eqb_eq. tauto.
Qed.

(** C3. The text of [get_world_context()] without a category filter is
    made of the blocks of all stored settings, then of the timeline events
    of importance at least 3 in non-decreasing order of year (equal years
    in the order of the collection), then of the plot threads whose status
    is ["active"] in the order of the collection.  It contains the name of
    every setting, of every such event and of every such thread; the
    events of importance below 3 have no block and no influence on the
    text. *)
Theorem world_context_contents (format_value : pyval -> str)
    (wm : WorldManager) :
  let text := get_world_context format_value wm None in
  text = join [10%N]
           (world_lines format_value (values (settings wm))
                        (important_events wm) (active_plots wm))
  /\ (forall s, In s (values (settings wm)) ->
                contains (WorldSetting.name s) text)
  /\ (forall e, In e (values (timeline wm)) ->
                3 <= TimelineEvent.importance e ->
                contains (TimelineEvent.name e) text)
  /\ (forall e, In e (important_events wm)
                <-> In e (values (timeline wm))
                    /\ 3 <= TimelineEvent.importance e)
  /\ (Permutation
        (List.filter (fun e => 3 <=? TimelineEvent.importance e)
                     (values (timeline wm)))
        (important_events wm)
      /\ sorted_on TimelineEvent.year (important_events wm)
      /\ stable_on TimelineEvent.year
           (List.filter (fun e => 3 <=? TimelineEvent.importance e)
                        (values (timeline wm)))
           (important_events wm))
  /\ (forall wm',
        settings wm' = settings wm ->
        plot_threads wm' = plot_threads wm ->
        List.filter (fun e => 3 <=? TimelineEvent.importance e)
                    (values (timeline wm'))
        = List.filter (fun e => 3 <=? TimelineEvent.importance e)
                      (values (timeline wm)) ->
        get_world_context format_value wm' None = text)
  /\ (active_plots wm
      = List.filter (fun p => str_eqb (PlotThread.status p) (lit "active"))
                    (values (plot_threads wm))
      /\ forall p, In p (values (plot_threads wm)) ->
                   PlotThread.status p = lit "active" ->
                   contains (PlotThread.name p) text).
Proof.
  cbv zeta. rewrite world_context_lines.
  split; [reflexivity|]. split; [|split; [|split; [|split; [|split]]]].
  - intros s Hs. now apply world_lines_setting.
  - intros e He Himp. apply world_lines_event.
    apply important_events_In. auto.
  - apply important_events_In.
  - split; [|split].
    + apply sorted_by_perm.
    + apply sorted_by_sorted.
    + apply sorted_by_stable.
  - intros wm' Hs Hp Ht. rewrite world_context_lines.
    unfold important_events, active_plots, is_important.
    now rewrite Hs, Hp, Ht.
  - split; [reflexivity|].
    intros p Hp Hact. apply world_lines_plot.
    apply active_plots_In. auto.
Qed.

(* ================================================================== *)
(** * Character memory in the prompt (memory_manager, advanced_main) *)
(* ================================================================== *)

Lemma memory_part_block (cm : CharacterMemoryManager) (parts : list str)
    (name : str) :
  memory_part cm parts name
  = parts ++ match dict_get (characters cm) name with
             | Some char => [char_info name char]
             | None => []
             end.
Proof.
  unfold memory_part, dict_mem.
  destruct (dict_get (characters cm) name); [reflexivity|].
  now rewrite app_nil_r.
Qed.

Lemma requested_blocks_nil (cm : CharacterMemoryManager) (names : list str) :
  requested_blocks cm names = []
  <-> forall n, In n names -> dict_get (characters cm) n = None.
Proof.
  unfold requested_blocks. induction names as [|x names IH]; simpl.
  - split; [intros _ n [] | reflexivity].
  - destruct (dict_get (characters cm) x) eqn:E; simpl.
    + split; [discriminate|]. intros H.
      specialize (H x (or_introl eq_refl)). congruence.
    + rewrite IH. split.
      * intros H n [<-|Hn]; auto.
      * intros H n Hn. apply H. now right.
Qed.

Lemma requested_blocks_count (cm : CharacterMemoryManager)
    (names : list str) :
  List.length (requested_blocks cm names)
  = List.length (List.filter (dict_mem (characters cm)) names).
Proof.
  unfold requested_blocks, dict_mem.
  induction names as [|x names IH]; simpl; [reflexivity|].
  destruct (dict_get (characters cm) x); simpl; now rewrite IH.
Qed.

Lemma memory_string_blocks (cm : CharacterMemoryManager)
    (names : option (list str)) :
  get_character_memory_string cm names
  = match requested_blocks cm (or_empty names) with
    | [] => NO_CHARACTER_INFO
    | blocks => join [10%N] blocks
    end.
Proof.
  unfold get_character_memory_string.
  destruct (or_empty names) as [|n rest] eqn:E; [reflexivity|].
  simpl negb. cbv iota.
  rewrite (fold_left_blocks (memory_part cm) _ (memory_part_block cm)).
  rewrite app_nil_l. fold (requested_blocks cm (n :: rest)).
  now destruct (requested_blocks cm (n :: rest)).
Qed.

Lemma char_info_head (name : str) (char : CharacterProfile.t) :
  exists rest, char_info name char = 12304%N :: rest.
Proof.
  unfold char_info.
  replace (lit "【") with [12304%N] by (vm_compute; reflexivity).
  destruct (nonempty (CharacterProfile.traits char));
    destruct (nonempty (CharacterProfile.background char));
    destruct (nonempty (CharacterProfile.relationships char));
    simpl; eexists; reflexivity.
Qed.

Lemma join_head (sep p : str) (rest : list str) (c : char) (tl : str) :
  p = c :: tl -> exists tl', join sep (p :: rest) = c :: tl'.
Proof.
  intros ->. destruct rest; simpl; eexists; reflexivity.
Qed.

Lemma blocks_not_sentinel (cm : CharacterMemoryManager) (names : list str) :
  requested_blocks cm names <> [] ->
  join [10%N] (requested_blocks cm names) <> NO_CHARACTER_INFO.
Proof.
  intros Hne.
  assert (Hhead : exists b bs tl,
             requested_blocks cm names = b :: bs /\ b = 12304%N :: tl).
  { unfold requested_blocks in *.
    induction names as [|x names IH]; simpl in *; [congruence|].
    destruct (dict_get (characters cm) x) as [c|]; simpl in *.
    - destruct (char_info_head x c) as [tl Htl]. eauto.
    - auto. }
  destruct Hhead as (b & bs & tl & -> & Hb).
  destruct (join_head [10%N] b bs _ _ Hb) as [tl' ->].
  vm_compute. discriminate.
Qed.

Lemma starts_with_nth (p s : str) (i : nat) (c : char) :
  starts_with p s -> nth_error p i = Some c -> nth_error s i = Some c.
Proof.
  intros [rest ->] Hp. rewrite nth_error_app1; [exact Hp|].
  apply nth_error_Some. congruence.
Qed.

Lemma starts_with_app (p q s : str) :
  starts_with (p ++ q) s -> starts_with p s.
Proof. intros [rest ->]. exists (q ++ rest). now rewrite app_assoc. Qed.

Lemma join_starts (sep p : str) (rest : list str) :
  starts_with p (join sep (p :: rest)).
Proof.
  destruct rest as [|q rest].
  - exists []. simpl. now rewrite app_nil_r.
  - exists (sep ++ join sep (q :: rest)). reflexivity.
Qed.

Lemma fold_left_extends {A B : Type} (f : list B -> A -> list B) :
  (forall acc x, exists ext, f acc x = acc ++ ext) ->
  forall l acc, exists ext, List.fold_left f l acc = acc ++ ext.
Proof.
  intros Hf l. induction l as [|x l IH]; intros acc; simpl.
  - exists []. now rewrite app_nil_r.
  - destruct (Hf acc x) as [e1 ->]. destruct (IH (acc ++ e1)) as [e2 ->].
    exists (e1 ++ e2). now rewrite app_assoc.
Qed.

Lemma scene_lines_extends (parts : list str) (ie : Z * Scene.t) :
  exists ext, scene_lines parts ie = parts ++ ext.
Proof.
  destruct ie as [i scene]. unfold scene_lines.
  destruct (nonempty (Scene.content scene)); eexists;
    repeat rewrite <- app_assoc; reflexivity.
Qed.

Lemma chapter_lines_extends (parts : list str) (c : Chapter.t) :
  exists ext, chapter_lines parts c = parts ++ ext.
Proof.
  unfold chapter_lines. destruct (nonempty (Chapter.scenes c)).
  - match goal with
    | |- context [List.fold_left scene_lines ?l ?acc] =>
        destruct (fold_left_extends scene_lines scene_lines_extends l acc)
          as [ext ->]
    end.
    eexists. repeat rewrite <- app_assoc. reflexivity.
  - eexists. repeat rewrite <- app_assoc. reflexivity.
Qed.

(** the three context builders begin with their own headers *)
Lemma world_context_starts (format_value : pyval -> str)
    (wm : WorldManager) :
  starts_with (lit "=== 世界設定 ===")
              (get_world_context format_value wm None).
Proof. rewrite world_context_lines. apply join_starts. Qed.

Lemma story_context_starts (sm : StoryManager) (k t : str) :
  get_story_context sm k = Ok t ->
  t = [] \/ starts_with (lit "=== 物語: ") t.
Proof.
  unfold get_story_context.
  destruct (negb (dict_mem (stories sm) k)); [intros [= <-]; now left|].
  destruct (dict_item (stories sm) k) as [story|e]; [|discriminate].
  cbv beta iota delta [bind]. intros [= <-]. right.
  match goal with
  | |- context [List.fold_left chapter_lines ?l ?acc] =>
      destruct (fold_left_extends chapter_lines chapter_lines_extends l acc)
        as [ext ->]
  end.
  simpl app. eapply starts_with_app. apply join_starts.
Qed.

Lemma chapter_context_starts (sm : StoryManager) (k t : str) :
  get_current_chapter_context sm k = Ok t ->
  t = [] \/ starts_with (lit "=== 現在の章: 第") t.
Proof.
  unfold get_current_chapter_context.
  destruct (dict_item (stories sm) k) as [story|e]; [|discriminate].
  cbv beta iota delta [bind].
  destruct (current_chapter_of story) as [[c|]|e]; [| |discriminate].
  - intros [= <-]. right.
    match goal with
    | |- context [List.fold_left current_scene_lines ?l ?acc] =>
        destruct (fold_left_extends current_scene_lines
                    (fun a x => ex_intro _ _ (current_scene_lines_block a x))
                    l acc) as [ext ->]
    end.
    simpl app. eapply starts_with_app. apply join_starts.
  - intros [= <-]. now left.
Qed.

Lemma nonempty_false {A : Type} (l : list A) : nonempty l = false -> l = [].
Proof. destruct l; [reflexivity | discriminate]. Qed.

Lemma no_character_block (part : str) (c : char) :
  nth_error part 4 = Some c -> c <> 12461%N ->
  nth_error part 0 = Some 61%N ->
  part <> NO_CHARACTER_INFO /\ ~ starts_with CHARACTER_HEADER part.
Proof.
  intros H4 Hc H0. split.
  - intros ->. vm_compute in H0. discriminate.
  - intros Hs.
    assert (H : nth_error part 4 = Some 12461%N).
    { apply (starts_with_nth _ _ _ _ Hs). vm_compute. reflexivity. }
    congruence.
Qed.

Lemma world_part_ok (format_value : pyval -> str) (wm : WorldManager) :
  let w := get_world_context format_value wm None in
  nonempty w = true
  /\ w <> NO_CHARACTER_INFO /\ ~ starts_with CHARACTER_HEADER w.
Proof.
  cbv zeta. pose proof (world_context_starts format_value wm) as Hs.
  split.
  - destruct Hs as [rest ->].
    replace (lit "=== 世界設定 ===") with
      (61%N :: List.tl (lit "=== 世界設定 ===")) by (vm_compute; reflexivity).
    reflexivity.
  - apply (no_character_block _ 19990%N).
    + apply (starts_with_nth _ _ _ _ Hs). vm_compute. reflexivity.
    + discriminate.
    + apply (starts_with_nth _ _ _ _ Hs). vm_compute. reflexivity.
Qed.

Lemma story_part_ok (sm : StoryManager) (k t : str) :
  get_story_context sm k = Ok t -> nonempty t = true ->
  t <> NO_CHARACTER_INFO /\ ~ starts_with CHARACTER_HEADER t.
Proof.
  intros Ht Hne. destruct (story_context_starts _ _ _ Ht) as [->|Hs];
    [discriminate|].
  apply (no_character_block _ 29289%N).
  - apply (starts_with_nth _ _ _ _ Hs). vm_compute. reflexivity.
  - discriminate.
  - apply (starts_with_nth _ _ _ _ Hs). vm_compute. reflexivity.
Qed.

Lemma chapter_part_ok (sm : StoryManager) (k t : str) :
  get_current_chapter_context sm k = Ok t -> nonempty t = true ->
  t <> NO_CHARACTER_INFO /\ ~ starts_with CHARACTER_HEADER t.
Proof.
  intros Ht Hne. destruct (chapter_context_starts _ _ _ Ht) as [->|Hs];
    [discriminate|].
  apply (no_character_block _ 29694%N).
  - apply (starts_with_nth _ _ _ _ Hs). vm_compute. reflexivity.
  - discriminate.
  - apply (starts_with_nth _ _ _ _ Hs). vm_compute. reflexivity.
Qed.

Lemma memory_string_absent (cm : CharacterMemoryManager) :
  get_character_memory_string cm None = NO_CHARACTER_INFO.
Proof. reflexivity. Qed.

Lemma context_parts_blocks (format_value : pyval -> str) (app : App)
    (request : AdvancedGenerationRequest) (parts : list str) :
  context_parts format_value app request = Ok parts ->
  Forall not_character_block parts
  /\ (use_world_context request = true ->
      In (get_world_context format_value (the_world_manager app) None) parts).
Proof.
  unfold context_parts.
  rewrite memory_string_absent, str_eqb_refl. simpl negb. cbv iota.
  destruct (world_part_ok format_value (the_world_manager app))
    as (Hne & Hw).
  cbv zeta in Hne, Hw. rewrite Hne.
  set (w := get_world_context format_value (the_world_manager app) None)
    in *.
  assert (H0 : forall cp0 : list str,
             Forall not_character_block cp0 ->
             (use_world_context request = true -> In w cp0) ->
             forall cp,
               (if truthy_str (story_id request)
                then
                  story_context <-
                    get_story_context (the_story_manager app)
                      match story_id request with
                      | Some s => s
                      | None => []
                      end ;;
                  (if truthy_int (chapter_number request)
                   then
                     chapter_context <-
                       get_current_chapter_context (the_story_manager app)
                         match story_id request with
                         | Some s => s
                         | None => []
                         end ;;
                     Ok (if nonempty chapter_context
                         then (if nonempty story_context
                               then cp0 ++ [story_context] else cp0)
                                ++ [chapter_context]
                         else (if nonempty story_context
                               then cp0 ++ [story_context] else cp0))
                   else Ok (if nonempty story_context
                            then cp0 ++ [story_context] else cp0))
                else Ok cp0) = Ok cp ->
               Forall not_character_block cp
               /\ (use_world_context request = true -> In w cp)).
  { intros cp0 Hcp0 Hin cp.
    destruct (truthy_str (story_id request)); [|intros [= <-]; auto].
    destruct (get_story_context _ _) as [sc|e] eqn:Hsc; [|discriminate].
    cbv beta iota delta [bind].
    assert (H1 : Forall not_character_block
                   (if nonempty sc then cp0 ++ [sc] else cp0)
                 /\ (use_world_context request = true ->
                     In w (if nonempty sc then cp0 ++ [sc] else cp0))).
    { destruct (nonempty sc) eqn:Es; [|auto]. split.
      - apply Forall_app. split; [exact Hcp0|]. constructor; [|constructor].
        exact (story_part_ok _ _ _ Hsc Es).
      - intros Hu. apply in_or_app. left. auto. }
    destruct H1 as [H1 H2].
    destruct (truthy_int (chapter_number request)); [|intros [= <-]; auto].
    destruct (get_current_chapter_context _ _) as [cc|e] eqn:Hcc;
      [|discriminate].
    intros [= <-]. destruct (nonempty cc) eqn:Ec; [|auto]. split.
    - apply Forall_app. split; [exact H1|]. constructor; [|constructor].
      exact (chapter_part_ok _ _ _ Hcc Ec).
    - intros Hu. apply in_or_app. left. auto. }
  intros Hparts.
  destruct (use_world_context request) eqn:Ew.
  - apply (H0 ([] ++ [w])).
    + constructor; [exact Hw | constructor].
    + intros _. now left.
    + destruct (use_character_memory request);
        match type of Hparts with
        | bind ?m _ = _ => destruct m as [cp|e]; [|discriminate]
        end; cbv beta iota delta [bind] in Hparts; now inversion Hparts.
  - apply (H0 []).
    + constructor.
    + discriminate.
    + destruct (use_character_memory request);
        match type of Hparts with
        | bind ?m _ = _ => destruct m as [cp|e]; [|discriminate]
        end; cbv beta iota delta [bind] in Hparts; now inversion Hparts.
Qed.

Lemma final_prompt_no_story (format_value : pyval -> str) (app : App)
    (request : AdvancedGenerationRequest) :
  story_id request = None ->
  final_prompt format_value app request
  = Ok (prompt_around
          (if use_world_context request
           then get_world_context format_value (the_world_manager app) None
           else [])
          (prompt request)).
Proof.
  intros Hs. unfold final_prompt, context_parts.
  rewrite memory_string_absent, str_eqb_refl, Hs. simpl negb. cbv iota.
  destruct (world_part_ok format_value (the_world_manager app)) as (Hne & _).
  cbv zeta in Hne. rewrite Hne. simpl truthy_str. cbv iota.
  destruct (use_world_context request); destruct (use_character_memory request);
    reflexivity.
Qed.

(** C5. [get_character_memory_string] returns the sentinel exactly when
    the name list is absent or empty or names no stored character, and
    otherwise joins one block per requested name that is stored.  The
    blocks the generation endpoint collects never hold the sentinel nor a
    character block, whatever the stored characters and the
    [use_character_memory] flag; the world context is among them when
    [use_world_context] is set; and a request without story, with both
    flags set, gets the prompt built around the world context alone. *)
Theorem character_memory_in_prompt :
  (forall (cm : CharacterMemoryManager) (names : option (list str)),
     (get_character_memory_string cm names = NO_CHARACTER_INFO
      <-> (or_empty names = []
           \/ forall n, In n (or_empty names) ->
                        dict_get (characters cm) n = None))
     /\ ((exists n, In n (or_empty names)
                    /\ dict_get (characters cm) n <> None) ->
         get_character_memory_string cm names
         = join [10%N] (requested_blocks cm (or_empty names))
         /\ List.length (requested_blocks cm (or_empty names))
            = List.length (List.filter (dict_mem (characters cm))
                                       (or_empty names))))
  /\ (forall (format_value : pyval -> str) (app : App)
             (request : AdvancedGenerationRequest) (parts : list str),
        context_parts format_value app request = Ok parts ->
        Forall not_character_block parts
        /\ (use_world_context request = true ->
            In (get_world_context format_value (the_world_manager app) None)
               parts))
  /\ (forall (format_value : pyval -> str) (app : App)
             (request : AdvancedGenerationRequest),
        story_id request = None ->
        use_world_context request = true ->
        use_character_memory request = true ->
        final_prompt format_value app request
        = Ok (prompt_around
                (get_world_context format_value (the_world_manager app) None)
                (prompt request))).
Proof.
  split; [|split].
  - intros cm names. rewrite memory_string_blocks. split.
    + split.
      * intros Hs. right. apply requested_blocks_nil.
        destruct (requested_blocks cm (or_empty names)) as [|b bs] eqn:E;
          [reflexivity|].
        exfalso. apply (blocks_not_sentinel cm (or_empty names)).
        -- rewrite E. discriminate.
        -- rewrite E. exact Hs.
      * intros [Hnil|Hnone].
        -- now rewrite Hnil.
        -- apply requested_blocks_nil in Hnone. now rewrite Hnone.
    + intros (n & Hin & Hstored). split.
      * destruct (requested_blocks cm (or_empty names)) as [|b bs] eqn:E;
          [|reflexivity].
        exfalso. apply Hstored.
        exact (proj1 (requested_blocks_nil cm _) E n Hin).
      * apply requested_blocks_count.
  - exact context_parts_blocks.
  - intros format_value app request Hs Hw _.
    rewrite (final_prompt_no_story format_value app request Hs).
    now rewrite Hw.
Qed.

(* ================================================================== *)
(** * Fresh story identifiers (story_manager) *)
(* ================================================================== *)

Lemma N_of_ascii_inj (a b : ascii) : N_of_ascii a = N_of_ascii b -> a = b.
Proof.
  intros H. rewrite <- (ascii_N_embedding a), <- (ascii_N_embedding b).
  now rewrite H.
Qed.

Lemma list_ascii_of_string_inj (s t : string) :
  list_ascii_of_string s = list_ascii_of_string t -> s = t.
Proof.
  intros H. rewrite <- (string_of_list_ascii_of_string s),
              <- (string_of_list_ascii_of_string t).
  now rewrite H.
Qed.

Lemma to_int_proper (z : Z) :
  Z.to_int z <> Decimal.Pos Decimal.Nil /\ Z.to_int z <> Decimal.Neg Decimal.Nil.
Proof.
  destruct z as [|p|p]; simpl; split; try discriminate;
    intros [= H]; now apply (DecimalPos.Unsigned.to_uint_nonnil p).
Qed.

Lemma str_of_int_inj (a b : Z) : str_of_int a = str_of_int b -> a = b.
Proof.
  unfold str_of_int. intros H.
  assert (Hs : NilZero.string_of_int (Z.to_int a)
               = NilZero.string_of_int (Z.to_int b)).
  { apply list_ascii_of_string_inj.
    revert H. generalize (list_ascii_of_string
                            (NilZero.string_of_int (Z.to_int a))).
    generalize (list_ascii_of_string (NilZero.string_of_int (Z.to_int b))).
    intros l2 l1. revert l2.
    induction l1 as [|x l1 IH]; intros [|y l2]; simpl; try discriminate;
      [reflexivity|].
    intros [= Hx Hl]. apply N_of_ascii_inj in Hx. subst. f_equal. auto. }
  apply DecimalZ.to_int_inj.
  destruct (to_int_proper a) as [Ha1 Ha2].
  destruct (to_int_proper b) as [Hb1 Hb2].
  pose proof (NilZero.isi _ Ha1 Ha2) as Ia.
  pose proof (NilZero.isi _ Hb1 Hb2) as Ib.
  rewrite Hs in Ia. congruence.
Qed.

Lemma uint_no_underscore (d : Decimal.uint) :
  Forall (fun a => a <> "_"%char)
         (list_ascii_of_string (NilEmpty.string_of_uint d)).
Proof.
  induction d; simpl; constructor; try discriminate; assumption.
Qed.

Lemma str_of_int_no_underscore (z : Z) :
  ~ In 95%N (str_of_int z).
Proof.
  unfold str_of_int. intros Hin. apply in_map_iff in Hin as (a & Ha & Hin).
  assert (Hu : a = "_"%char) by (apply N_of_ascii_inj; exact Ha).
  subst a.
  assert (Hall : Forall (fun a => a <> "_"%char)
                   (list_ascii_of_string
                      (NilZero.string_of_int (Z.to_int z)))).
  { destruct (Z.to_int z) as [d|d]; simpl.
    - destruct d; try apply uint_no_underscore.
      simpl. constructor; [discriminate | constructor].
    - constructor; [discriminate|].
      destruct d; try apply uint_no_underscore.
      simpl. constructor; [discriminate | constructor]. }
  rewrite Forall_forall in Hall. now apply (Hall _ Hin).
Qed.

(** two texts cut at their first separator have the same first part *)
Lemma split_at_first (c : char) (u v x y : str) :
  ~ In c u -> ~ In c v -> u ++ c :: x = v ++ c :: y -> u = v.
Proof.
  revert v. induction u as [|a u IH]; intros [|b v] Hu Hv H; simpl in *.
  - reflexivity.
  - injection H as Hc _. subst b. exfalso. apply Hv. now left.
  - injection H as Hc _. subst a. exfalso. apply Hu. now left.
  - injection H as Hab Hrest. subst b. f_equal.
    apply IH with (v := v); auto.
Qed.

Lemma story_key_index (i j ts ts' : Z) :
  story_key i ts = story_key j ts' -> i = j.
Proof.
  unfold story_key. intros H. apply app_inv_head in H.
  replace (lit "_") with [95%N] in H by (vm_compute; reflexivity).
  simpl in H. apply str_of_int_inj.
  eapply (split_at_first 95%N); eauto using str_of_int_no_underscore.
Qed.

Lemma keys_numbered_fresh (ks : list str) (ts : Z) :
  keys_numbered ks -> ~ In (story_key (len ks + 1) ts) ks.
Proof.
  intros Hks Hin. apply In_nth_error in Hin as [i Hi].
  destruct (Hks i _ Hi) as [ts' Hk].
  apply story_key_index in Hk.
  assert (i < List.length ks)%nat by (apply nth_error_Some; congruence).
  unfold len in Hk. lia.
Qed.

Lemma keys_numbered_snoc (ks : list str) (ts : Z) :
  keys_numbered ks -> keys_numbered (ks ++ [story_key (len ks + 1) ts]).
Proof.
  intros Hks i k Hi.
  destruct (Nat.lt_ge_cases i (List.length ks)) as [Hlt|Hge].
  - rewrite nth_error_app1 in Hi by exact Hlt. now apply Hks.
  - rewrite nth_error_app2 in Hi by exact Hge.
    destruct (i - List.length ks)%nat as [|n] eqn:E; simpl in Hi.
    + injection Hi as <-. exists ts. f_equal. unfold len. f_equal. lia.
    + destruct n; discriminate.
Qed.

Lemma keys_app {V : Type} (d1 d2 : dict V) :
  keys (d1 ++ d2) = keys d1 ++ keys d2.
Proof. apply map_app. Qed.

Lemma len_keys {V : Type} (d : dict V) : len (keys d) = len d.
Proof. unfold len, keys. now rewrite length_map. Qed.

Lemma dict_item_key {V : Type} (d : dict V) (k : str) (v : V) :
  dict_item d k = Ok v -> In k (keys d).
Proof.
  intros H. apply dict_item_In in H. apply in_map_iff. now exists (k, v).
Qed.

Lemma story_step_numbered (sm : StoryManager) (c : story_call) :
  keys_numbered (keys (stories sm)) ->
  keys_numbered (keys (stories (story_step sm c))).
Proof.
  intros Hks.
  destruct c as [ts now title genre summary
                |n1 n2 sid title summary
                |now sid k name description location chars purpose
                |now sid k j content]; simpl story_step.
  - unfold create_story. simpl fst. simpl stories.
    fold (story_key (len (stories sm) + 1) ts).
    rewrite <- (len_keys (stories sm)).
    rewrite dict_set_fresh by (now apply keys_numbered_fresh).
    rewrite keys_app. simpl keys at 2. now apply keys_numbered_snoc.
  - unfold add_chapter.
    destruct (negb (dict_mem (stories sm) sid)); [exact Hks|].
    destruct (dict_item (stories sm) sid) as [story|e] eqn:Hit;
      [|exact Hks].
    simpl fst. simpl stories.
    rewrite keys_dict_set_mem; [exact Hks|].
    exact (dict_item_key _ _ _ Hit).
  - unfold add_scene.
    destruct (negb (dict_mem (stories sm) sid)); [exact Hks|].
    destruct (dict_item (stories sm) sid) as [story|e] eqn:Hit;
      [|exact Hks].
    destruct (len (Story.chapters story) <? k); [exact Hks|].
    destruct (chapter_at story k) as [[i chapter]|e]; [|exact Hks].
    simpl fst. simpl stories.
    rewrite keys_dict_set_mem; [exact Hks|].
    exact (dict_item_key _ _ _ Hit).
  - unfold update_scene_content.
    destruct (dict_item (stories sm) sid) as [story|e] eqn:Hit;
      [|exact Hks].
    cbv beta iota delta [bind].
    destruct (chapter_at story k) as [[i chapter]|e]; [|exact Hks].
    cbv beta iota delta [bind snd].
    destruct (norm_index (Chapter.scenes chapter) j) as [jj|e];
      [|exact Hks].
    destruct (getitem (Chapter.scenes chapter) j) as [scene|e];
      [|exact Hks].
    simpl fst. simpl stories.
    rewrite keys_dict_set_mem; [exact Hks|].
    exact (dict_item_key _ _ _ Hit).
Qed.

Lemma story_run_numbered (calls : list story_call) (sm : StoryManager) :
  keys_numbered (keys (stories sm)) ->
  keys_numbered (keys (stories (story_run sm calls))).
Proof.
  revert sm. induction calls as [|c calls IH]; intros sm Hsm; simpl.
  - exact Hsm.
  - apply IH. now apply story_step_numbered.
Qed.

(** C8. In every store the manager reaches from a first start,
    [create_story] returns an identifier that is not a key of the store,
    and after the call the store holds under it a story with the given
    title, genre and summary, a [current_word_count] of 0 and no
    chapter. *)
Theorem create_story_fresh_id (f : file) (calls : list story_call)
    (ts : Z) (now title genre summary : str) :
  let sm := story_run (fresh_story_manager f) calls in
  let result := create_story ts now sm title genre summary in
  ~ In (snd result) (keys (stories sm))
  /\ exists story,
       dict_get (stories (fst result)) (snd result) = Some story
       /\ Story.id story = snd result
       /\ Story.title story = title
       /\ Story.genre story = genre
       /\ Story.summary story = summary
       /\ Story.current_word_count story = 0
       /\ Story.chapters story = [].
Proof.
  cbv zeta. split.
  - unfold create_story. simpl snd.
    fold (story_key (len (stories (story_run (fresh_story_manager f) calls))
                     + 1) ts).
    rewrite <- len_keys. apply keys_numbered_fresh.
    apply story_run_numbered. intros i k Hi. destruct i; discriminate.
  - unfold create_story. simpl fst. simpl snd. simpl stories.
    rewrite dict_get_set_same. eexists. split; [reflexivity|].
    repeat split.
Qed.

(* ================================================================== *)
(** * Persistence *)
(* ================================================================== *)

Lemma lmap_roundtrip {A : Type} (enc : A -> pyval)
    (dec : pyval -> loaded A) (P : A -> Prop) (l : list A) :
  (forall a, P a -> dec (enc a) = Built a) ->
  Forall P l -> lmap dec (List.map enc l) = Built l.
Proof.
  intros Hdec Hl. induction Hl as [|a l Ha Hl IH]; simpl; [reflexivity|].
  now rewrite (Hdec a Ha), IH.
Qed.

Lemma to_list_str (l : list str) :
  to_list to_str (PList (List.map PStr l)) = Built l.
Proof.
  simpl. apply (lmap_roundtrip PStr to_str (fun _ => True)); [reflexivity|].
  now apply Forall_forall.
Qed.

Lemma to_optional_list_str (l : list str) :
  to_optional (to_list to_str) (PList (List.map PStr l)) = Built (Some l).
Proof. unfold to_optional. now rewrite to_list_str. Qed.

Lemma pyval_nested_ind (P : pyval -> Prop) :
  P PNone -> (forall b, P (PBool b)) -> (forall z, P (PInt z)) ->
  (forall f, P (PFloat f)) -> (forall s, P (PStr s)) ->
  (forall l, Forall P l -> P (PList l)) ->
  (forall d, Forall (fun kv => P (snd kv)) d -> P (PDict d)) ->
  (forall c v, P (PEnum c v)) ->
  forall v, P v.
Proof.
  intros HN HB HI HF HS HL HD HE. fix IH 1. intros [|b|z|f|s|l|d|c v].
  - exact HN.
  - apply HB.
  - apply HI.
  - apply HF.
  - apply HS.
  - apply HL. induction l as [|x l IHl]; constructor;
      [apply IH | exact IHl].
  - apply HD. induction d as [|kv d IHd]; constructor;
      [apply IH | exact IHd].
  - apply HE.
Qed.

(** a value without enum member is written unless some string of it
    cannot be encoded *)
Lemma dump_error_text (v : pyval) :
  serializable v = true ->
  dump_error v
  = if encodable_text v then None else Some UnicodeEncodeError.
Proof.
  induction v as [|b|z|f|s|l Hl|d Hd|c v] using pyval_nested_ind;
    intros Hser; try reflexivity.
  - cbn [serializable] in Hser.
    induction Hl as [|x l Hx Hl IHl]; [reflexivity|].
    cbn [forallb] in Hser. apply andb_true_iff in Hser as [H1 H2].
    change (dump_error (PList (x :: l)))
      with (match dump_error x with
            | Some e => Some e
            | None => dump_error (PList l)
            end).
    change (encodable_text (PList (x :: l)))
      with (encodable_text x && encodable_text (PList l)).
    rewrite (Hx H1), (IHl H2).
    destruct (encodable_text x); reflexivity.
  - cbn [serializable] in Hser.
    induction Hd as [|kv d Hx Hd IHd]; [reflexivity|].
    cbn [forallb] in Hser. apply andb_true_iff in Hser as [H1 H2].
    change (dump_error (PDict (kv :: d)))
      with (if encodable (fst kv) then
              match dump_error (snd kv) with
              | Some e => Some e
              | None => dump_error (PDict d)
              end
            else Some UnicodeEncodeError).
    change (encodable_text (PDict (kv :: d)))
      with (encodable (fst kv) && encodable_text (snd kv)
            && encodable_text (PDict d)).
    rewrite (Hx H1), (IHd H2).
    destruct (encodable (fst kv)); [|reflexivity].
    destruct (encodable_text (snd kv)); reflexivity.
  - discriminate.
Qed.

Lemma json_dump_text (v : pyval) :
  serializable v = true ->
  json_dump v
  = if encodable_text v then (Doc v, Ok tt)
    else (Unreadable, Raise UnicodeEncodeError).
Proof.
  intros Hser. unfold json_dump. rewrite (dump_error_text v Hser).
  now destruct (encodable_text v).
Qed.

Lemma serializable_strs (l : list str) :
  forallb serializable (List.map PStr l) = true.
Proof. induction l; simpl; auto. Qed.

Lemma forallb_map_true {A : Type} (f : A -> pyval) (l : list A) :
  (forall a, serializable (f a) = true) ->
  forallb serializable (List.map f l) = true.
Proof.
  intros H. induction l as [|a l IH]; simpl; [reflexivity|].
  now rewrite H, IH.
Qed.

(** ** Scenes, chapters, stories *)

Lemma Scene_roundtrip (s : Scene.t) :
  scene_loadable s -> Scene_of (asdict_Scene s) = Built s.
Proof.
  destruct s as [id name description location characters purpose content
                 word_count notes plot_threads].
  unfold scene_loadable, asdict_Scene, Scene_of, with_kwargs. simpl.
  intros Hwc.
  replace (kwargs_ok _ _ _) with true by (vm_compute; reflexivity).
  lookup_keys.
  rewrite to_list_str, to_optional_list_str. simpl.
  unfold Scene.init. destruct (nonempty content); [|reflexivity].
  now rewrite Hwc.
Qed.

Lemma load_chapter_stored (now : str) (status_text : Chapter.t -> str)
    (c : Chapter.t) :
  chapter_loadable c ->
  load_chapter now (stored_chapter status_text c)
  = match ChapterStatus_of (PStr (status_text c)) with
    | Ok st => Built (with_status c st)
    | Raise e => Threw e
    end.
Proof.
  intros [Hsc Hact].
  unfold load_chapter, stored_chapter, get, items, dict_item.
  simpl dict_get. eval_keys. cbv iota.
  unfold iterate. simpl lbind at 1. simpl lbind at 1.
  rewrite (lmap_roundtrip asdict_Scene Scene_of scene_loadable _
             Scene_roundtrip Hsc).
  simpl lbind at 1. simpl lbind at 1.
  simpl dict_set. eval_keys. cbv iota.
  simpl dict_get. eval_keys. cbv iota.
  cbv beta iota delta [bind].
  destruct (ChapterStatus_of (PStr (status_text c))) as [st|e];
    [|reflexivity].
  simpl of_outcome. simpl lbind at 1.
  unfold Chapter_of, with_kwargs. simpl keys.
  replace (kwargs_ok _ _ _) with true by (vm_compute; reflexivity).
  lookup_keys. simpl.
  unfold Chapter.init, Chapter._update_word_count, with_status. simpl.
  now rewrite <- Hact.
Qed.

Lemma load_chapters_stored (now : str) (status_text : Chapter.t -> str)
    (l : list Chapter.t) :
  Forall chapter_loadable l ->
  lmap (load_chapter now) (List.map (stored_chapter status_text) l)
  = parse_statuses status_text l.
Proof.
  intros Hl. unfold parse_statuses.
  induction Hl as [|c l Hc Hl IH]; cbn [lmap List.map]; [reflexivity|].
  now rewrite (load_chapter_stored now status_text c Hc), IH.
Qed.

Lemma parse_statuses_counts (status_text : Chapter.t -> str)
    (l l' : list Chapter.t) :
  parse_statuses status_text l = Built l' ->
  Story.sum_word_count l' = Story.sum_word_count l.
Proof.
  unfold Story.sum_word_count. rewrite !fold_left_add. intros H.
  do 2 f_equal.
  revert l' H. unfold parse_statuses.
  induction l as [|c l IH]; cbn [lmap]; intros l' H.
  - now injection H as <-.
  - destruct (ChapterStatus_of (PStr (status_text c))) as [st|e];
      cbn [lbind] in H; [|discriminate].
    destruct (lmap _ l) as [l0| |]; cbn [lbind] in H; try discriminate.
    injection H as <-. cbn [List.map]. f_equal. exact (IH l0 eq_refl).
Qed.

Lemma load_story_stored (now : str) (status_text : Chapter.t -> str)
    (s : Story.t) :
  story_loadable s ->
  load_story now (stored_story status_text s)
  = (chapters <~ parse_statuses status_text (Story.chapters s) ;;
     Built (Story.set_chapters s chapters)).
Proof.
  intros [Hch Hcur].
  unfold load_story, stored_story, get, items.
  simpl dict_get. eval_keys. cbv iota.
  unfold iterate. simpl lbind at 1. simpl lbind at 1.
  rewrite (load_chapters_stored now status_text _ Hch).
  destruct (parse_statuses status_text (Story.chapters s)) as [l'| |] eqn:E;
    try reflexivity.
  simpl lbind. simpl dict_set. eval_keys. cbv iota.
  unfold Story_of, with_kwargs. simpl keys.
  replace (kwargs_ok _ _ _) with true by (vm_compute; reflexivity).
  lookup_keys. simpl.
  unfold Story.init, Story._update_word_count, Story.set_chapters. simpl.
  rewrite (parse_statuses_counts _ _ _ E), <- Hcur. reflexivity.
Qed.

Lemma ChapterStatus_of_value (st : ChapterStatus) :
  ChapterStatus_of (PStr (ChapterStatus_value st)) = Ok st.
Proof. destruct st; vm_compute; reflexivity. Qed.

Lemma with_status_same (c : Chapter.t) : with_status c (Chapter.status c) = c.
Proof. now destruct c. Qed.

Lemma parse_statuses_value (l : list Chapter.t) :
  parse_statuses (fun c => ChapterStatus_value (Chapter.status c)) l
  = Built l.
Proof.
  unfold parse_statuses. induction l as [|c l IH]; cbn [lmap];
    [reflexivity|].
  now rewrite ChapterStatus_of_value, with_status_same, IH.
Qed.




Lemma load_entries_value (now : str) (d acc : dict Story.t) :
  Forall (fun kv => story_loadable (snd kv)) d ->
  NoDup (keys acc ++ keys d) ->
  load_entries now
    (List.map (fun kv =>
                 (fst kv,
                  stored_story (fun c => ChapterStatus_value (Chapter.status c))
                               (snd kv))) d)
    (Built acc)
  = Built (acc ++ d).
Proof.
  intros Hd. revert acc.
  induction Hd as [|[k s] d Hs Hd IH]; intros acc Hnd.
  - simpl. now rewrite app_nil_r.
  - unfold load_entries in *. simpl List.map. simpl List.fold_left.
    rewrite (load_story_stored now _ s Hs), parse_statuses_value.
    simpl lbind.
    assert (Hk : ~ In k (keys acc)).
    { intros Hin. simpl in Hnd. apply NoDup_remove_2 in Hnd. apply Hnd.
      apply in_or_app. now left. }
    rewrite dict_set_fresh by exact Hk.
    replace (Story.set_chapters s (Story.chapters s)) with s
      by (now destruct s).
    rewrite IH.
    + now rewrite <- app_assoc.
    + rewrite keys_app. simpl. rewrite <- app_assoc. exact Hnd.
Qed.


Lemma status_to_value_stored (c : Chapter.t) :
  status_to_value (asdict_Chapter c)
  = stored_chapter (fun c => ChapterStatus_value (Chapter.status c)) c.
Proof.
  unfold status_to_value, asdict_Chapter, stored_chapter.
  simpl dict_get. eval_keys. cbv iota.
  simpl dict_set. eval_keys. cbv iota. reflexivity.
Qed.

Lemma chapters_status_to_value_stored (s : Story.t) :
  chapters_status_to_value (asdict_Story s)
  = stored_story (fun c => ChapterStatus_value (Chapter.status c)) s.
Proof.
  unfold chapters_status_to_value, asdict_Story, stored_story.
  simpl dict_get. eval_keys. cbv iota.
  simpl dict_set. eval_keys. cbv iota.
  rewrite map_map.
  rewrite (map_ext _ _ status_to_value_stored). reflexivity.
Qed.

Lemma serializable_scene (s : Scene.t) : serializable (asdict_Scene s) = true.
Proof.
  unfold asdict_Scene. simpl. now rewrite !serializable_strs.
Qed.

Lemma serializable_chapter (f : Chapter.t -> str) (c : Chapter.t) :
  serializable (stored_chapter f c) = true.
Proof.
  unfold stored_chapter. simpl.
  now rewrite (forallb_map_true asdict_Scene _ serializable_scene).
Qed.

Lemma serializable_story (f : Chapter.t -> str) (s : Story.t) :
  serializable (stored_story f s) = true.
Proof.
  unfold stored_story. simpl.
  now rewrite (forallb_map_true _ _ (serializable_chapter f)).
Qed.

Lemma serializable_entries {V : Type} (enc : V -> pyval) (d : dict V) :
  (forall v, serializable (enc v) = true) ->
  serializable (PDict (List.map (fun kv => (fst kv, enc (snd kv))) d)) = true.
Proof.
  intros H. simpl. induction d as [|[k v] d IH]; simpl; [reflexivity|].
  now rewrite H, IH.
Qed.

Lemma save_stories_file (sm : StoryManager) :
  NoDup (keys (stories sm)) ->
  stories_file (save_stories sm)
  = if encodable_text (stories_document (stories sm))
    then Doc (stories_document (stories sm))
    else Unreadable.
Proof.
  intros Hnd. unfold save_stories. cbn [stories_file].
  pose proof (rebuild_dict
                (fun s => chapters_status_to_value (asdict_Story s))
                (stories sm) [] Hnd) as Hre.
  cbv beta in Hre. rewrite Hre, app_nil_l. clear Hre.
  assert (Hmap : List.map (fun kv : str * Story.t =>
                    (fst kv, chapters_status_to_value (asdict_Story (snd kv))))
                   (stories sm)
                 = List.map (fun kv =>
                     (fst kv,
                      stored_story
                        (fun c => ChapterStatus_value (Chapter.status c))
                        (snd kv))) (stories sm)).
  { apply map_ext. intros [k s]. cbn [fst snd].
    now rewrite chapters_status_to_value_stored. }
  rewrite Hmap.
  rewrite (json_dump_text _ (serializable_entries _ _ (serializable_story _))).
  unfold stories_document, stored_stories.
  now destruct (encodable_text _).
Qed.

Lemma load_stories_data_entries (now : str) (entries : dict pyval) :
  load_stories_data now (PDict entries)
  = load_entries now entries (@Built (dict Story.t) []).
Proof. reflexivity. Qed.

Lemma load_stored_stories (now : str) (d : dict Story.t) :
  NoDup (keys d) ->
  Forall (fun kv => story_loadable (snd kv)) d ->
  _load_stories now
    (Doc (stored_stories (fun c => ChapterStatus_value (Chapter.status c)) d))
  = Some d.
Proof.
  intros Hnd Hd. unfold _load_stories, stored_stories.
  rewrite load_stories_data_entries.
  now rewrite (load_entries_value now d [] Hd Hnd).
Qed.


Lemma keys_numbered_NoDup (ks : list str) : keys_numbered ks -> NoDup ks.
Proof.
  intros Hks. apply NoDup_nth_error. intros i j Hi Heq.
  destruct (nth_error ks i) as [k|] eqn:Ei;
    [|apply nth_error_None in Ei; lia].
  destruct (Hks i k Ei) as [ts Hk]. destruct (Hks j k (eq_sym Heq)) as [ts' Hk'].
  rewrite Hk in Hk'. apply story_key_index in Hk'. lia.
Qed.

Lemma counted_loadable (sm : StoryManager) :
  store_counted sm ->
  Forall (fun kv => story_loadable (snd kv)) (stories sm).
Proof.
  unfold store_counted. apply Forall_impl. intros [k s] [Hcur Hch].
  simpl in *. split.
  - revert Hch. apply Forall_impl. intros c [Hact Hsc]. split.
    + revert Hsc. apply Forall_impl. intros sc Hs _. exact Hs.
    + rewrite Hact. symmetry. now apply scenes_counted_sum.
  - rewrite Hcur. unfold Story.sum_word_count. now rewrite fold_left_add.
Qed.

Lemma reached_store (f : file) (calls : list story_call) :
  let sm := story_run (fresh_story_manager f) calls in
  NoDup (keys (stories sm))
  /\ Forall (fun kv => story_loadable (snd kv)) (stories sm).
Proof.
  cbv zeta. split.
  - apply keys_numbered_NoDup, story_run_numbered.
    intros i k Hi. destruct i; discriminate.
  - apply counted_loadable, story_run_counted. constructor.
Qed.

(** ** Timeline events and plot threads *)

Lemma to_optional_int (o : option Z) :
  to_optional to_int (of_optional_int o) = Built o.
Proof. now destruct o. Qed.

Lemma TimelineEvent_roundtrip (e : TimelineEvent.t) :
  TimelineEvent_of (asdict_TimelineEvent e) = Built e.
Proof.
  destruct e as [id name description year month day importance chars
                 related consequences].
  unfold asdict_TimelineEvent, TimelineEvent_of, with_kwargs. simpl.
  replace (kwargs_ok _ _ _) with true by (vm_compute; reflexivity).
  lookup_keys.
  rewrite !to_optional_list_str, !to_optional_int. reflexivity.
Qed.


Lemma serializable_event (e : TimelineEvent.t) :
  serializable (asdict_TimelineEvent e) = true.
Proof.
  unfold asdict_TimelineEvent. simpl. rewrite !serializable_strs.
  now destruct (TimelineEvent.month e), (TimelineEvent.day e).
Qed.

Lemma serializable_plot (p : PlotThread.t) :
  serializable (asdict_PlotThread p) = true.
Proof.
  unfold asdict_PlotThread. simpl. now rewrite !serializable_strs.
Qed.

Lemma asdict_all_entries {V : Type} (enc : V -> pyval) (d : dict V) :
  NoDup (keys d) ->
  asdict_all enc d = PDict (List.map (fun kv => (fst kv, enc (snd kv))) d).
Proof.
  intros Hnd. unfold asdict_all.
  now rewrite (rebuild_dict enc d [] Hnd).
Qed.

Lemma load_all_entries {V : Type} (enc : V -> pyval)
    (build : pyval -> loaded V) (d : dict V) :
  NoDup (keys d) -> (forall v, build (enc v) = Built v) ->
  load_all build (Doc (PDict (List.map (fun kv => (fst kv, enc (snd kv))) d)))
  = Some d.
Proof.
  intros Hnd Hb. unfold load_all. cbn [items lbind].
  assert (H : forall acc : dict V,
             NoDup (keys acc ++ keys d) ->
             List.fold_left
               (fun (acc : loaded (dict V)) (kv : str * pyval) =>
                  d0 <~ acc ;; v <~ build (snd kv) ;;
                  Built (dict_set d0 (fst kv) v))
               (List.map (fun kv => (fst kv, enc (snd kv))) d)
               (Built acc)
             = Built (acc ++ d)).
  { clear Hnd. induction d as [|[k v] d IH]; intros acc Hnd.
    - simpl. now rewrite app_nil_r.
    - cbn [List.map List.fold_left fst snd lbind]. rewrite Hb.
      cbn [lbind].
      assert (Hk : ~ In k (keys acc)).
      { intros Hin. simpl in Hnd. apply NoDup_remove_2 in Hnd. apply Hnd.
        apply in_or_app. now left. }
      rewrite dict_set_fresh by exact Hk.
      rewrite IH.
      + now rewrite <- app_assoc.
      + rewrite keys_app. simpl. rewrite <- app_assoc. exact Hnd. }
  specialize (H [] Hnd). unfold dict in *. now rewrite H.
Qed.

(** the dump of stored settings stops at the first of them: at its
    [type], or before it at a key, an [id] or a [name] that cannot be
    encoded *)
Lemma settings_dump_error (k : str) (s : WorldSetting.t)
    (d : dict WorldSetting.t) :
  NoDup (keys ((k, s) :: d)) ->
  dump_error (asdict_all asdict_WorldSetting ((k, s) :: d))
  = Some (if encodable k && encodable (WorldSetting.id s)
             && encodable (WorldSetting.name s)
          then TypeError else UnicodeEncodeError).
Proof.
  intros Hnd. rewrite (asdict_all_entries _ _ Hnd).
  cbn [List.map fst snd].
  change (dump_error
            (PDict ((k, asdict_WorldSetting s)
                      :: List.map (fun kv => (fst kv,
                                              asdict_WorldSetting (snd kv)))
                                  d)))
    with (if encodable k then
            match dump_error (asdict_WorldSetting s) with
            | Some e => Some e
            | None =>
                dump_error
                  (PDict (List.map (fun kv => (fst kv,
                                               asdict_WorldSetting (snd kv)))
                                   d))
            end
          else Some UnicodeEncodeError).
  destruct (encodable k); [|reflexivity]. cbn [andb].
  assert (Hs : dump_error (asdict_WorldSetting s)
               = Some (if encodable (WorldSetting.id s)
                          && encodable (WorldSetting.name s)
                       then TypeError else UnicodeEncodeError)).
  { unfold asdict_WorldSetting. cbn [dump_error fst snd].
    replace (encodable (lit "id")) with true by (vm_compute; reflexivity).
    replace (encodable (lit "name")) with true by (vm_compute; reflexivity).
    replace (encodable (lit "type")) with true by (vm_compute; reflexivity).
    destruct (encodable (WorldSetting.id s)); [|reflexivity].
    destruct (encodable (WorldSetting.name s)); reflexivity. }
  now rewrite Hs.
Qed.

Lemma settings_dump_raises (d : dict WorldSetting.t) :
  NoDup (keys d) -> d <> [] ->
  exists e,
    json_dump (asdict_all asdict_WorldSetting d) = (Unreadable, Raise e).
Proof.
  intros Hnd Hne. destruct d as [|[k s] d]; [congruence|].
  unfold json_dump. rewrite (settings_dump_error k s d Hnd).
  eexists. reflexivity.
Qed.

Lemma world_dump {V : Type} (enc : V -> pyval) (d : dict V) :
  NoDup (keys d) -> (forall v, serializable (enc v) = true) ->
  json_dump (asdict_all enc d)
  = if encodable_text (PDict (List.map (fun kv => (fst kv, enc (snd kv))) d))
    then (Doc (PDict (List.map (fun kv => (fst kv, enc (snd kv))) d)), Ok tt)
    else (Unreadable, Raise UnicodeEncodeError).
Proof.
  intros Hnd Henc. rewrite (asdict_all_entries _ _ Hnd).
  apply json_dump_text. exact (serializable_entries _ _ Henc).
Qed.


Lemma dict_set_NoDup {V : Type} (d : dict V) (k : str) (v : V) :
  NoDup (keys d) -> NoDup (keys (dict_set d k v)).
Proof.
  intros Hnd. destruct (in_dec (list_eq_dec N.eq_dec) k (keys d)) as [Hin|Hn].
  - now rewrite keys_dict_set_mem.
  - rewrite dict_set_fresh by exact Hn. rewrite keys_app. simpl.
    apply NoDup_app; [exact Hnd | repeat constructor; auto |].
    intros x Hx [<-|[]]. contradiction.
Qed.

Lemma world_run_NoDup (calls : list world_call) (wm : WorldManager) :
  NoDup (keys (settings wm)) /\ NoDup (keys (timeline wm))
  /\ NoDup (keys (plot_threads wm)) ->
  let wm' := world_run wm calls in
  NoDup (keys (settings wm')) /\ NoDup (keys (timeline wm'))
  /\ NoDup (keys (plot_threads wm')).
Proof.
  revert wm. induction calls as [|c calls IH]; intros wm H; [exact H|].
  cbv zeta. simpl world_run. apply IH. destruct H as (Hs & Ht & Hp).
  destruct c as [s|e|p]; simpl world_step;
    unfold add_setting, world_manager.add_timeline_event, add_plot_thread;
    match goal with
    | |- context [save_all ?w] =>
        destruct (save_all_collections w) as (-> & -> & ->)
    end; cbn [settings timeline plot_threads];
    repeat split; auto using dict_set_NoDup.
Qed.

(** ** Character memory *)

Lemma Appearance_roundtrip (a : Appearance) :
  Appearance_of (value_of_Appearance a) = Built a.
Proof.
  destruct a as [t r d]. unfold value_of_Appearance, Appearance_of.
  replace (exact_keys _ _) with true by (vm_compute; reflexivity).
  lookup_keys. reflexivity.
Qed.

Lemma Development_roundtrip (d : Development) :
  Development_of (value_of_Development d) = Built d.
Proof.
  destruct d as [n x]. unfold value_of_Development, Development_of.
  replace (exact_keys _ _) with true by (vm_compute; reflexivity).
  lookup_keys. reflexivity.
Qed.

Lemma to_str_dict_roundtrip (d : dict str) :
  to_str_dict (PDict (List.map (fun kv => (fst kv, PStr (snd kv))) d))
  = Built d.
Proof.
  unfold to_str_dict. induction d as [|[k v] d IH]; [reflexivity|].
  cbn [List.map lmap fst snd to_str lbind]. now rewrite IH.
Qed.

Lemma profile_roundtrip (c : CharacterProfile.t) :
  profile_of (value_of_profile c) = Built c.
Proof.
  destruct c as [description traits background relationships appearances
                 notes created_at updated_at].
  unfold value_of_profile, profile_of.
  cbn [CharacterProfile.description CharacterProfile.traits
       CharacterProfile.background CharacterProfile.relationships
       CharacterProfile.story_appearances CharacterProfile.development_notes
       CharacterProfile.created_at CharacterProfile.updated_at].
  destruct updated_at as [u|]; cbn [List.app].
  - replace (exact_keys _ _ || exact_keys _ _) with true
      by (vm_compute; reflexivity).
    lookup_keys.
    rewrite to_list_str, to_str_dict_roundtrip.
    cbn [lbind to_str to_list].
    rewrite (lmap_roundtrip value_of_Appearance Appearance_of
               (fun _ => True) appearances
               (fun a _ => Appearance_roundtrip a))
      by (now apply Forall_forall).
    rewrite (lmap_roundtrip value_of_Development Development_of
               (fun _ => True) notes
               (fun a _ => Development_roundtrip a))
      by (now apply Forall_forall).
    reflexivity.
  - replace (exact_keys _ _ || exact_keys _ _) with true
      by (vm_compute; reflexivity).
    lookup_keys.
    rewrite to_list_str, to_str_dict_roundtrip.
    cbn [lbind to_str to_list].
    rewrite (lmap_roundtrip value_of_Appearance Appearance_of
               (fun _ => True) appearances
               (fun a _ => Appearance_roundtrip a))
      by (now apply Forall_forall).
    rewrite (lmap_roundtrip value_of_Development Development_of
               (fun _ => True) notes
               (fun a _ => Development_roundtrip a))
      by (now apply Forall_forall).
    reflexivity.
Qed.

Lemma serializable_profile (c : CharacterProfile.t) :
  serializable (value_of_profile c) = true.
Proof.
  unfold value_of_profile. cbn [serializable].
  rewrite forallb_app. cbn [forallb snd serializable].
  rewrite serializable_strs.
  rewrite (forallb_map_true value_of_Appearance _
             (fun a => eq_refl : serializable (value_of_Appearance a) = true)).
  rewrite (forallb_map_true value_of_Development _
             (fun a => eq_refl : serializable (value_of_Development a) = true)).
  assert (Hrel : forallb (fun kv : str * pyval => serializable (snd kv))
                   (List.map (fun kv : str * str => (fst kv, PStr (snd kv)))
                      (CharacterProfile.relationships c)) = true).
  { induction (CharacterProfile.relationships c); simpl; auto. }
  rewrite Hrel. now destruct (CharacterProfile.updated_at c).
Qed.

Lemma profiles_roundtrip (d : dict CharacterProfile.t) :
  lmap (fun kv : str * pyval =>
          c <~ profile_of (snd kv) ;; Built (fst kv, c))
       (List.map (fun kv => (fst kv, value_of_profile (snd kv))) d)
  = Built d.
Proof.
  induction d as [|[k c] d IH]; [reflexivity|].
  cbn [List.map lmap fst snd]. rewrite profile_roundtrip.
  cbn [lbind]. rewrite IH. reflexivity.
Qed.

Lemma serializable_memory (now : str) (d : dict CharacterProfile.t) :
  serializable (memory_document now d) = true.
Proof.
  unfold memory_document, characters_document.
  cbn [serializable forallb snd].
  pose proof (serializable_entries value_of_profile d
                serializable_profile) as H.
  cbn [serializable] in H. now rewrite H.
Qed.

(** [_save_memory] leaves the document, or a cut text when some string
    cannot be encoded *)
Lemma save_memory_file (now : str) (cm : CharacterMemoryManager) :
  memory_file (_save_memory now cm)
  = if encodable_text (memory_document now (characters cm))
    then Doc (memory_document now (characters cm))
    else Unreadable.
Proof.
  unfold _save_memory. cbn [memory_file].
  change (PDict [(lit "characters",
                  PDict (List.map
                           (fun kv => (fst kv, value_of_profile (snd kv)))
                           (characters cm)));
                 (lit "last_updated", PStr now)])
    with (memory_document now (characters cm)).
  rewrite (json_dump_text _ (serializable_memory now (characters cm))).
  now destruct (encodable_text _).
Qed.

Lemma load_memory_document (now : str) (d : dict CharacterProfile.t) :
  _load_memory (Doc (memory_document now d)) = Some d.
Proof.
  unfold _load_memory, memory_document, characters_document, get.
  simpl dict_get. eval_keys. cbv iota. cbn [lbind to_dict].
  rewrite profiles_roundtrip. reflexivity.
Qed.


(* ================================================================== *)
(** * The thresholds of the stories the manager creates *)
(* ================================================================== *)

Lemma target_item (sm : StoryManager) (k : str) (s : Story.t) :
  target_is_default sm -> dict_item (stories sm) k = Ok s ->
  Story.target_word_count s = STORY_TARGET.
Proof.
  intros Hsm Hk. apply dict_item_In in Hk.
  unfold target_is_default in Hsm. rewrite Forall_forall in Hsm.
  exact (Hsm _ Hk).
Qed.

Lemma story_step_target (sm : StoryManager) (c : story_call) :
  target_is_default sm -> target_is_default (story_step sm c).
Proof.
  intros Hsm.
  destruct c as [ts now title genre summary
                |n1 n2 sid title summary
                |now sid k name description location chars purpose
                |now sid k j content]; simpl story_step.
  - unfold create_story, target_is_default. simpl fst. simpl stories.
    apply dict_set_Forall; [exact Hsm | reflexivity].
  - unfold add_chapter.
    destruct (negb (dict_mem (stories sm) sid)); [exact Hsm|].
    destruct (dict_item (stories sm) sid) as [story|e] eqn:Hit;
      [|exact Hsm].
    unfold target_is_default. simpl fst. simpl stories.
    apply dict_set_Forall; [exact Hsm|]. intros k0. simpl.
    exact (target_item _ _ _ Hsm Hit).
  - unfold add_scene.
    destruct (negb (dict_mem (stories sm) sid)); [exact Hsm|].
    destruct (dict_item (stories sm) sid) as [story|e] eqn:Hit;
      [|exact Hsm].
    destruct (len (Story.chapters story) <? k); [exact Hsm|].
    destruct (chapter_at story k) as [[i chapter]|e]; [|exact Hsm].
    unfold target_is_default. simpl fst. simpl stories.
    apply dict_set_Forall; [exact Hsm|]. intros k0. simpl.
    exact (target_item _ _ _ Hsm Hit).
  - unfold update_scene_content.
    destruct (dict_item (stories sm) sid) as [story|e] eqn:Hit;
      [|exact Hsm].
    cbv beta iota delta [bind].
    destruct (chapter_at story k) as [[i chapter]|e]; [|exact Hsm].
    cbv beta iota delta [bind snd].
    destruct (norm_index (Chapter.scenes chapter) j) as [jj|e];
      [|exact Hsm].
    destruct (getitem (Chapter.scenes chapter) j) as [scene|e];
      [|exact Hsm].
    unfold target_is_default. simpl fst. simpl stories.
    apply dict_set_Forall; [exact Hsm|]. intros k0. simpl.
    exact (target_item _ _ _ Hsm Hit).
Qed.

Lemma story_run_target (calls : list story_call) (sm : StoryManager) :
  target_is_default sm -> target_is_default (story_run sm calls).
Proof.
  revert sm. induction calls as [|c calls IH]; intros sm Hsm; simpl.
  - exact Hsm.
  - apply IH. now apply story_step_target.
Qed.

(** the three thresholds of the default target are 5000, 25000, 40000 *)
Lemma default_thresholds (w : Z) :
  exists fT,
    float_of_int STORY_TARGET = Ok fT
    /\ (int_lt_float w (SFmul prec emax fT f0_1) = true
        <-> 10 * w < STORY_TARGET)
    /\ (int_lt_float w (SFmul prec emax fT f0_5) = true
        <-> 2 * w < STORY_TARGET)
    /\ (int_lt_float w (SFmul prec emax fT f0_8) = true
        <-> 10 * w < 8 * STORY_TARGET).
Proof.
  eexists. split; [vm_compute; reflexivity|].
  unfold STORY_TARGET.
  split; [|split].
  - replace (SFmul _ _ _ f0_1)
      with (S754_finite false 5497558138880000 (-40))
      by (vm_compute; reflexivity).
    unfold int_lt_float. cbv beta iota zeta. simpl Z.opp.
    change (0 <=? -40) with false. cbv iota.
    rewrite Z.ltb_lt. change (2 ^ 40) with 1099511627776. lia.
  - replace (SFmul _ _ _ f0_5)
      with (S754_finite false 6871947673600000 (-38))
      by (vm_compute; reflexivity).
    unfold int_lt_float. cbv beta iota zeta. simpl Z.opp.
    change (0 <=? -38) with false. cbv iota.
    rewrite Z.ltb_lt. change (2 ^ 38) with 274877906944. lia.
  - replace (SFmul _ _ _ f0_8)
      with (S754_finite false 5497558138880000 (-37))
      by (vm_compute; reflexivity).
    unfold int_lt_float. cbv beta iota zeta. simpl Z.opp.
    change (0 <=? -37) with false. cbv iota.
    rewrite Z.ltb_lt. change (2 ^ 37) with 137438953472. lia.
Qed.

(** C7. [get_writing_suggestions] returns one progress suggestion followed
    by one suggestion per chapter whose status is [PLANNED] or [OUTLINE].
    For any story of any store whose target [T] converts to a float, the
    progress suggestion is decided by the products [T * 0.1], [T * 0.5]
    and [T * 0.8] tested in this order against the current word count [w].
    In every store the manager reaches from a first start [T] is 50000,
    the products are exact, and the suggestion is the introduction when
    [w < 0.1 T], the character relationships when [0.1 T <= w < 0.5 T],
    the tension when [0.5 T <= w < 0.8 T], and the ending otherwise. *)
Theorem writing_suggestions_by_threshold :
  (forall (sm : StoryManager) (k : str) (story : Story.t) (fT : float),
      dict_get (stories sm) k = Some story ->
      float_of_int (Story.target_word_count story) = Ok fT ->
      let w := Story.current_word_count story in
      let below c := int_lt_float w (SFmul prec emax fT c) in
      exists progress,
        get_writing_suggestions sm k
        = Ok (progress
                :: List.flat_map chapter_advice (Story.chapters story))
        /\ (below f0_1 = true -> progress = SUGGEST_INTRODUCTION)
        /\ (below f0_1 = false -> below f0_5 = true ->
            progress = SUGGEST_RELATIONSHIPS)
        /\ (below f0_1 = false -> below f0_5 = false -> below f0_8 = true ->
            progress = SUGGEST_TENSION)
        /\ (below f0_1 = false -> below f0_5 = false ->
            below f0_8 = false -> progress = SUGGEST_ENDING))
  /\ (forall (f : file) (calls : list story_call) (k : str)
             (story : Story.t),
        let sm := story_run (fresh_story_manager f) calls in
        dict_get (stories sm) k = Some story ->
        let T := Story.target_word_count story in
        let w := Story.current_word_count story in
        T = 50000
        /\ exists progress,
             get_writing_suggestions sm k
             = Ok (progress
                     :: List.flat_map chapter_advice (Story.chapters story))
             /\ (10 * w < T -> progress = SUGGEST_INTRODUCTION)
             /\ (T <= 10 * w -> 2 * w < T ->
                 progress = SUGGEST_RELATIONSHIPS)
             /\ (T <= 2 * w -> 10 * w < 8 * T ->
                 progress = SUGGEST_TENSION)
             /\ (8 * T <= 10 * w -> progress = SUGGEST_ENDING))
  /\ (forall c : Chapter.t,
        List.length (chapter_advice c)
        = match Chapter.status c with
          | PLANNED | OUTLINE => 1%nat
          | _ => 0%nat
          end).
Proof.
  split; [|split].
  - intros sm k story fT Hk HT w below.
    destruct (writing_suggestions_chain sm k story fT Hk HT)
      as (progress & Hget & H1 & H2 & H3 & H4 & _).
    exists progress. repeat split; assumption.
  - intros f calls k story sm Hk T w.
    assert (HT : T = STORY_TARGET).
    { apply (target_item sm k); [|exact (dict_item_Some _ _ _ Hk)].
      apply story_run_target. constructor. }
    split; [exact HT|].
    destruct (default_thresholds w) as (fT & HfT & B1 & B5 & B8).
    rewrite <- HT in HfT, B1, B5, B8.
    destruct (writing_suggestions_chain sm k story fT Hk HfT)
      as (progress & Hget & H1 & H2 & H3 & H4 & _).
    fold w in H1, H2, H3, H4. cbv zeta in H1, H2, H3, H4.
    unfold STORY_TARGET in HT.
    assert (N1 : T <= 10 * w ->
                 int_lt_float w (SFmul prec emax fT f0_1) = false).
    { intros Hle. apply Bool.not_true_is_false. rewrite B1. lia. }
    assert (N5 : T <= 2 * w ->
                 int_lt_float w (SFmul prec emax fT f0_5) = false).
    { intros Hle. apply Bool.not_true_is_false. rewrite B5. lia. }
    assert (N8 : 8 * T <= 10 * w ->
                 int_lt_float w (SFmul prec emax fT f0_8) = false).
    { intros Hle. apply Bool.not_true_is_false. rewrite B8. lia. }
    exists progress. split; [exact Hget|]. repeat split.
    + intros Hlt. apply H1. now apply B1.
    + intros Hle Hlt. apply H2; [now apply N1 | now apply B5].
    + intros Hle Hlt.
      apply H3; [apply N1; lia | now apply N5 | now apply B8].
    + intros Hle. apply H4; [apply N1; lia | apply N5; lia | now apply N8].
  - intros c. exact (chapter_advice_count c).
Qed.

(* ================================================================== *)
(** * Two limits of the code *)
(* ================================================================== *)

(** X1. Once the world reached from a first start holds a setting,
    [save_all] raises at the first dump, within the first setting:
    [TypeError] at its [type], or [UnicodeEncodeError] before that when
    its key, its [id] or its [name] holds a lone surrogate.
    [world_settings.json] is left with a partial text, the timeline and
    plot files are not written. *)
Theorem save_all_raises_with_settings (calls : list world_call) :
  let wm := world_run fresh_world_manager calls in
  forall (k : str) (s : WorldSetting.t) (rest : dict WorldSetting.t),
    settings wm = (k, s) :: rest ->
    save_all wm
    = (mkWorldManager (settings wm) (timeline wm) (plot_threads wm)
                      Unreadable (timeline_file wm) (plots_file wm),
       Raise (if encodable k && encodable (WorldSetting.id s)
                 && encodable (WorldSetting.name s)
              then TypeError else UnicodeEncodeError)).
Proof.
  cbv zeta. intros k s rest Es.
  destruct (world_run_NoDup calls fresh_world_manager) as (Hs & _).
  { repeat split; constructor. }
  unfold save_all, json_dump. rewrite Es in Hs |- *.
  rewrite (settings_dump_error k s rest Hs). reflexivity.
Qed.

(** ** Integers without a float *)

Lemma digits2_pos_bounds (p : positive) :
  2 ^ (Z.pos (digits2_pos p) - 1) <= Z.pos p < 2 ^ Z.pos (digits2_pos p).
Proof.
  induction p as [p IH | p IH |]; cbn [digits2_pos].
  - rewrite Pos2Z.inj_succ.
    replace (Z.succ (Z.pos (digits2_pos p)) - 1)
      with (Z.succ (Z.pos (digits2_pos p) - 1)) by lia.
    rewrite !Z.pow_succ_r by lia. lia.
  - rewrite Pos2Z.inj_succ.
    replace (Z.succ (Z.pos (digits2_pos p)) - 1)
      with (Z.succ (Z.pos (digits2_pos p) - 1)) by lia.
    rewrite !Z.pow_succ_r by lia. lia.
  - split; [reflexivity|reflexivity].
Qed.

Lemma shr_1_halves (mrs : shr_record) :
  0 <= shr_m mrs -> shr_m (shr_1 mrs) = shr_m mrs / 2.
Proof.
  destruct mrs as [m r s]. cbn [shr_m].
  destruct m as [|[p|p|]|p]; intros Hm; cbn [shr_1 shr_m]; try lia.
  - reflexivity.
  - apply Z.div_unique with 1; lia.
  - apply Z.div_unique with 0; lia.
  - reflexivity.
Qed.

Lemma iter_shr_1_divides (q : positive) :
  forall mrs, 0 <= shr_m mrs ->
    shr_m (iter_pos shr_1 q mrs) = shr_m mrs / 2 ^ Z.pos q.
Proof.
  induction q as [q IH | q IH |]; intros mrs Hm; cbn [iter_pos].
  - assert (H1 : 0 <= shr_m (shr_1 mrs)).
    { rewrite shr_1_halves by exact Hm. apply Z.div_pos; lia. }
    assert (H2 : 0 <= shr_m (iter_pos shr_1 q (shr_1 mrs))).
    { rewrite IH by exact H1. apply Z.div_pos; [exact H1|].
      apply Z.pow_pos_nonneg; lia. }
    rewrite IH by exact H2. rewrite IH by exact H1.
    rewrite shr_1_halves by exact Hm.
    assert (Hp : 0 < 2 ^ Z.pos q) by (apply Z.pow_pos_nonneg; lia).
    rewrite !Z.div_div by lia. f_equal.
    replace (Z.pos q~1) with (1 + Z.pos q + Z.pos q) by lia.
    rewrite (Z.pow_add_r 2 (1 + Z.pos q)) by lia.
    rewrite (Z.pow_add_r 2 1) by lia. rewrite Z.pow_1_r. lia.
  - assert (H2 : 0 <= shr_m (iter_pos shr_1 q mrs)).
    { rewrite IH by exact Hm. apply Z.div_pos; [exact Hm|].
      apply Z.pow_pos_nonneg; lia. }
    rewrite IH by exact H2. rewrite IH by exact Hm.
    assert (Hp : 0 < 2 ^ Z.pos q) by (apply Z.pow_pos_nonneg; lia).
    rewrite !Z.div_div by lia. f_equal.
    replace (Z.pos q~0) with (Z.pos q + Z.pos q) by lia.
    rewrite (Z.pow_add_r 2 (Z.pos q)) by lia. reflexivity.
  - rewrite shr_1_halves by exact Hm. reflexivity.
Qed.

Lemma round_nearest_even_bounds (m : Z) (l : location) :
  m <= round_nearest_even m l <= m + 1.
Proof.
  destruct l as [|[| |]]; cbn [round_nearest_even]; try lia.
  destruct (Z.even m); lia.
Qed.

Lemma binary_round_huge (s : bool) (p : positive) :
  2 ^ 1024 <= Z.pos p -> binary_round prec emax s p 0 = S754_infinity s.
Proof.
  intros Hp.
  pose proof (digits2_pos_bounds p) as [Hlo Hhi].
  set (d := Z.pos (digits2_pos p)) in *.
  assert (Hd : 1024 < d).
  { apply (Z.pow_lt_mono_r_iff 2); lia. }
  unfold binary_round. fold d.
  replace (fexp prec emax (d + 0)) with (d - 53)
    by (unfold fexp, emin, prec, emax; lia).
  assert (Hal : shl_align p 0 (d - 53) = (p, 0)).
  { unfold shl_align. destruct (d - 53 - 0) eqn:E; try reflexivity. lia. }
  rewrite Hal.
  unfold binary_round_aux, shr_fexp. cbn [Zdigits2]. fold d.
  replace (fexp prec emax (d + 0) - 0) with (d - 53)
    by (unfold fexp, emin, prec, emax; lia).
  destruct (d - 53) as [|q|q] eqn:Eq; try lia.
  cbn [shr shr_record_of_loc].
  set (mrs1 := iter_pos shr_1 q _).
  assert (Hm1 : shr_m mrs1 = Z.pos p / 2 ^ Z.pos q).
  { unfold mrs1. rewrite iter_shr_1_divides; cbn [shr_m]; [reflexivity|lia]. }
  assert (Hq : 0 < 2 ^ Z.pos q) by (apply Z.pow_pos_nonneg; lia).
  assert (H52 : 2 ^ 52 <= shr_m mrs1).
  { rewrite Hm1. apply Z.div_le_lower_bound; [exact Hq|].
    rewrite <- Z.pow_add_r by lia.
    replace (Z.pos q + 52) with (d - 1) by lia. exact Hlo. }
  assert (H53 : shr_m mrs1 < 2 ^ 53).
  { rewrite Hm1. apply Z.div_lt_upper_bound; [exact Hq|].
    rewrite <- Z.pow_add_r by lia.
    replace (Z.pos q + 53) with d by lia. exact Hhi. }
  pose proof (round_nearest_even_bounds (shr_m mrs1)
                (loc_of_shr_record mrs1)) as Hr.
  destruct (round_nearest_even (shr_m mrs1) (loc_of_shr_record mrs1))
    as [|p'|p'] eqn:Er; try lia.
  cbn [Zdigits2].
  pose proof (digits2_pos_bounds p') as [Hlo' Hhi'].
  set (d' := Z.pos (digits2_pos p')) in *.
  assert (Hd' : 53 <= d' <= 54).
  { split.
    - assert (52 < d'); [|lia]. apply (Z.pow_lt_mono_r_iff 2); lia.
    - assert (d' - 1 < 54); [|lia]. apply (Z.pow_lt_mono_r_iff 2); lia. }
  replace (fexp prec emax (d' + (0 + Z.pos q)) - (0 + Z.pos q))
    with (d' - 53) by (unfold fexp, emin, prec, emax; lia).
  assert (Hbig : (0 + Z.pos q <=? emax - prec) = false)
    by (apply Z.leb_gt; unfold emax, prec; lia).
  assert (Hbig1 : (0 + Z.pos q + 1 <=? emax - prec) = false)
    by (apply Z.leb_gt; unfold emax, prec; lia).
  destruct (Z.eq_dec d' 53) as [E53|E53].
  - replace (d' - 53) with 0 by lia.
    cbn [shr shr_m shr_record_of_loc].
    rewrite Hbig. reflexivity.
  - replace (d' - 53) with 1 by lia.
    cbn [shr iter_pos shr_record_of_loc].
    assert (Hh : shr_m (shr_1 {| shr_m := Z.pos p'; shr_r := false;
                                 shr_s := false |})
                 = Z.pos p' / 2).
    { apply shr_1_halves. cbn [shr_m]. lia. }
    assert (H51 : 2 ^ 51 <= Z.pos p' / 2).
    { apply Z.div_le_lower_bound; [lia|].
      change (2 * 2 ^ 51) with (2 ^ 52). lia. }
    destruct (shr_m (shr_1 _)) as [|p''|p'']; try lia.
    rewrite Hbig1. reflexivity.
Qed.

Lemma float_of_int_huge (z : Z) :
  2 ^ 1024 <= Z.abs z -> float_of_int z = Raise OverflowError.
Proof.
  intros Hz. unfold float_of_int, binary_normalize.
  destruct z as [|p|p].
  - exfalso. change (Z.abs 0) with 0 in Hz.
    assert (0 < 2 ^ 1024) by reflexivity. lia.
  - rewrite binary_round_huge by exact Hz. reflexivity.
  - rewrite binary_round_huge by exact Hz. reflexivity.
Qed.

(** X2. For a stored story whose target word count is at least [2 ^ 1024]
    in absolute value, [get_writing_suggestions] raises [OverflowError]:
    the target has no float for the product with [0.1]. *)
Theorem suggestions_overflow_on_huge_target (sm : StoryManager)
    (story_id : str) (story : Story.t)
    (Hk : dict_get (stories sm) story_id = Some story)
    (HT : 2 ^ 1024 <= Z.abs (Story.target_word_count story)) :
  get_writing_suggestions sm story_id = Raise OverflowError.
Proof.
  unfold get_writing_suggestions.
  rewrite (dict_item_Some _ _ _ Hk). cbv beta iota delta [bind].
  unfold progress_suggestion, int_mul_float.
  rewrite (float_of_int_huge _ HT). reflexivity.
Qed.

(* ================================================================== *)
(** * Instances *)
(* ================================================================== *)

(** a story whose second chapter is the first in progress *)
Lemma current_chapter_context_choice_witness :
  dict_get (stories (manager_of drafting_story)) (lit "s1")
  = Some drafting_story
  /\ get_current_chapter_context (manager_of drafting_story) (lit "s1")
     = Ok (chapter_text chapter_two)
  /\ contains (lit "The door stood open.") (chapter_text chapter_two).
Proof.
  assert (Hk : dict_get (stories (manager_of drafting_story)) (lit "s1")
               = Some drafting_story) by (vm_compute; reflexivity).
  destruct (current_chapter_context_choice _ _ _ Hk) as (H1 & _ & H3 & _).
  split; [exact Hk|]. split.
  - apply (H1 [chapter_one] chapter_two [chapter_three]).
    + reflexivity.
    + constructor; [|constructor].
      intros [H|H]; vm_compute in H; discriminate H.
    + left. reflexivity.
  - apply (H3 chapter_two (example_scene (lit "The door stood open."))).
    left. reflexivity.
Defined.

(** an identifier the example store does not hold *)
Lemma absent_story_lookups_witness :
  ~ In (lit "story_9_0") (keys (stories example_manager))
  /\ get_story_context example_manager (lit "story_9_0") = Ok []
  /\ get_current_chapter_context example_manager (lit "story_9_0")
     = Raise KeyError
  /\ get_writing_suggestions example_manager (lit "story_9_0")
     = Raise KeyError.
Proof.
  assert (Hk : ~ In (lit "story_9_0") (keys (stories example_manager))).
  { vm_compute. intros [H|[H|[]]]; discriminate H. }
  split; [exact Hk|]. exact (absent_story_lookups _ _ Hk).
Defined.

(** the scenario of a target of 1000 with 50, then 600 characters, and the
    first story of the example store *)
Lemma writing_suggestions_by_threshold_witness :
  get_writing_suggestions (manager_of (story_of_length 50)) (lit "s1")
  = Ok [SUGGEST_INTRODUCTION]
  /\ get_writing_suggestions (manager_of (story_of_length 600)) (lit "s1")
     = Ok [SUGGEST_TENSION]
  /\ get_writing_suggestions example_manager example_id
     = Ok [SUGGEST_INTRODUCTION;
           lit "第1章のアウトラインを作成しましょう"].
Proof.
  destruct writing_suggestions_by_threshold as (General & Reached & _).
  split; [|split].
  - edestruct (General (manager_of (story_of_length 50)) (lit "s1"))
      as (progress & Hget & H1 & _).
    + vm_compute. reflexivity.
    + vm_compute. reflexivity.
    + rewrite Hget, H1; [|vm_compute; reflexivity].
      vm_compute. reflexivity.
  - edestruct (General (manager_of (story_of_length 600)) (lit "s1"))
      as (progress & Hget & _ & _ & H3 & _).
    + vm_compute. reflexivity.
    + vm_compute. reflexivity.
    + rewrite Hget, H3; try (vm_compute; reflexivity).
  - edestruct (Reached Absent example_calls example_id)
      as (_ & progress & Hget & H1 & _).
    + vm_compute. reflexivity.
    + fold example_manager in Hget. rewrite Hget, H1.
      * vm_compute. reflexivity.
      * vm_compute. reflexivity.
Defined.

(** one unresolved thread among three; none in the second world *)
Lemma check_consistency_reports_unresolved_witness :
  check_consistency example_world = [issue_message lost_heir]
  /\ check_consistency (world_run fresh_world_manager saved_world_calls) = [].
Proof.
  split.
  - rewrite (proj1 (check_consistency_reports_unresolved example_world)).
    vm_compute. reflexivity.
  - apply check_consistency_reports_unresolved.
    intros p Hin Hactive. vm_compute in Hin.
    destruct Hin as [<-|[<-|[]]].
    + vm_compute. discriminate.
    + vm_compute in Hactive. discriminate Hactive.
Defined.

(** the events B and C are in the text, which ignores the event A *)
Lemma world_context_contents_witness :
  let text := get_world_context plain_value example_world None in
  contains (lit "Eldoria") text
  /\ contains (lit "B") text
  /\ contains (lit "C") text
  /\ contains (lit "Lost heir") text
  /\ get_world_context plain_value example_world_without_A None = text.
Proof.
  destruct (world_context_contents plain_value example_world)
    as (_ & Hs & He & _ & _ & Hlow & _ & Hp).
  cbv zeta. split; [|split; [|split; [|split]]].
  - apply (Hs example_setting). vm_compute. left. reflexivity.
  - apply (He (example_event 2 "B" 100 4)).
    + vm_compute. right. left. reflexivity.
    + vm_compute. discriminate.
  - apply (He (example_event 3 "C" 300 5)).
    + vm_compute. right. right. left. reflexivity.
    + vm_compute. discriminate.
  - apply (Hp lost_heir).
    + vm_compute. left. reflexivity.
    + vm_compute. reflexivity.
  - apply Hlow; vm_compute; reflexivity.
Defined.

(** a stored character, an unknown name, and a request with both flags *)
Lemma character_memory_in_prompt_witness :
  get_character_memory_string example_memory (Some [lit "Bob"])
  = NO_CHARACTER_INFO
  /\ get_character_memory_string example_memory
       (Some [lit "Bob"; lit "Aria"])
     = join [10%N] (requested_blocks example_memory [lit "Bob"; lit "Aria"])
  /\ final_prompt plain_value example_app example_request
     = Ok (prompt_around
             (get_world_context plain_value (the_world_manager example_app)
                                None)
             (prompt example_request)).
Proof.
  destruct character_memory_in_prompt as (Hmem & _ & Hprompt).
  split; [|split].
  - destruct (Hmem example_memory (Some [lit "Bob"])) as [[_ Hback] _].
    apply Hback. right.
    intros n [<-|[]]. vm_compute. reflexivity.
  - destruct (Hmem example_memory (Some [lit "Bob"; lit "Aria"]))
      as [_ Hjoin].
    apply Hjoin.
    exists (lit "Aria"). split.
    + right. left. reflexivity.
    + vm_compute. discriminate.
  - exact (Hprompt plain_value example_app example_request
                   eq_refl eq_refl eq_refl).
Defined.



(** a world that holds the example setting, and one whose setting has a
    lone surrogate as its name *)
Lemma save_all_raises_with_settings_witness :
  snd (save_all (world_run fresh_world_manager [AddSetting example_setting]))
  = Raise TypeError
  /\ snd (save_all (world_run fresh_world_manager
                              [AddSetting surrogate_setting]))
     = Raise UnicodeEncodeError.
Proof.
  split.
  - rewrite (save_all_raises_with_settings [AddSetting example_setting]
               (lit "setting_1") example_setting []).
    + vm_compute. reflexivity.
    + vm_compute. reflexivity.
  - rewrite (save_all_raises_with_settings [AddSetting surrogate_setting]
               (lit "setting_1") surrogate_setting []).
    + vm_compute. reflexivity.
    + vm_compute. reflexivity.
Defined.

(** a story with the target [2 ^ 1024] *)
Lemma suggestions_overflow_on_huge_target_witness :
  get_writing_suggestions (manager_of (example_story [] (2 ^ 1024)))
                          (lit "s1")
  = Raise OverflowError.
Proof.
  apply (suggestions_overflow_on_huge_target _ _
           (example_story [] (2 ^ 1024))).
  - vm_compute. reflexivity.
  - vm_compute. discriminate.
Defined.

(* ================================================================== *)
(** * Further properties *)
(* ================================================================== *)

(** ** The operations of the story manager (story_manager) *)

Lemma norm_index_cell {A : Type} (l : list A) (i : Z) :
  norm_index l i
  = match cell (len l) i with
    | Some k => Ok k
    | None => Raise IndexError
    end.
Proof.
  unfold norm_index, cell.
  destruct ((0 <=? i) && (i <? len l)); [reflexivity|].
  destruct ((- len l <=? i) && (i <? 0)); [|reflexivity].
  now rewrite Z.add_comm.
Qed.

Lemma cell_bound (n i : Z) (k : nat) :
  cell n i = Some k -> Z.of_nat k < n.
Proof.
  unfold cell.
  destruct ((0 <=? i) && (i <? n)) eqn:E1.
  - intros [= <-]. apply andb_prop in E1. destruct E1 as [H0 H1].
    apply Z.leb_le in H0. apply Z.ltb_lt in H1. lia.
  - destruct ((- n <=? i) && (i <? 0)) eqn:E2; [|discriminate].
    intros [= <-]. apply andb_prop in E2. destruct E2 as [H0 H1].
    apply Z.leb_le in H0. apply Z.ltb_lt in H1. lia.
Qed.

Lemma getitem_cell {A : Type} (l : list A) (i : Z) :
  getitem l i
  = match cell (len l) i with
    | Some k => match nth_error l k with
                | Some a => Ok a
                | None => Raise IndexError
                end
    | None => Raise IndexError
    end.
Proof.
  unfold getitem. rewrite norm_index_cell.
  destruct (cell (len l) i); reflexivity.
Qed.

Lemma cell_nth {A : Type} (l : list A) (i : Z) (k : nat) :
  cell (len l) i = Some k -> exists a, nth_error l k = Some a.
Proof.
  intros H. apply cell_bound in H. unfold len in H.
  destruct (nth_error l k) as [a|] eqn:E; [now exists a|].
  apply nth_error_None in E. lia.
Qed.

Lemma nth_error_set_nth_same {A : Type} (l : list A) (k : nat) (a : A) :
  (k < List.length l)%nat -> nth_error (set_nth l k a) k = Some a.
Proof.
  revert k. induction l as [|h t IH]; intros [|k] H; simpl in *;
    try lia; [reflexivity|]. apply IH. lia.
Qed.

Lemma nth_error_set_nth_other {A : Type} (l : list A) (k i : nat) (a : A) :
  i <> k -> nth_error (set_nth l k a) i = nth_error l i.
Proof.
  revert k i. induction l as [|h t IH]; intros [|k] [|i] H; simpl;
    try reflexivity; try congruence.
  apply IH. congruence.
Qed.

Lemma length_set_nth {A : Type} (l : list A) (k : nat) (a : A) :
  List.length (set_nth l k a) = List.length l.
Proof.
  revert k. induction l as [|h t IH]; intros [|k]; simpl; auto.
Qed.

Lemma chapter_at_cell (story : Story.t) (k : Z) :
  chapter_at story k
  = match cell (len (Story.chapters story)) (k - 1) with
    | Some i => match nth_error (Story.chapters story) i with
                | Some c => Ok (i, c)
                | None => Raise IndexError
                end
    | None => Raise IndexError
    end.
Proof.
  unfold chapter_at. rewrite norm_index_cell, getitem_cell.
  destruct (cell _ _) as [i|]; [|reflexivity].
  cbv beta iota delta [bind].
  destruct (nth_error _ i); reflexivity.
Qed.

Lemma dict_mem_get {V : Type} (d : dict V) (k : str) (v : V) :
  dict_get d k = Some v -> dict_mem d k = true.
Proof. unfold dict_mem. now intros ->. Qed.

(** X3. A call of the story manager that raises leaves the manager as it
    was: the stories, the selected story and [stories.json] are
    unchanged. *)
Theorem failed_story_call_changes_nothing (sm : StoryManager)
    (c : story_call) (e : exn) :
  story_outcome sm c = Raise e -> story_step sm c = sm.
Proof.
  destruct c as [ts now title genre summary
                |n1 n2 sid title summary
                |now sid k name description location chars purpose
                |now sid k j content];
    simpl story_outcome; simpl story_step.
  - discriminate.
  - unfold add_chapter.
    destruct (negb (dict_mem (stories sm) sid)); [reflexivity|].
    destruct (dict_item (stories sm) sid) as [story|e']; [|reflexivity].
    simpl. discriminate.
  - unfold add_scene.
    destruct (negb (dict_mem (stories sm) sid)); [reflexivity|].
    destruct (dict_item (stories sm) sid) as [story|e']; [|reflexivity].
    destruct (len (Story.chapters story) <? k); [reflexivity|].
    destruct (chapter_at story k) as [[i chapter]|e']; [|reflexivity].
    simpl. discriminate.
  - unfold update_scene_content.
    destruct (dict_item (stories sm) sid) as [story|e']; [|reflexivity].
    cbv beta iota delta [bind].
    destruct (chapter_at story k) as [[i chapter]|e']; [|reflexivity].
    cbv beta iota delta [bind snd].
    destruct (norm_index (Chapter.scenes chapter) j) as [jj|e'];
      [|reflexivity].
    destruct (getitem (Chapter.scenes chapter) j) as [scene|e'];
      [|reflexivity].
    simpl. discriminate.
Qed.

(** X4. [add_scene] on a stored story of [n] chapters raises [ValueError]
    when [chapter_number > n] and [IndexError] when [chapter_number <= -n];
    for [1 <= chapter_number <= n] the scene goes to that chapter, and for
    [-n < chapter_number <= 0] the index wraps around: [0] addresses the
    last chapter.  The scene is appended to the scenes of the chapter, its
    identifier carries the new number of scenes, and the other chapters and
    the word count of the story are unchanged. *)
Theorem add_scene_chapter_choice (now : str) (sm : StoryManager)
    (sid : str) (story : Story.t) (k : Z)
    (name description location : str) (characters : list str)
    (purpose : str)
    (Hk : dict_get (stories sm) sid = Some story) :
  let n := len (Story.chapters story) in
  let r := add_scene now sm sid k name description location characters
                     purpose in
  (n < k -> r = (sm, Raise ValueError))
  /\ (k <= - n -> r = (sm, Raise IndexError))
  /\ (- n < k /\ k <= n ->
      let i := Z.to_nat (if 1 <=? k then k - 1 else n + k - 1) in
      exists chapter story',
        nth_error (Story.chapters story) i = Some chapter
        /\ snd r = Ok (Chapter.id chapter ++ lit "_scene_"
                         ++ str_of_int (len (Chapter.scenes chapter) + 1))
        /\ dict_get (stories (fst r)) sid = Some story'
        /\ nth_error (Story.chapters story') i
           = Some (Chapter.set_scenes chapter
                     (Chapter.scenes chapter
                        ++ [Scene.init
                              (Chapter.id chapter ++ lit "_scene_"
                                 ++ str_of_int
                                      (len (Chapter.scenes chapter) + 1))
                              name description location characters purpose
                              [] 0 [] None]))
        /\ (forall i', i' <> i ->
              nth_error (Story.chapters story') i'
              = nth_error (Story.chapters story) i')
        /\ Story.current_word_count story'
           = Story.current_word_count story).
Proof.
  intros n r. subst r. unfold add_scene.
  rewrite (dict_mem_get _ _ _ Hk), (dict_item_Some _ _ _ Hk).
  cbv beta iota delta [negb]. fold n.
  split; [|split].
  - intros Hlt. apply Z.ltb_lt in Hlt. now rewrite Hlt.
  - intros Hle.
    assert ((n <? k) = false) as -> by (apply Z.ltb_ge; unfold n, len in *; lia).
    rewrite chapter_at_cell. fold n. unfold cell.
    assert ((0 <=? k - 1) && (k - 1 <? n) = false) as ->.
    { apply andb_false_iff. left. apply Z.leb_gt. unfold n, len in *. lia. }
    assert ((- n <=? k - 1) && (k - 1 <? 0) = false) as ->.
    { apply andb_false_iff. left. apply Z.leb_gt. lia. }
    reflexivity.
  - intros [Hlo Hhi].
    set (i := Z.to_nat (if 1 <=? k then k - 1 else n + k - 1)).
    assert ((n <? k) = false) as -> by (apply Z.ltb_ge; lia).
    rewrite chapter_at_cell. fold n.
    assert (Hcell : cell n (k - 1) = Some i).
    { unfold cell, i. destruct (1 <=? k) eqn:E1.
      - apply Z.leb_le in E1.
        assert ((0 <=? k - 1) && (k - 1 <? n) = true) as ->.
        { apply andb_true_iff. split; [apply Z.leb_le|apply Z.ltb_lt]; lia. }
        reflexivity.
      - apply Z.leb_gt in E1.
        assert ((0 <=? k - 1) && (k - 1 <? n) = false) as ->.
        { apply andb_false_iff. left. apply Z.leb_gt. lia. }
        assert ((- n <=? k - 1) && (k - 1 <? 0) = true) as ->.
        { apply andb_true_iff. split; [apply Z.leb_le|apply Z.ltb_lt]; lia. }
        f_equal. f_equal. lia. }
    rewrite Hcell.
    destruct (cell_nth _ _ _ Hcell) as [chapter Hnth]. rewrite Hnth.
    exists chapter. eexists. split; [reflexivity|].
    simpl snd. simpl fst. simpl stories.
    split; [reflexivity|]. split; [apply dict_get_set_same|].
    simpl Story.chapters.
    split; [|split].
    + apply nth_error_set_nth_same. apply cell_bound in Hcell.
      unfold n, len in Hcell. lia.
    + intros i' Hi'. now apply nth_error_set_nth_other.
    + reflexivity.
Qed.

Lemma zsum_set_nth {A : Type} (f : A -> Z) (l : list A) (k : nat)
    (a a' : A) :
  nth_error l k = Some a ->
  zsum (List.map f (set_nth l k a')) = zsum (List.map f l) - f a + f a'.
Proof.
  revert k. induction l as [|h t IH]; intros [|k] H; simpl in *;
    try discriminate.
  - injection H as ->. lia.
  - rewrite (IH _ H). lia.
Qed.

Lemma scenes_word_count_sum (l : list Scene.t) :
  Chapter.sum_word_count l = zsum (List.map Scene.word_count l).
Proof. unfold Chapter.sum_word_count. now rewrite fold_left_add. Qed.

Lemma chapters_word_count_sum (l : list Chapter.t) :
  Story.sum_word_count l = zsum (List.map Chapter.actual_word_count l).
Proof. unfold Story.sum_word_count. now rewrite fold_left_add. Qed.

Lemma counted_word_counts (l : list Scene.t) :
  Forall scene_counted l ->
  zsum (List.map Scene.word_count l)
  = zsum (List.map (fun s => len (Scene.content s)) l).
Proof.
  induction 1 as [|s l Hs Hl IH]; simpl; [reflexivity|].
  unfold scene_counted in Hs. now rewrite Hs, IH.
Qed.

(** X5. [update_scene_content] raises [KeyError] for an unknown story and
    [IndexError] when [chapter_number - 1] or [scene_index] addresses no
    cell (negative indices count from the end); the manager is then
    unchanged.  Otherwise, in every store reached from a first start, the
    addressed scene alone gets the new content, and the word counts of its
    chapter and of the story change by the length of the new content minus
    the length of the old one. *)
Theorem update_scene_content_effect (f : file) (calls : list story_call)
    (now sid : str) (k j : Z) (content : str) :
  let sm := story_run (fresh_story_manager f) calls in
  let r := update_scene_content now sm sid k j content in
  (~ In sid (keys (stories sm)) -> r = (sm, Raise KeyError))
  /\ forall story,
       dict_get (stories sm) sid = Some story ->
       match cell (len (Story.chapters story)) (k - 1) with
       | None => r = (sm, Raise IndexError)
       | Some i =>
           exists chapter,
             nth_error (Story.chapters story) i = Some chapter
             /\ match cell (len (Chapter.scenes chapter)) j with
                | None => r = (sm, Raise IndexError)
                | Some jj =>
                    exists scene story' chapter',
                      nth_error (Chapter.scenes chapter) jj = Some scene
                      /\ snd r = Ok tt
                      /\ dict_get (stories (fst r)) sid = Some story'
                      /\ nth_error (Story.chapters story') i = Some chapter'
                      /\ nth_error (Chapter.scenes chapter') jj
                         = Some (Scene.set_content scene content
                                                   (len content))
                      /\ (forall j', j' <> jj ->
                            nth_error (Chapter.scenes chapter') j'
                            = nth_error (Chapter.scenes chapter) j')
                      /\ (forall i', i' <> i ->
                            nth_error (Story.chapters story') i'
                            = nth_error (Story.chapters story) i')
                      /\ Chapter.actual_word_count chapter'
                         = Chapter.actual_word_count chapter
                           - len (Scene.content scene) + len content
                      /\ Story.current_word_count story'
                         = Story.current_word_count story
                           - len (Scene.content scene) + len content
                end
       end.
Proof.
  intros sm r. split.
  - intros Hk. subst r. unfold update_scene_content.
    now rewrite (dict_item_None _ _ Hk).
  - intros story Hk.
    assert (Hsm : store_counted sm).
    { apply story_run_counted. constructor. }
    pose proof (store_counted_item _ _ _ Hsm (dict_item_Some _ _ _ Hk))
      as [Hcur Hchs].
    subst r. unfold update_scene_content.
    rewrite (dict_item_Some _ _ _ Hk). cbv beta iota delta [bind].
    rewrite chapter_at_cell.
    destruct (cell (len (Story.chapters story)) (k - 1)) as [i|] eqn:Hi;
      [|reflexivity].
    destruct (cell_nth _ _ _ Hi) as [chapter Hnth]. rewrite Hnth.
    exists chapter. split; [reflexivity|].
    cbv beta iota delta [bind snd].
    rewrite norm_index_cell, getitem_cell.
    destruct (cell (len (Chapter.scenes chapter)) j) as [jj|] eqn:Hj;
      [|reflexivity].
    destruct (cell_nth _ _ _ Hj) as [scene Hsc]. rewrite Hsc.
    exists scene. eexists. eexists.
    split; [reflexivity|]. simpl snd. simpl fst. simpl stories.
    split; [reflexivity|]. split; [apply dict_get_set_same|].
    simpl Story.chapters.
    assert (Hib : (i < List.length (Story.chapters story))%nat).
    { apply cell_bound in Hi. unfold len in Hi. lia. }
    assert (Hjb : (jj < List.length (Chapter.scenes chapter))%nat).
    { apply cell_bound in Hj. unfold len in Hj. lia. }
    split; [now apply nth_error_set_nth_same|].
    simpl Chapter.scenes.
    split; [now apply nth_error_set_nth_same|].
    split; [intros j' Hj'; now apply nth_error_set_nth_other|].
    split; [intros i' Hi'; now apply nth_error_set_nth_other|].
    rewrite Forall_forall in Hchs.
    destruct (Hchs chapter (nth_error_In _ _ Hnth)) as [Hact Hscs].
    assert (Hold : Scene.word_count scene = len (Scene.content scene)).
    { rewrite Forall_forall in Hscs. exact (Hscs scene (nth_error_In _ _ Hsc)). }
    assert (Hact' :
      Chapter.sum_word_count
        (set_nth (Chapter.scenes chapter) jj
                 (Scene.set_content scene content (len content)))
      = Chapter.actual_word_count chapter
        - len (Scene.content scene) + len content).
    { rewrite scenes_word_count_sum,
        (zsum_set_nth Scene.word_count _ _ scene _ Hsc),
        (counted_word_counts _ Hscs), <- Hact, Hold. reflexivity. }
    split.
    + simpl Chapter.actual_word_count. exact Hact'.
    + simpl Story.current_word_count.
      rewrite chapters_word_count_sum,
        (zsum_set_nth Chapter.actual_word_count _ _ chapter _ Hnth),
        <- Hcur.
      simpl Chapter.actual_word_count. rewrite Hact'. lia.
Qed.

Lemma dict_set_Forall_entry {V : Type} (P : str * V -> Prop) (d : dict V)
    (k : str) (v : V) :
  Forall P d -> P (k, v) -> Forall P (dict_set d k v).
Proof.
  intros Hd Hv. induction Hd as [|[k0 v0] d Hx Hd IH]; simpl.
  - constructor; auto.
  - destruct (str_eqb k0 k) eqn:E; constructor; auto.
    apply str_eqb_eq in E. now subst k0.
Qed.

Lemma store_identified_item (sm : StoryManager) (k : str) (s : Story.t) :
  store_identified sm -> dict_item (stories sm) k = Ok s ->
  Story.id s = k /\ chapters_numbered s.
Proof.
  intros Hsm Hk. apply dict_item_In in Hk.
  unfold store_identified in Hsm. rewrite Forall_forall in Hsm.
  exact (Hsm _ Hk).
Qed.

Lemma story_step_identified (sm : StoryManager) (c : story_call) :
  store_identified sm -> store_identified (story_step sm c).
Proof.
  intros Hsm.
  destruct c as [ts now title genre summary
                |n1 n2 sid title summary
                |now sid k name description location chars purpose
                |now sid k j content]; simpl story_step.
  - unfold create_story, store_identified. simpl fst. simpl stories.
    apply dict_set_Forall_entry; [exact Hsm|]. split; [reflexivity|].
    intros i c Hc. destruct i; discriminate Hc.
  - unfold add_chapter.
    destruct (negb (dict_mem (stories sm) sid)); [exact Hsm|].
    destruct (dict_item (stories sm) sid) as [story|e] eqn:Hit;
      [|exact Hsm].
    destruct (store_identified_item _ _ _ Hsm Hit) as [Hid Hnum].
    unfold store_identified. simpl fst. simpl stories.
    apply dict_set_Forall_entry; [exact Hsm|]. simpl.
    split; [exact Hid|].
    intros i c Hc. simpl in Hc.
    destruct (Nat.lt_ge_cases i (List.length (Story.chapters story)))
      as [Hlt|Hge].
    + rewrite nth_error_app1 in Hc by exact Hlt.
      exact (Hnum i c Hc).
    + rewrite nth_error_app2 in Hc by exact Hge.
      destruct (i - List.length (Story.chapters story))%nat as [|m] eqn:Em;
        [|destruct m; discriminate Hc].
      injection Hc as <-. simpl.
      assert (Z.of_nat i + 1 = len (Story.chapters story) + 1) as ->
        by (unfold len; lia).
      rewrite Hid. repeat split.
      intros j s Hs. destruct j; discriminate Hs.
  - unfold add_scene.
    destruct (negb (dict_mem (stories sm) sid)); [exact Hsm|].
    destruct (dict_item (stories sm) sid) as [story|e] eqn:Hit;
      [|exact Hsm].
    destruct (len (Story.chapters story) <? k); [exact Hsm|].
    rewrite chapter_at_cell.
    destruct (cell _ _) as [i|] eqn:Hi; [|exact Hsm].
    destruct (nth_error (Story.chapters story) i) as [chapter|] eqn:Hnth;
      [|exact Hsm].
    destruct (store_identified_item _ _ _ Hsm Hit) as [Hid Hnum].
    destruct (Hnum i chapter Hnth) as (Hn & Hcid & Hscs).
    unfold store_identified. simpl fst. simpl stories.
    apply dict_set_Forall_entry; [exact Hsm|]. simpl.
    split; [exact Hid|].
    intros i' c Hc. simpl Story.chapters in Hc.
    destruct (Nat.eq_dec i' i) as [->|Hne].
    + rewrite nth_error_set_nth_same in Hc
        by (apply nth_error_Some; congruence).
      injection Hc as <-. simpl. split; [exact Hn|]. split; [exact Hcid|].
      intros j s Hs. simpl in Hs.
      destruct (Nat.lt_ge_cases j (List.length (Chapter.scenes chapter)))
        as [Hlt|Hge].
      * rewrite nth_error_app1 in Hs by exact Hlt. exact (Hscs j s Hs).
      * rewrite nth_error_app2 in Hs by exact Hge.
        destruct (j - List.length (Chapter.scenes chapter))%nat
          as [|m] eqn:Em; [|destruct m; discriminate Hs].
        injection Hs as <-. simpl.
        assert (Z.of_nat j + 1 = len (Chapter.scenes chapter) + 1) as ->
          by (unfold len; lia).
        reflexivity.
    + rewrite nth_error_set_nth_other in Hc by exact Hne.
      exact (Hnum i' c Hc).
  - unfold update_scene_content.
    destruct (dict_item (stories sm) sid) as [story|e] eqn:Hit;
      [|exact Hsm].
    cbv beta iota delta [bind].
    rewrite chapter_at_cell.
    destruct (cell _ _) as [i|] eqn:Hi; [|exact Hsm].
    destruct (nth_error (Story.chapters story) i) as [chapter|] eqn:Hnth;
      [|exact Hsm].
    cbv beta iota delta [bind snd].
    rewrite norm_index_cell, getitem_cell.
    destruct (cell (len (Chapter.scenes chapter)) j) as [jj|] eqn:Hj;
      [|exact Hsm].
    destruct (nth_error (Chapter.scenes chapter) jj) as [scene|] eqn:Hsc;
      [|exact Hsm].
    destruct (store_identified_item _ _ _ Hsm Hit) as [Hid Hnum].
    destruct (Hnum i chapter Hnth) as (Hn & Hcid & Hscs).
    unfold store_identified. simpl fst. simpl stories.
    apply dict_set_Forall_entry; [exact Hsm|]. simpl.
    split; [exact Hid|].
    intros i' c Hc. simpl Story.chapters in Hc.
    destruct (Nat.eq_dec i' i) as [->|Hne].
    + rewrite nth_error_set_nth_same in Hc
        by (apply nth_error_Some; congruence).
      injection Hc as <-. simpl. split; [exact Hn|]. split; [exact Hcid|].
      intros j' s Hs. simpl in Hs.
      destruct (Nat.eq_dec j' jj) as [->|Hnej].
      * rewrite nth_error_set_nth_same in Hs
          by (apply nth_error_Some; congruence).
        injection Hs as <-. simpl. exact (Hscs jj scene Hsc).
      * rewrite nth_error_set_nth_other in Hs by exact Hnej.
        exact (Hscs j' s Hs).
    + rewrite nth_error_set_nth_other in Hc by exact Hne.
      exact (Hnum i' c Hc).
Qed.

Lemma story_run_identified (calls : list story_call) (sm : StoryManager) :
  store_identified sm -> store_identified (story_run sm calls).
Proof.
  revert sm. induction calls as [|c calls IH]; intros sm Hsm; simpl.
  - exact Hsm.
  - apply IH. now apply story_step_identified.
Qed.

(** X6. In every store reached from a first start, a story is stored
    under its own identifier, its [i]-th chapter has the number [i] and the
    identifier [<story>_chapter_<i>], and the [j]-th scene of a chapter has
    the identifier [<chapter>_scene_<j>]. *)
Theorem identifiers_follow_positions (f : file) (calls : list story_call) :
  let sm := story_run (fresh_story_manager f) calls in
  forall (k : str) (story : Story.t),
    dict_get (stories sm) k = Some story ->
    Story.id story = k
    /\ forall (i : nat) (chapter : Chapter.t),
         nth_error (Story.chapters story) i = Some chapter ->
         Chapter.number chapter = Z.of_nat i + 1
         /\ Chapter.id chapter
            = k ++ lit "_chapter_" ++ str_of_int (Z.of_nat i + 1)
         /\ forall (j : nat) (scene : Scene.t),
              nth_error (Chapter.scenes chapter) j = Some scene ->
              Scene.id scene
              = Chapter.id chapter ++ lit "_scene_"
                  ++ str_of_int (Z.of_nat j + 1).
Proof.
  intros sm k story Hk.
  assert (Hsm : store_identified sm).
  { apply story_run_identified. constructor. }
  destruct (store_identified_item _ _ _ Hsm (dict_item_Some _ _ _ Hk))
    as [Hid Hnum].
  split; [exact Hid|]. intros i chapter Hc.
  destruct (Hnum i chapter Hc) as (Hn & Hcid & Hscs).
  rewrite Hid in Hcid. repeat split; assumption.
Qed.

Lemma story_step_saved (sm : StoryManager) (c : story_call) :
  story_step sm c = sm
  \/ stories_file (story_step sm c)
     = stories_file (save_stories (story_step sm c)).
Proof.
  destruct c as [ts now title genre summary
                |n1 n2 sid title summary
                |now sid k name description location chars purpose
                |now sid k j content]; simpl story_step.
  - right. reflexivity.
  - unfold add_chapter.
    destruct (negb (dict_mem (stories sm) sid)); [now left|].
    destruct (dict_item (stories sm) sid) as [story|e]; [|now left].
    right. reflexivity.
  - unfold add_scene.
    destruct (negb (dict_mem (stories sm) sid)); [now left|].
    destruct (dict_item (stories sm) sid) as [story|e]; [|now left].
    destruct (len (Story.chapters story) <? k); [now left|].
    destruct (chapter_at story k) as [[i chapter]|e]; [|now left].
    right. reflexivity.
  - unfold update_scene_content.
    destruct (dict_item (stories sm) sid) as [story|e]; [|now left].
    cbv beta iota delta [bind].
    destruct (chapter_at story k) as [[i chapter]|e]; [|now left].
    cbv beta iota delta [bind snd].
    destruct (norm_index (Chapter.scenes chapter) j) as [jj|e];
      [|now left].
    destruct (getitem (Chapter.scenes chapter) j) as [scene|e];
      [|now left].
    right. reflexivity.
Qed.

(** the file of a reached store is the one its last save left *)
Lemma story_run_saved (calls : list story_call) :
  let sm := story_run (fresh_story_manager Absent) calls in
  (stories sm = [] /\ stories_file sm = Absent)
  \/ stories_file sm
     = if encodable_text (stories_document (stories sm))
       then Doc (stories_document (stories sm))
       else Unreadable.
Proof.
  cbv zeta.
  induction calls as [|c calls IH] using rev_ind; [left; now split|].
  pose proof (reached_store Absent (calls ++ [c])) as Hr.
  cbv zeta in Hr. unfold story_run in *.
  rewrite fold_left_app in Hr |- *. simpl fold_left in Hr |- *.
  destruct (story_step_saved
              (fold_left story_step calls (fresh_story_manager Absent)) c)
    as [Hsame|Hsaved].
  - rewrite Hsame. exact IH.
  - right. rewrite Hsaved. exact (save_stories_file _ (proj1 Hr)).
Qed.

(** X7. After any sequence of calls from a first start without file,
    returning or raising, a new [StoryManager] over the [stories.json]
    left behind holds the same stories when every string of the store can
    be encoded in UTF-8.  When a string of the store holds a lone
    surrogate, the file is left with a cut text and the new manager
    holds no story. *)
Theorem restart_finds_the_store (calls : list story_call) (now : str) :
  let sm := story_run (fresh_story_manager Absent) calls in
  let doc :=
    stored_stories (fun c => ChapterStatus_value (Chapter.status c))
                   (stories sm) in
  (encodable_text doc = true ->
   StoryManager_init now (stories_file sm)
   = Some (mkStoryManager (stories sm) None (stories_file sm)))
  /\ (encodable_text doc = false ->
      stories_file sm = Unreadable
      /\ StoryManager_init now (stories_file sm)
         = Some (mkStoryManager [] None Unreadable)).
Proof.
  cbv zeta. unfold StoryManager_init.
  destruct (reached_store Absent calls) as [Hnd Hld].
  destruct (story_run_saved calls) as [[He Hf]|Hf]; cbv zeta in Hf;
    fold (stories_document
            (stories (story_run (fresh_story_manager Absent) calls))).
  - rewrite Hf, He. split; [reflexivity|discriminate].
  - rewrite Hf. split; intros ->.
    + unfold stories_document.
      now rewrite (load_stored_stories now _ Hnd Hld).
    + split; reflexivity.
Qed.

Lemma keys_dict_set_item {V : Type} (d : dict V) (k : str) (v v' : V) :
  dict_item d k = Ok v -> keys (dict_set d k v') = keys d.
Proof. intros H. apply keys_dict_set_mem. exact (dict_item_key _ _ _ H). Qed.

(** X8. [add_chapter], [add_scene] and [update_scene_content] keep the
    keys of the store, their order, the selected story and every story
    other than the addressed one.  In a store reached from a first start,
    [create_story] appends the new story after the stored ones, which it
    leaves as they are, and selects it. *)
Theorem calls_keep_other_stories :
  (forall (sm : StoryManager) (c : story_call) (sid k : str),
      call_story c = Some sid ->
      keys (stories (story_step sm c)) = keys (stories sm)
      /\ current_story_id (story_step sm c) = current_story_id sm
      /\ (k <> sid ->
          dict_get (stories (story_step sm c)) k = dict_get (stories sm) k))
  /\ (forall (f : file) (calls : list story_call) (ts : Z)
             (now title genre summary : str),
        let sm := story_run (fresh_story_manager f) calls in
        let r := create_story ts now sm title genre summary in
        stories (fst r)
        = stories sm
            ++ [(snd r,
                 Story.init now (snd r) title genre summary [] STORY_TARGET
                            0 (lit "planning") None None)]
        /\ current_story_id (fst r) = Some (snd r)).
Proof.
  split.
  - intros sm c sid k Hc.
    destruct c as [ts now title genre summary
                  |n1 n2 sid' title summary
                  |now sid' k' name description location chars purpose
                  |now sid' k' j content];
      simpl in Hc; try discriminate; injection Hc as ->;
      simpl story_step.
    + unfold add_chapter.
      destruct (negb (dict_mem (stories sm) sid)); [auto|].
      destruct (dict_item (stories sm) sid) as [story|e] eqn:Hit; [|auto].
      simpl fst. simpl stories. simpl current_story_id.
      split; [exact (keys_dict_set_item _ _ _ _ Hit)|].
      split; [reflexivity|].
      intros Hne. apply dict_get_set_other. congruence.
    + unfold add_scene.
      destruct (negb (dict_mem (stories sm) sid)); [auto|].
      destruct (dict_item (stories sm) sid) as [story|e] eqn:Hit; [|auto].
      destruct (len (Story.chapters story) <? k'); [auto|].
      destruct (chapter_at story k') as [[i chapter]|e]; [|auto].
      simpl fst. simpl stories. simpl current_story_id.
      split; [exact (keys_dict_set_item _ _ _ _ Hit)|].
      split; [reflexivity|].
      intros Hne. apply dict_get_set_other. congruence.
    + unfold update_scene_content.
      destruct (dict_item (stories sm) sid) as [story|e] eqn:Hit; [|auto].
      cbv beta iota delta [bind].
      destruct (chapter_at story k') as [[i chapter]|e]; [|auto].
      cbv beta iota delta [bind snd].
      destruct (norm_index (Chapter.scenes chapter) j) as [jj|e]; [|auto].
      destruct (getitem (Chapter.scenes chapter) j) as [scene|e]; [|auto].
      simpl fst. simpl stories. simpl current_story_id.
      split; [exact (keys_dict_set_item _ _ _ _ Hit)|].
      split; [reflexivity|].
      intros Hne. apply dict_get_set_other. congruence.
  - intros f calls ts now title genre summary sm r.
    subst r. unfold create_story. simpl fst. simpl snd. simpl stories.
    simpl current_story_id.
    split; [|reflexivity].
    apply dict_set_fresh.
    fold (story_key (len (stories sm) + 1) ts).
    rewrite <- len_keys. apply keys_numbered_fresh.
    apply story_run_numbered. intros i k Hi. destruct i; discriminate.
Qed.

(** ** Stories read from the file (story_manager) *)

Lemma lmap_Forall {A B : Type} (f : A -> loaded B) (P : B -> Prop)
    (l : list A) (bs : list B) :
  (forall a b, f a = Built b -> P b) ->
  lmap f l = Built bs -> Forall P bs.
Proof.
  intros Hf. revert bs. induction l as [|a l IH]; intros bs H; simpl in H.
  - injection H as <-. constructor.
  - lbind_inv H. injection H as <-. constructor; eauto.
Qed.

Lemma Scene_of_loadable (v : pyval) (s : Scene.t) :
  Scene_of v = Built s -> scene_loadable s.
Proof.
  unfold Scene_of. destruct v; try discriminate. unfold with_kwargs.
  destruct (kwargs_ok _ _ _); [|discriminate].
  intros H. lbind_inv H. injection H as <-.
  unfold scene_loadable, Scene.init. simpl. now intros ->.
Qed.

Lemma Chapter_of_loadable (now : str) (d : dict pyval)
    (scenes : list Scene.t) (st : ChapterStatus) (c : Chapter.t) :
  Forall scene_loadable scenes ->
  Chapter_of now d scenes st = Built c -> chapter_loadable c.
Proof.
  intros Hsc. unfold Chapter_of, with_kwargs.
  destruct (kwargs_ok _ _ _); [|discriminate].
  intros H. lbind_inv H. injection H as <-.
  split; [exact Hsc | reflexivity].
Qed.

Lemma load_chapter_loadable (now : str) (v : pyval) (c : Chapter.t) :
  load_chapter now v = Built c -> chapter_loadable c.
Proof.
  unfold load_chapter. intros H. lbind_inv H.
  apply (Chapter_of_loadable _ _ _ _ _ (lmap_Forall _ _ _ _ Scene_of_loadable E1) H).
Qed.

Lemma load_story_loadable (now : str) (v : pyval) (s : Story.t) :
  load_story now v = Built s -> story_loadable s.
Proof.
  unfold load_story. intros H. lbind_inv H.
  unfold Story_of, with_kwargs in H.
  destruct (kwargs_ok _ _ _); [|discriminate].
  lbind_inv H. injection H as <-.
  split; [|reflexivity].
  exact (lmap_Forall _ _ _ _ (load_chapter_loadable now) E1).
Qed.

Lemma load_entries_loadable (now : str) (entries : dict pyval)
    (acc : loaded (dict Story.t)) (d : dict Story.t) :
  (forall a, acc = Built a ->
             Forall (fun kv => story_loadable (snd kv)) a) ->
  load_entries now entries acc = Built d ->
  Forall (fun kv => story_loadable (snd kv)) d.
Proof.
  revert acc. induction entries as [|kv l IH]; intros acc Hacc H;
    simpl in H.
  - now apply Hacc.
  - refine (IH _ _ H). intros a Ha.
    destruct acc as [a0| |]; cbn [lbind] in Ha; try discriminate.
    destruct (load_story now (snd kv)) as [s| |] eqn:Es; cbn [lbind] in Ha;
      try discriminate.
    injection Ha as <-.
    apply dict_set_Forall; [now apply Hacc|].
    intros k0. exact (load_story_loadable _ _ _ Es).
Qed.

(** X9. Whatever counts [stories.json] holds, every loaded story has as
    [current_word_count] the sum of its chapters' counts, every chapter the
    sum of its scenes' counts, and every scene with a content the length
    of this content. *)
Theorem loaded_counts_are_recomputed (now : str) (f : file)
    (d : dict Story.t) (Hload : _load_stories now f = Some d) :
  forall (k : str) (story : Story.t),
    In (k, story) d ->
    Story.current_word_count story
    = zsum (List.map Chapter.actual_word_count (Story.chapters story))
    /\ forall chapter,
         In chapter (Story.chapters story) ->
         Chapter.actual_word_count chapter
         = zsum (List.map Scene.word_count (Chapter.scenes chapter))
         /\ forall scene,
              In scene (Chapter.scenes chapter) ->
              Scene.content scene <> [] ->
              Scene.word_count scene = len (Scene.content scene).
Proof.
  assert (Hd : Forall (fun kv => story_loadable (snd kv)) d).
  { destruct f as [| |data]; simpl in Hload;
      try (injection Hload as <-; constructor).
    destruct (load_stories_data now data) as [d0| |] eqn:E;
      try discriminate; injection Hload as <-; [|constructor].
    unfold load_stories_data in E.
    destruct (items data) as [entries| |]; cbn [lbind] in E;
      try discriminate.
    apply (load_entries_loadable now entries (Built []) d0); [|exact E].
    intros a [= <-]. constructor. }
  intros k story Hin. rewrite Forall_forall in Hd.
  destruct (Hd _ Hin) as [Hchs Hcur]. simpl in Hchs, Hcur.
  split; [now rewrite Hcur, chapters_word_count_sum|].
  intros chapter Hc. rewrite Forall_forall in Hchs.
  destruct (Hchs _ Hc) as [Hscs Hact].
  split; [now rewrite Hact, scenes_word_count_sum|].
  intros scene Hs Hne. rewrite Forall_forall in Hscs.
  apply (Hscs _ Hs). destruct (Scene.content scene); [congruence|reflexivity].
Qed.

(** ** The story context (story_manager) *)

Lemma scene_lines_block (parts : list str) (ie : Z * Scene.t) :
  scene_lines parts ie = parts ++ story_scene_block ie.
Proof.
  destruct ie as [i scene]. unfold scene_lines, story_scene_block.
  simpl fst. simpl snd.
  destruct (nonempty (Scene.content scene)); rewrite <- !app_assoc;
    reflexivity.
Qed.

Lemma chapter_lines_block (parts : list str) (c : Chapter.t) :
  chapter_lines parts c = parts ++ story_chapter_block c.
Proof.
  unfold chapter_lines, story_chapter_block.
  destruct (nonempty (Chapter.scenes c)).
  - rewrite (fold_left_blocks scene_lines _ scene_lines_block).
    rewrite <- !app_assoc. reflexivity.
  - rewrite <- !app_assoc. reflexivity.
Qed.

Lemma story_context_text (sm : StoryManager) (k : str) (story : Story.t) :
  dict_get (stories sm) k = Some story ->
  get_story_context sm k = Ok (story_text story).
Proof.
  intros Hk. unfold get_story_context.
  rewrite (dict_mem_get _ _ _ Hk), (dict_item_Some _ _ _ Hk).
  cbv beta iota delta [negb bind].
  rewrite (fold_left_blocks chapter_lines _ chapter_lines_block).
  reflexivity.
Qed.

(** X10. For a stored story, [get_story_context] returns the header of
    the story followed by one block per chapter, in order; the text shows
    the title, the progress [current/target], the title and the status of
    every chapter and the name, location and purpose of every scene. *)
Theorem story_context_contents (sm : StoryManager) (k : str)
    (story : Story.t) (Hk : dict_get (stories sm) k = Some story) :
  exists text,
    get_story_context sm k = Ok text
    /\ text = story_text story
    /\ contains (Story.title story) text
    /\ contains (str_of_int (Story.current_word_count story) ++ lit "/"
                   ++ str_of_int (Story.target_word_count story)) text
    /\ forall chapter,
         In chapter (Story.chapters story) ->
         contains (Chapter.title chapter) text
         /\ contains (ChapterStatus_value (Chapter.status chapter)) text
         /\ forall scene,
              In scene (Chapter.scenes chapter) ->
              contains (Scene.name scene) text
              /\ contains (Scene.location scene) text
              /\ contains (Scene.purpose scene) text.
Proof.
  exists (story_text story).
  split; [exact (story_context_text _ _ _ Hk)|]. split; [reflexivity|].
  unfold story_text.
  split; [|split].
  - eapply contains_trans; [|apply contains_join; left; reflexivity].
    apply contains_app_r, contains_app_l, contains_refl.
  - eapply contains_trans;
      [|apply contains_join; right; right; right; left; reflexivity].
    apply contains_app_r. rewrite !app_assoc.
    apply contains_app_l. rewrite <- !app_assoc. apply contains_refl.
  - intros chapter Hc.
    assert (Hline : forall line, In line (story_chapter_block chapter) ->
              In line
                ([ lit "=== 物語: " ++ Story.title story ++ lit " ===";
                   lit "ジャンル: " ++ Story.genre story;
                   lit "あらすじ: " ++ Story.summary story;
                   lit "進捗: " ++ str_of_int (Story.current_word_count story)
                     ++ lit "/" ++ str_of_int (Story.target_word_count story)
                     ++ lit "文字";
                   [];
                   lit "=== 章構成 ===" ]
                 ++ List.flat_map story_chapter_block (Story.chapters story))).
    { intros line Hl. apply in_or_app. right. apply in_flat_map.
      exists chapter. split; assumption. }
    split; [|split].
    + eapply contains_trans; [|apply contains_join, Hline; left; reflexivity].
      apply contains_app_r, contains_app_r, contains_app_r, contains_refl.
    + eapply contains_trans;
        [|apply contains_join, Hline; right; right; left; reflexivity].
      apply contains_app_r, contains_refl.
    + intros scene Hs.
      destruct (In_enumerate _ _ 1 Hs) as [i Hi].
      assert (Hsl : forall line, In line (story_scene_block (i, scene)) ->
                In line (story_chapter_block chapter)).
      { intros line Hl. unfold story_chapter_block.
        apply in_or_app. right. apply in_or_app. left.
        destruct (Chapter.scenes chapter) as [|s0 rest] eqn:Hscs;
          [destruct Hs|].
        simpl nonempty. cbv iota. right. apply in_flat_map.
        exists (i, scene). split; assumption. }
      split; [|split].
      * eapply contains_trans;
          [|apply contains_join, Hline, Hsl; left; reflexivity].
        simpl fst. simpl snd.
        apply contains_app_r, contains_app_r, contains_app_r,
              contains_app_l, contains_refl.
      * eapply contains_trans;
          [|apply contains_join, Hline, Hsl; left; reflexivity].
        simpl fst. simpl snd.
        apply contains_app_r, contains_app_r, contains_app_r,
              contains_app_r, contains_app_r, contains_app_l, contains_refl.
      * eapply contains_trans;
          [|apply contains_join, Hline, Hsl; right; left; reflexivity].
        simpl snd. apply contains_app_r, contains_refl.
Qed.

(** ** The filtered world contexts (world_manager) *)

Lemma any_in_iff (names related : list str) :
  any_in names related = true <-> names_one_of names related.
Proof.
  unfold any_in, names_one_of. rewrite existsb_exists. split.
  - intros (n & Hn & Hex). apply existsb_exists in Hex.
    destruct Hex as (x & Hx & Heq). apply str_eqb_eq in Heq. subst x.
    now exists n.
  - intros (n & Hn & Hr). exists n. split; [exact Hn|].
    apply existsb_exists. exists n. split; [exact Hr|].
    apply str_eqb_refl.
Qed.

Lemma plot_status_lines_block (parts : list str) (p : PlotThread.t) :
  plot_status_lines parts p = parts ++ plot_status_block p.
Proof.
  unfold plot_status_lines, plot_status_block. now rewrite <- !app_assoc.
Qed.

Lemma fold_left_kept {A B : Type} (body : list B -> A -> list B)
    (keep : A -> bool) (block : A -> list B) :
  (forall acc x, body acc x = if keep x then acc ++ block x else acc) ->
  forall l acc,
    List.fold_left body l acc
    = acc ++ List.flat_map block (List.filter keep l).
Proof.
  intros H. induction l as [|x l IH]; intros acc; simpl.
  - now rewrite app_nil_r.
  - rewrite IH, H. destruct (keep x); simpl; [|reflexivity].
    now rewrite <- app_assoc.
Qed.

Section FilterFacts.

Variable format_value : pyval -> str.

Lemma setting_lines_kept (types : list SettingType) (parts : list str)
    (s : WorldSetting.t) :
  setting_lines format_value (Some types) parts s
  = if of_types types s then parts ++ setting_block format_value s
    else parts.
Proof.
  unfold setting_lines, of_types.
  destruct (existsb _ types); [|reflexivity].
  exact (setting_lines_block format_value parts s).
Qed.

(** X11. With a list of categories, [get_world_context] keeps the
    settings whose type is in the list and leaves the historical and plot
    parts as they are; a setting of a listed type is named in the text;
    with the empty list no setting is shown. *)
Theorem world_context_filter (wm : WorldManager)
    (types : list SettingType) :
  let text := get_world_context format_value wm (Some types) in
  text
  = join [10%N]
      (world_lines format_value
         (List.filter (of_types types) (values (settings wm)))
         (important_events wm) (active_plots wm))
  /\ (forall s,
        In s (values (settings wm)) -> In (WorldSetting.type s) types ->
        contains (WorldSetting.name s) text)
  /\ ((forall s, In s (values (settings wm)) ->
                 ~ In (WorldSetting.type s) types) ->
      text = get_world_context format_value
               (mkWorldManager [] (timeline wm) (plot_threads wm)
                               (settings_file wm) (timeline_file wm)
                               (plots_file wm))
               None)
  /\ (types = [] ->
      text = join [10%N]
               (world_lines format_value [] (important_events wm)
                            (active_plots wm))).
Proof.
  assert (Htext :
    get_world_context format_value wm (Some types)
    = join [10%N]
        (world_lines format_value
           (List.filter (of_types types) (values (settings wm)))
           (important_events wm) (active_plots wm))).
  { unfold get_world_context, world_lines.
    rewrite (fold_left_kept _ _ _ (setting_lines_kept types)).
    rewrite (fold_left_blocks _ _ event_lines_block).
    rewrite (fold_left_blocks _ _ plot_lines_block).
    now rewrite <- !app_assoc. }
  cbv zeta. split; [exact Htext|]. split; [|split].
  - intros s Hs Ht. rewrite Htext. apply world_lines_setting.
    apply filter_In. split; [exact Hs|].
    unfold of_types. apply existsb_exists.
    exists (WorldSetting.type s). split; [exact Ht|].
    unfold SettingType_eqb. apply str_eqb_refl.
  - intros Hnone. rewrite Htext, world_context_lines.
    rewrite filter_none; [reflexivity|].
    intros s Hs. unfold of_types.
    destruct (existsb _ types) eqn:E; [|reflexivity].
    apply existsb_exists in E. destruct E as (t & Ht & Heq).
    unfold SettingType_eqb in Heq. apply str_eqb_eq in Heq.
    exfalso. apply (Hnone s Hs).
    assert (WorldSetting.type s = t) as ->; [|exact Ht].
    destruct (WorldSetting.type s), t; try reflexivity;
      vm_compute in Heq; discriminate Heq.
  - intros ->. rewrite Htext.
    rewrite filter_none; [reflexivity|]. reflexivity.
Qed.

End FilterFacts.

(** X12. [get_character_relevant_context] lists the events, of any
    importance, and the plot threads, of any status, that name one of the
    given characters: the events in non-decreasing order of year, each
    part under its header only when it is not empty.  The text is empty
    when nothing is related, in particular for no name. *)
Theorem character_relevant_context_contents (wm : WorldManager)
    (names : list str) :
  let related_events :=
    List.filter
      (fun e => any_in names (TimelineEvent.related_characters e))
      (values (timeline wm)) in
  let related_plots :=
    List.filter
      (fun p => any_in names (PlotThread.related_characters p))
      (values (plot_threads wm)) in
  let text := get_character_relevant_context wm names in
  text
  = join [10%N]
      ((if nonempty related_events
        then lit "=== 関連する歴史的イベント ==="
               :: List.flat_map event_block
                    (sorted_by TimelineEvent.year related_events)
        else [])
       ++ (if nonempty related_plots
           then lit "=== 関連する伏線 ==="
                  :: List.flat_map plot_status_block related_plots
           else []))
  /\ (forall e, In e (values (timeline wm)) ->
                names_one_of names (TimelineEvent.related_characters e) ->
                contains (TimelineEvent.name e) text)
  /\ (forall p, In p (values (plot_threads wm)) ->
                names_one_of names (PlotThread.related_characters p) ->
                contains (PlotThread.name p) text
                /\ contains (PlotThread.status p) text)
  /\ ((forall e, In e (values (timeline wm)) ->
                 ~ names_one_of names (TimelineEvent.related_characters e))
      -> (forall p, In p (values (plot_threads wm)) ->
                    ~ names_one_of names (PlotThread.related_characters p))
      -> text = [])
  /\ (names = [] -> text = []).
Proof.
  intros related_events related_plots text.
  assert (Htext :
    text
    = join [10%N]
        ((if nonempty related_events
          then lit "=== 関連する歴史的イベント ==="
                 :: List.flat_map event_block
                      (sorted_by TimelineEvent.year related_events)
          else [])
         ++ (if nonempty related_plots
             then lit "=== 関連する伏線 ==="
                    :: List.flat_map plot_status_block related_plots
             else []))).
  { unfold text, get_character_relevant_context.
    fold related_events. fold related_plots.
    f_equal.
    destruct (nonempty related_events), (nonempty related_plots);
      rewrite ?(fold_left_blocks _ _ event_lines_block),
              ?(fold_left_blocks _ _ plot_status_lines_block),
              ?(fold_left_blocks _ _ event_lines_block);
      rewrite ?app_nil_r; cbn [app]; rewrite <- ?app_assoc; reflexivity. }
  assert (Hnone :
    (forall e, In e (values (timeline wm)) ->
               ~ names_one_of names (TimelineEvent.related_characters e))
    -> (forall p, In p (values (plot_threads wm)) ->
                  ~ names_one_of names (PlotThread.related_characters p))
    -> text = []).
  { intros He Hp. rewrite Htext.
    assert (related_events = []) as ->.
    { apply filter_none. intros e Hin.
      destruct (any_in names _) eqn:E; [|reflexivity].
      apply any_in_iff in E. now destruct (He e Hin). }
    assert (related_plots = []) as ->.
    { apply filter_none. intros p Hin.
      destruct (any_in names _) eqn:E; [|reflexivity].
      apply any_in_iff in E. now destruct (Hp p Hin). }
    reflexivity. }
  split; [exact Htext|]. split; [|split; [|split]].
  - intros e Hin Hrel. rewrite Htext.
    assert (Hre : In e related_events).
    { apply filter_In. split; [exact Hin|]. now apply any_in_iff. }
    destruct related_events as [|e0 rest] eqn:Ere; [destruct Hre|].
    simpl nonempty. cbv iota.
    apply (contains_trans _
             (lit "【" ++ str_of_int (TimelineEvent.year e) ++ lit "年】"
                ++ TimelineEvent.name e)).
    + apply contains_app_r, contains_app_r, contains_app_r, contains_refl.
    + apply contains_join. apply in_or_app. left. right.
      apply in_flat_map. exists e. split; [|now left].
      apply (Permutation_in _ (sorted_by_perm TimelineEvent.year _)).
      exact Hre.
  - intros p Hin Hrel. rewrite Htext.
    assert (Hrp : In p related_plots).
    { apply filter_In. split; [exact Hin|]. now apply any_in_iff. }
    destruct related_plots as [|p0 rest] eqn:Erp; [destruct Hrp|].
    simpl nonempty. cbv iota.
    assert (Hline : contains
              (lit "【" ++ PlotThread.name p ++ lit "】("
                 ++ PlotThread.status p ++ lit ")")
              (join [10%N]
                 ((if nonempty related_events
                   then lit "=== 関連する歴史的イベント ==="
                          :: List.flat_map event_block
                               (sorted_by TimelineEvent.year related_events)
                   else [])
                  ++ lit "=== 関連する伏線 ==="
                       :: List.flat_map plot_status_block (p0 :: rest)))).
    { apply contains_join. apply in_or_app. right. right.
      apply in_flat_map. exists p. split; [exact Hrp|]. now left. }
    split.
    + eapply contains_trans; [|exact Hline].
      apply contains_app_r, contains_app_l, contains_refl.
    + eapply contains_trans; [|exact Hline].
      apply contains_app_r, contains_app_r, contains_app_r,
            contains_app_l, contains_refl.
  - exact Hnone.
  - intros ->. apply Hnone.
    + intros e _ (n & [] & _).
    + intros p _ (n & [] & _).
Qed.

(** ** The endpoints of the application (advanced_main) *)

Lemma numbered_from_fresh (prefix : str) (ks : list str) :
  numbered_from prefix ks ->
  ~ In (prefix ++ str_of_int (len ks + 1)) ks.
Proof.
  intros Hn Hin. apply In_nth_error in Hin. destruct Hin as [i Hi].
  pose proof (Hn i _ Hi) as Heq. apply app_inv_head in Heq.
  apply str_of_int_inj in Heq.
  assert (i < List.length ks)%nat.
  { apply nth_error_Some. intros Hc.
    discriminate (eq_trans (eq_sym Hi) Hc). }
  unfold len in Heq. lia.
Qed.

Lemma numbered_from_snoc (prefix : str) (ks : list str) :
  numbered_from prefix ks ->
  numbered_from prefix (ks ++ [prefix ++ str_of_int (len ks + 1)]).
Proof.
  intros Hn i k Hi.
  destruct (Nat.lt_ge_cases i (List.length ks)) as [Hlt|Hge].
  - rewrite nth_error_app1 in Hi by exact Hlt. exact (Hn i k Hi).
  - rewrite nth_error_app2 in Hi by exact Hge.
    destruct (i - List.length ks)%nat as [|m] eqn:Em;
      [|destruct m; discriminate Hi].
    injection Hi as <-. f_equal. f_equal. unfold len. lia.
Qed.

Lemma numbered_from_NoDup (prefix : str) (ks : list str) :
  numbered_from prefix ks -> NoDup ks.
Proof.
  intros Hn. apply (proj2 (NoDup_nth_error ks)).
  intros i j Hi Hij.
  destruct (nth_error ks i) as [k|] eqn:Ei;
    [|apply nth_error_None in Ei; lia].
  symmetry in Hij.
  pose proof (Hn i k Ei) as H1. pose proof (Hn j k Hij) as H2.
  rewrite H1 in H2. apply app_inv_head in H2.
  apply str_of_int_inj in H2. lia.
Qed.

Lemma keys_set_fresh {V : Type} (prefix : str) (d : dict V) (v : V) :
  numbered_from prefix (keys d) ->
  dict_set d (prefix ++ str_of_int (len d + 1)) v
  = d ++ [(prefix ++ str_of_int (len d + 1), v)].
Proof.
  intros Hn. apply dict_set_fresh. rewrite <- len_keys.
  now apply numbered_from_fresh.
Qed.

Lemma numbered_from_set {V : Type} (prefix : str) (d : dict V) (v : V) :
  numbered_from prefix (keys d) ->
  numbered_from prefix
    (keys (dict_set d (prefix ++ str_of_int (len d + 1)) v)).
Proof.
  intros Hn. rewrite (keys_set_fresh _ _ _ Hn), keys_app. simpl.
  rewrite <- len_keys. now apply numbered_from_snoc.
Qed.

Lemma save_all_world (wm : WorldManager) :
  fst (save_all wm)
  = mkWorldManager (settings wm) (timeline wm) (plot_threads wm)
                   (settings_file (fst (save_all wm)))
                   (timeline_file (fst (save_all wm)))
                   (plots_file (fst (save_all wm))).
Proof.
  destruct (save_all_collections wm) as (Hs & Ht & Hp).
  destruct (fst (save_all wm)) as [s t p f1 f2 f3]. simpl in *.
  now subst.
Qed.

Lemma api_world_fresh : api_world fresh_world_manager.
Proof.
  repeat split; try (intros i k Hi; destruct i; discriminate Hi).
  constructor.
Qed.

Lemma world_of_step (app : App) (c : api_call) :
  the_world_manager (api_step app c)
  = world_run (the_world_manager app) (world_call_of app c).
Proof.
  destruct c as [now rq|rq|rq|ts now rq|n1 n2 sid rq|now sid k rq];
    simpl api_step; simpl world_call_of.
  - unfold Endpoints.add_world_setting.
    destruct (SettingType_of (Endpoints.ws_type rq)) as [t|e];
      [|reflexivity].
    simpl world_run.
    destruct (add_setting _ _) as [wm [u|e]]; reflexivity.
  - unfold advanced_main.add_timeline_event. simpl world_run.
    destruct (world_manager.add_timeline_event _ _) as [wm [u|e]];
      reflexivity.
  - unfold Endpoints.add_plot_thread. simpl world_run.
    destruct (world_manager.add_plot_thread _ _) as [wm [u|e]]; reflexivity.
  - reflexivity.
  - unfold Endpoints.add_chapter.
    destruct (story_manager.add_chapter _ _ _ _ _ _) as [sm [u|e]];
      reflexivity.
  - unfold Endpoints.add_scene.
    destruct (story_manager.add_scene _ _ _ _ _ _ _ _ _) as [sm [u|e]];
      reflexivity.
Qed.

Lemma stories_of_step (app : App) (c : api_call) :
  the_story_manager (api_step app c)
  = story_run (the_story_manager app) (story_call_of c).
Proof.
  destruct c as [now rq|rq|rq|ts now rq|n1 n2 sid rq|now sid k rq];
    simpl api_step; simpl story_call_of.
  - unfold Endpoints.add_world_setting.
    destruct (SettingType_of (Endpoints.ws_type rq)) as [t|e];
      [|reflexivity].
    destruct (add_setting _ _) as [wm [u|e]]; reflexivity.
  - unfold advanced_main.add_timeline_event.
    destruct (world_manager.add_timeline_event _ _) as [wm [u|e]];
      reflexivity.
  - unfold Endpoints.add_plot_thread.
    destruct (world_manager.add_plot_thread _ _) as [wm [u|e]]; reflexivity.
  - reflexivity.
  - unfold Endpoints.add_chapter. simpl story_run.
    destruct (story_manager.add_chapter _ _ _ _ _ _) as [sm [u|e]];
      reflexivity.
  - unfold Endpoints.add_scene. simpl story_run.
    destruct (story_manager.add_scene _ _ _ _ _ _ _ _ _) as [sm [u|e]];
      reflexivity.
Qed.

Lemma stories_of_run (calls : list api_call) (app : App) :
  the_story_manager (api_run app calls)
  = story_run (the_story_manager app) (List.flat_map story_call_of calls).
Proof.
  revert app. induction calls as [|c calls IH]; intros app;
    [reflexivity|].
  change (api_run app (c :: calls)) with (api_run (api_step app c) calls).
  rewrite IH, stories_of_step. simpl flat_map.
  unfold story_run. now rewrite fold_left_app.
Qed.

Lemma api_step_world (app : App) (c : api_call) :
  api_world (the_world_manager app) ->
  api_world (the_world_manager (api_step app c)).
Proof.
  intros (Hs & Ht & Hp & Hact). rewrite world_of_step.
  destruct c as [now rq|rq|rq|ts now rq|n1 n2 sid rq|now sid k rq];
    simpl world_call_of; try (repeat split; assumption).
  - destruct (SettingType_of (Endpoints.ws_type rq)) as [t|e];
      [|repeat split; assumption].
    simpl world_run. unfold add_setting.
    destruct (save_all_collections
                (mkWorldManager
                   (dict_set (settings (the_world_manager app))
                      (WorldSetting.id
                         (WorldSetting.init now
                            (lit "setting_"
                               ++ str_of_int
                                    (len (settings (the_world_manager app))
                                     + 1))
                            (Endpoints.ws_name rq) t
                            (Endpoints.ws_description rq)
                            (Endpoints.ws_details rq) None None None))
                      (WorldSetting.init now
                         (lit "setting_"
                            ++ str_of_int
                                 (len (settings (the_world_manager app)) + 1))
                         (Endpoints.ws_name rq) t
                         (Endpoints.ws_description rq)
                         (Endpoints.ws_details rq) None None None))
                   (timeline (the_world_manager app))
                   (plot_threads (the_world_manager app))
                   (settings_file (the_world_manager app))
                   (timeline_file (the_world_manager app))
                   (plots_file (the_world_manager app))))
      as (E1 & E2 & E3).
    unfold api_world. rewrite E1, E2, E3. simpl.
    repeat split; try assumption.
    now apply numbered_from_set.
  - simpl world_run. unfold world_manager.add_timeline_event.
    match goal with
    | |- api_world (fst (save_all ?w)) =>
        destruct (save_all_collections w) as (E1 & E2 & E3)
    end.
    unfold api_world. rewrite E1, E2, E3. simpl.
    repeat split; try assumption.
    now apply numbered_from_set.
  - simpl world_run. unfold world_manager.add_plot_thread.
    match goal with
    | |- api_world (fst (save_all ?w)) =>
        destruct (save_all_collections w) as (E1 & E2 & E3)
    end.
    unfold api_world. rewrite E1, E2, E3. simpl.
    split; [assumption|]. split; [assumption|].
    split; [now apply numbered_from_set|].
    rewrite (keys_set_fresh _ _ _ Hp). unfold values. rewrite map_app.
    apply Forall_app. split; [exact Hact|].
    constructor; [|constructor]. simpl. split; reflexivity.
Qed.

Lemma api_run_world (calls : list api_call) (app : App) :
  api_world (the_world_manager app) ->
  api_world (the_world_manager (api_run app calls)).
Proof.
  revert app. induction calls as [|c calls IH]; intros app H; simpl;
    [exact H|].
  apply IH. now apply api_step_world.
Qed.

Lemma api_reached_world (calls : list api_call) :
  api_world (the_world_manager (api_run fresh_app calls)).
Proof. apply api_run_world. exact api_world_fresh. Qed.

Lemma save_all_with_settings (wm : WorldManager) :
  NoDup (keys (settings wm)) -> settings wm <> [] ->
  exists e,
    save_all wm
    = (mkWorldManager (settings wm) (timeline wm) (plot_threads wm)
                      Unreadable (timeline_file wm) (plots_file wm),
       Raise e).
Proof.
  intros Hs Hne. unfold save_all.
  destruct (settings_dump_raises _ Hs Hne) as [e ->].
  exists e. reflexivity.
Qed.

Lemma save_all_without_settings (wm : WorldManager) :
  settings wm = [] -> NoDup (keys (timeline wm)) ->
  NoDup (keys (plot_threads wm)) ->
  save_all wm
  = if encodable_text (timeline_document (timeline wm)) then
      if encodable_text (plots_document (plot_threads wm)) then
        (mkWorldManager [] (timeline wm) (plot_threads wm)
           (Doc (PDict []))
           (Doc (timeline_document (timeline wm)))
           (Doc (plots_document (plot_threads wm))),
         Ok tt)
      else
        (mkWorldManager [] (timeline wm) (plot_threads wm)
           (Doc (PDict []))
           (Doc (timeline_document (timeline wm)))
           Unreadable,
         Raise UnicodeEncodeError)
    else
      (mkWorldManager [] (timeline wm) (plot_threads wm)
         (Doc (PDict [])) Unreadable (plots_file wm),
       Raise UnicodeEncodeError).
Proof.
  intros Hs Ht Hp. unfold save_all. rewrite Hs.
  change (json_dump (asdict_all asdict_WorldSetting []))
    with (Doc (PDict []), @Ok unit tt).
  cbv iota beta. cbn [settings timeline plot_threads settings_file
                      timeline_file plots_file].
  rewrite (world_dump _ _ Ht serializable_event).
  fold (timeline_document (timeline wm)).
  destruct (encodable_text (timeline_document (timeline wm)));
    [|reflexivity].
  cbv iota beta. cbn [settings timeline plot_threads settings_file
                      timeline_file plots_file].
  rewrite (world_dump _ _ Hp serializable_plot).
  fold (plots_document (plot_threads wm)).
  now destruct (encodable_text (plots_document (plot_threads wm))).
Qed.

(** X13. In every state the application reaches through its endpoints,
    [POST /world/settings] answers 500: with an unknown type nothing is
    stored; with a known type the setting is stored in memory under
    [setting_<n+1>], [world_settings.json] is left unreadable and the
    other files are not written. *)
Theorem posting_a_setting_fails (calls : list api_call) (now : str)
    (request : Endpoints.WorldSettingRequest) :
  let app := api_run fresh_app calls in
  let wm := the_world_manager app in
  let r := Endpoints.add_world_setting now app request in
  snd r = inl (mkHTTPException 500)
  /\ (SettingType_of (Endpoints.ws_type request) = Raise ValueError ->
      fst r = app)
  /\ (forall type,
        SettingType_of (Endpoints.ws_type request) = Ok type ->
        let setting_id :=
          lit "setting_" ++ str_of_int (len (settings wm) + 1) in
        the_world_manager (fst r)
        = mkWorldManager
            (settings wm
               ++ [(setting_id,
                    WorldSetting.init now setting_id
                      (Endpoints.ws_name request) type
                      (Endpoints.ws_description request)
                      (Endpoints.ws_details request) None None None)])
            (timeline wm) (plot_threads wm)
            Unreadable (timeline_file wm) (plots_file wm)).
Proof.
  intros app wm r.
  destruct (api_reached_world calls) as (Hs & Ht & Hp & Hact).
  fold app in Hs, Ht, Hp, Hact. fold wm in Hs, Ht, Hp, Hact.
  subst r. unfold Endpoints.add_world_setting. fold wm.
  destruct (SettingType_of (Endpoints.ws_type request)) as [t|e] eqn:Et.
  - unfold add_setting. cbn [WorldSetting.id WorldSetting.init].
    match goal with
    | |- context [save_all ?w] =>
        destruct (save_all_with_settings w) as [e ->]
    end.
    + cbn [settings]. apply dict_set_NoDup.
      exact (numbered_from_NoDup _ _ Hs).
    + cbn [settings]. rewrite (keys_set_fresh _ _ _ Hs).
      intros H. now apply app_eq_nil in H.
    + cbn [settings timeline plot_threads settings_file timeline_file
           plots_file fst snd].
      split; [reflexivity|]. split; [discriminate|].
      intros type [= <-]. cbv zeta.
      unfold Endpoints.with_world. cbn [the_world_manager].
      now rewrite (keys_set_fresh _ _ _ Hs).
  - split; [reflexivity|]. split; [reflexivity|]. discriminate.
Qed.

Lemma len_app_one {A : Type} (l : list A) (a : A) :
  len (l ++ [a]) = len l + 1.
Proof. unfold len. rewrite length_app. simpl. lia. Qed.

(** X14. In every state the application reaches through its endpoints,
    [POST /world/timeline] stores the event under [event_<n+1>], after the
    stored ones.  While no setting is stored, it answers with this
    identifier when every string of the timeline and of the plot threads
    can be encoded in UTF-8, and 500 otherwise; [timeline.json] loads
    back as the timeline when every string of the timeline can be
    encoded, and is left with a cut text otherwise.  Once a setting is
    stored it answers 500 and [timeline.json] is not written. *)
Theorem posting_an_event (calls : list api_call)
    (request : TimelineEventRequest) :
  let app := api_run fresh_app calls in
  let wm := the_world_manager app in
  let r := advanced_main.add_timeline_event app request in
  let wm' := the_world_manager (fst r) in
  let event_id := lit "event_" ++ str_of_int (len (timeline wm) + 1) in
  let event :=
    TimelineEvent.init event_id (te_name request) (te_description request)
      (te_year request) (te_month request) (te_day request)
      (te_importance request) (Some (te_related_characters request))
      None None in
  let tdoc := timeline_document (timeline wm') in
  let pdoc := plots_document (plot_threads wm) in
  timeline wm' = timeline wm ++ [(event_id, event)]
  /\ (settings wm = [] ->
      (encodable_text tdoc = true -> encodable_text pdoc = true ->
       snd r = inr (PDict [ (lit "message",
                               PStr (lit "時系列イベント「" ++ te_name request
                                       ++ lit "」が追加されました"));
                            (lit "event_id", PStr event_id) ]))
      /\ (encodable_text tdoc = true ->
          _load_timeline (timeline_file wm') = Some (timeline wm'))
      /\ (encodable_text tdoc = false ->
          snd r = inl (mkHTTPException 500)
          /\ timeline_file wm' = Unreadable)
      /\ (encodable_text pdoc = false ->
          snd r = inl (mkHTTPException 500)))
  /\ (settings wm <> [] ->
      snd r = inl (mkHTTPException 500)
      /\ timeline_file wm' = timeline_file wm).
Proof.
  intros app wm r wm' event_id event tdoc pdoc.
  destruct (api_reached_world calls) as (Hs & Ht & Hp & Hact).
  fold app in Hs, Ht, Hp, Hact. fold wm in Hs, Ht, Hp, Hact.
  assert (Hset : dict_set (timeline wm) event_id event
                 = timeline wm ++ [(event_id, event)])
    by exact (keys_set_fresh _ _ _ Ht).
  assert (Hnd : NoDup (keys (timeline wm ++ [(event_id, event)]))).
  { rewrite <- Hset. apply dict_set_NoDup.
    exact (numbered_from_NoDup _ _ Ht). }
  subst tdoc pdoc wm' r. unfold advanced_main.add_timeline_event. fold wm.
  fold event_id. fold event.
  unfold world_manager.add_timeline_event.
  replace (TimelineEvent.id event) with event_id by reflexivity.
  rewrite Hset.
  destruct (settings wm) as [|kv rest] eqn:Es.
  - rewrite save_all_without_settings; cbn [settings timeline plot_threads];
      [|reflexivity|exact Hnd|exact (numbered_from_NoDup _ _ Hp)].
    destruct (encodable_text
                (timeline_document (timeline wm ++ [(event_id, event)])))
      eqn:Et;
      [destruct (encodable_text (plots_document (plot_threads wm)))
         eqn:Ep|];
      cbn [fst snd the_world_manager timeline timeline_file];
      rewrite ?Et;
      (split; [reflexivity|]); (split; [|congruence]); intros _.
    + split; [reflexivity|]. split; [|split; discriminate].
      intros _.
      exact (load_all_entries asdict_TimelineEvent TimelineEvent_of _ Hnd
               TimelineEvent_roundtrip).
    + split; [discriminate|]. split; [|split; [discriminate|reflexivity]].
      intros _.
      exact (load_all_entries asdict_TimelineEvent TimelineEvent_of _ Hnd
               TimelineEvent_roundtrip).
    + split; [discriminate|]. split; [discriminate|].
      split; [split; reflexivity|reflexivity].
  - match goal with
    | |- context [save_all ?w] =>
        destruct (save_all_with_settings w) as [e ->]
    end; cbn [settings timeline plot_threads];
      [exact (numbered_from_NoDup _ _ Hs)|discriminate|].
    cbn [fst snd the_world_manager timeline timeline_file].
    split; [reflexivity|]. split; [discriminate|].
    intros _. split; reflexivity.
Qed.

Lemma filter_all {A : Type} (keep : A -> bool) (l : list A) :
  Forall (fun a => keep a = true) l -> List.filter keep l = l.
Proof.
  induction 1 as [|a l Ha Hl IH]; simpl; [reflexivity|].
  now rewrite Ha, IH.
Qed.

Lemma plots_of_step (app : App) (c : api_call) :
  api_world (the_world_manager app) ->
  len (plot_threads (the_world_manager (api_step app c)))
  = len (plot_threads (the_world_manager app))
    + (if is_PostPlot c then 1 else 0).
Proof.
  intros (Hs & Ht & Hp & Hact). rewrite world_of_step.
  destruct c as [now rq|rq|rq|ts now rq|n1 n2 sid rq|now sid k rq];
    simpl world_call_of; simpl is_PostPlot; simpl world_run;
    try (rewrite Z.add_0_r; reflexivity).
  - destruct (SettingType_of (Endpoints.ws_type rq)) as [t|e];
      simpl world_run; [|now rewrite Z.add_0_r].
    unfold add_setting.
    match goal with
    | |- context [fst (save_all ?w)] =>
        destruct (save_all_collections w) as (E1 & E2 & E3)
    end.
    rewrite E3. simpl. now rewrite Z.add_0_r.
  - unfold world_manager.add_timeline_event.
    match goal with
    | |- context [fst (save_all ?w)] =>
        destruct (save_all_collections w) as (E1 & E2 & E3)
    end.
    rewrite E3. simpl. now rewrite Z.add_0_r.
  - unfold world_manager.add_plot_thread.
    match goal with
    | |- context [fst (save_all ?w)] =>
        destruct (save_all_collections w) as (E1 & E2 & E3)
    end.
    rewrite E3. cbn [plot_threads PlotThread.id PlotThread.init].
    rewrite (keys_set_fresh _ _ _ Hp). apply len_app_one.
Qed.

Lemma plots_of_run (calls : list api_call) (app : App) :
  api_world (the_world_manager app) ->
  len (plot_threads (the_world_manager (api_run app calls)))
  = len (plot_threads (the_world_manager app))
    + len (List.filter is_PostPlot calls).
Proof.
  revert app. induction calls as [|c calls IH]; intros app H.
  - simpl. unfold len at 3. simpl. lia.
  - change (api_run app (c :: calls)) with (api_run (api_step app c) calls).
    rewrite (IH _ (api_step_world _ _ H)), (plots_of_step _ _ H).
    simpl filter. destruct (is_PostPlot c); [|lia].
    unfold len. cbn [List.length]. rewrite Nat2Z.inj_succ. lia.
Qed.

(** X15. In every state the application reaches through its endpoints,
    [check_consistency] reports every stored plot thread, one message per
    [POST /world/plots] request received: a posted thread is active and
    has no payoff event. *)
Theorem posted_plots_stay_unresolved (calls : list api_call) :
  let wm := the_world_manager (api_run fresh_app calls) in
  check_consistency wm
  = List.map issue_message (values (plot_threads wm))
  /\ len (check_consistency wm) = len (List.filter is_PostPlot calls).
Proof.
  intros wm.
  destruct (api_reached_world calls) as (Hs & Ht & Hp & Hact).
  fold wm in Hs, Ht, Hp, Hact.
  assert (H : check_consistency wm
              = List.map issue_message (values (plot_threads wm))).
  { unfold check_consistency.
    rewrite (fold_left_blocks issue_of _ issue_of_block).
    rewrite flat_map_if. simpl app. f_equal. apply filter_all.
    apply (Forall_impl _ (P := fun p => PlotThread.status p = lit "active"
                                    /\ PlotThread.payoff_events p = []));
      [|exact Hact].
    intros p [Hst Hpay]. unfold unresolved. rewrite Hst, Hpay.
    now rewrite str_eqb_refl. }
  split; [exact H|].
  rewrite H. unfold len. rewrite length_map. unfold values.
  rewrite length_map.
  pose proof (plots_of_run calls fresh_app api_world_fresh) as Hlen.
  unfold len in Hlen. simpl in Hlen. fold wm in Hlen. exact Hlen.
Qed.

Lemma store_blank_item (sm : StoryManager) (k : str) (s : Story.t) :
  store_blank sm -> dict_item (stories sm) k = Ok s -> story_blank s.
Proof.
  intros Hsm Hk. apply dict_item_In in Hk.
  unfold store_blank in Hsm. rewrite Forall_forall in Hsm.
  exact (Hsm _ Hk).
Qed.

Lemma create_story_blank ts now sm title genre summary :
  store_blank sm ->
  store_blank (fst (story_manager.create_story ts now sm title genre summary)).
Proof.
  intros Hsm. unfold story_manager.create_story, store_blank.
  simpl fst. simpl stories.
  apply dict_set_Forall; [exact Hsm|]. intros k0.
  repeat split. constructor.
Qed.

Lemma add_chapter_blank n1 n2 sm sid title summary :
  store_blank sm ->
  store_blank (fst (story_manager.add_chapter n1 n2 sm sid title summary)).
Proof.
  intros Hsm. unfold story_manager.add_chapter.
  destruct (negb (dict_mem (stories sm) sid)); [exact Hsm|].
  destruct (dict_item (stories sm) sid) as [story|e] eqn:Hit; [|exact Hsm].
  destruct (store_blank_item _ _ _ Hsm Hit) as (HT & Hw & Hch).
  unfold store_blank. simpl fst. simpl stories.
  apply dict_set_Forall; [exact Hsm|]. intros k0. simpl.
  split; [exact HT|]. split; [exact Hw|].
  apply Forall_app. split; [exact Hch|].
  constructor; [|constructor]. repeat split. constructor.
Qed.

Lemma add_scene_blank now sm sid k name description location chars purpose :
  store_blank sm ->
  store_blank (fst (story_manager.add_scene now sm sid k name description
                                            location chars purpose)).
Proof.
  intros Hsm. unfold story_manager.add_scene.
  destruct (negb (dict_mem (stories sm) sid)); [exact Hsm|].
  destruct (dict_item (stories sm) sid) as [story|e] eqn:Hit; [|exact Hsm].
  destruct (len (Story.chapters story) <? k); [exact Hsm|].
  rewrite chapter_at_cell.
  destruct (cell _ _) as [i|] eqn:Hi; [|exact Hsm].
  destruct (nth_error (Story.chapters story) i) as [chapter|] eqn:Hnth;
    [|exact Hsm].
  destruct (store_blank_item _ _ _ Hsm Hit) as (HT & Hw & Hch).
  pose proof Hch as Hch'. rewrite Forall_forall in Hch'.
  destruct (Hch' chapter (nth_error_In _ _ Hnth)) as (Hst & Htc & Hac & Hsc).
  unfold store_blank. simpl fst. simpl stories.
  apply dict_set_Forall; [exact Hsm|]. intros k0. simpl.
  split; [exact HT|]. split; [exact Hw|].
  apply set_nth_Forall; [exact Hch|].
  unfold chapter_blank. simpl.
  split; [exact Hst|]. split; [exact Htc|]. split; [exact Hac|].
  apply Forall_app. split; [exact Hsc|].
  constructor; [|constructor]. split; reflexivity.
Qed.

Lemma api_step_blank (app : App) (c : api_call) :
  store_blank (the_story_manager app) ->
  store_blank (the_story_manager (api_step app c)).
Proof.
  intros H. rewrite stories_of_step.
  destruct c as [now rq|rq|rq|ts now rq|n1 n2 sid rq|now sid k rq];
    simpl story_call_of; simpl story_run; try exact H.
  - now apply create_story_blank.
  - now apply add_chapter_blank.
  - now apply add_scene_blank.
Qed.

Lemma api_run_blank (calls : list api_call) (app : App) :
  store_blank (the_story_manager app) ->
  store_blank (the_story_manager (api_run app calls)).
Proof.
  revert app. induction calls as [|c calls IH]; intros app H; simpl;
    [exact H|].
  apply IH. now apply api_step_blank.
Qed.

Lemma planned_advice (l : list Chapter.t) :
  Forall chapter_blank l ->
  List.flat_map chapter_advice l
  = List.map (fun c => lit "第" ++ str_of_int (Chapter.number c)
                         ++ lit "章のアウトラインを作成しましょう") l.
Proof.
  induction 1 as [|c l Hc Hl IH]; simpl; [reflexivity|].
  rewrite IH. unfold chapter_advice. destruct Hc as (-> & _). reflexivity.
Qed.

(** X16. A story of a state the application reaches through its endpoints
    has the target 50000, whatever target was requested, no written
    character and only planned chapters; the suggestions endpoint answers
    with the introduction suggestion followed by the outline suggestion of
    each chapter. *)
Theorem api_stories_never_progress (calls : list api_call) (sid : str)
    (story : Story.t) :
  let app := api_run fresh_app calls in
  dict_get (stories (the_story_manager app)) sid = Some story ->
  Story.target_word_count story = 50000
  /\ Story.current_word_count story = 0
  /\ (forall c, In c (Story.chapters story) ->
                Chapter.status c = PLANNED
                /\ Chapter.target_word_count c = 3000
                /\ forall s, In s (Chapter.scenes c) ->
                             Scene.content s = [])
  /\ Endpoints.get_writing_suggestions app sid
     = inr (PDict
              [ (lit "writing_suggestions",
                   PList (List.map PStr
                            (SUGGEST_INTRODUCTION
                               :: List.map
                                    (fun c =>
                                       lit "第"
                                         ++ str_of_int (Chapter.number c)
                                         ++ lit "章のアウトラインを作成しましょう")
                                    (Story.chapters story))));
                (lit "consistency_issues",
                   PList (List.map PStr
                            (check_consistency (the_world_manager app))));
                (lit "story_id", PStr sid) ]).
Proof.
  intros app Hk.
  assert (Hb : store_blank (the_story_manager app)).
  { apply api_run_blank. constructor. }
  destruct (store_blank_item _ _ _ Hb (dict_item_Some _ _ _ Hk))
    as (HT & Hw & Hch).
  split; [exact HT|]. split; [exact Hw|]. split.
  - intros c Hc. rewrite Forall_forall in Hch.
    destruct (Hch c Hc) as (Hst & Htc & _ & Hsc).
    split; [exact Hst|]. split; [exact Htc|].
    intros s Hs. rewrite Forall_forall in Hsc. exact (proj1 (Hsc s Hs)).
  - unfold Endpoints.get_writing_suggestions,
      story_manager.get_writing_suggestions.
    rewrite (dict_item_Some _ _ _ Hk). cbv beta iota delta [bind].
    rewrite HT, Hw.
    replace (progress_suggestion 0 STORY_TARGET)
      with (Ok SUGGEST_INTRODUCTION) by (vm_compute; reflexivity).
    cbv beta iota.
    rewrite (fold_left_blocks chapter_suggestion _ chapter_suggestion_block).
    rewrite (planned_advice _ Hch). reflexivity.
Qed.

Lemma zsum_map_ext_in {A : Type} (f g : A -> Z) (l : list A) :
  (forall a, In a l -> f a = g a) ->
  zsum (List.map f l) = zsum (List.map g l).
Proof.
  induction l as [|a l IH]; intros H; simpl; [reflexivity|].
  rewrite (H a (or_introl eq_refl)), IH; [reflexivity|].
  intros b Hb. apply H. now right.
Qed.

(** X17. The dashboard over a store reached from a first start: the
    number of active plots is the number of plot threads the world context
    shows, [total_chapters] is the number of chapters of all stories, and
    [total_words] is the total length of the contents of all scenes. *)
Theorem dashboard_totals (f : file) (calls : list story_call)
    (wm : WorldManager) (cm : CharacterMemoryManager) :
  let sm := story_run (fresh_story_manager f) calls in
  Endpoints.get_dashboard (mkApp wm sm cm)
  = PDict
      [ (lit "world_stats",
           PDict [ (lit "settings_count", PInt (len (settings wm)));
                   (lit "timeline_events", PInt (len (timeline wm)));
                   (lit "active_plots", PInt (len (active_plots wm))) ]);
        (lit "story_stats",
           PDict
             [ (lit "total_stories", PInt (len (stories sm)));
               (lit "total_chapters",
                  PInt (zsum (List.map (fun s => len (Story.chapters s))
                                       (values (stories sm)))));
               (lit "total_words",
                  PInt (zsum
                          (List.map
                             (fun s =>
                                zsum
                                  (List.map
                                     (fun c =>
                                        zsum
                                          (List.map
                                             (fun x => len (Scene.content x))
                                             (Chapter.scenes c)))
                                     (Story.chapters s)))
                             (values (stories sm))))) ]);
        (lit "character_stats",
           PDict [ (lit "total_characters", PInt (len (characters cm))) ]) ].
Proof.
  intros sm. unfold Endpoints.get_dashboard.
  cbn [the_world_manager the_story_manager the_character_memory].
  rewrite !fold_left_add, !Z.add_0_l.
  assert (Hsm : store_counted sm).
  { apply story_run_counted. constructor. }
  assert (Hwords :
    zsum (List.map Story.current_word_count (values (stories sm)))
    = zsum (List.map
              (fun s =>
                 zsum (List.map
                         (fun c =>
                            zsum (List.map (fun x => len (Scene.content x))
                                           (Chapter.scenes c)))
                         (Story.chapters s)))
              (values (stories sm)))).
  { apply zsum_map_ext_in. intros s Hs.
    unfold values in Hs. apply in_map_iff in Hs.
    destruct Hs as ([k s'] & <- & Hin). simpl.
    unfold store_counted in Hsm. rewrite Forall_forall in Hsm.
    destruct (Hsm _ Hin) as [Hcur Hchs]. simpl in Hcur, Hchs.
    rewrite Hcur. apply zsum_map_ext_in. intros c Hc.
    rewrite Forall_forall in Hchs. exact (proj1 (Hchs c Hc)). }
  rewrite Hwords. reflexivity.
Qed.

Section GenerationFacts.

Variable format_value : pyval -> str.

Variable is_ready : bool.

Variable generate : str -> Z -> float -> outcome str.

Lemma final_prompt_absent_story (app : App)
    (request : AdvancedGenerationRequest) (sid : str) :
  story_id request = Some sid ->
  ~ In sid (keys (stories (the_story_manager app))) ->
  (truthy_int (chapter_number request) = false \/ sid = []) ->
  final_prompt format_value app request
  = Ok (prompt_around
          (if use_world_context request
           then get_world_context format_value (the_world_manager app) None
           else [])
          (prompt request)).
Proof.
  intros Hs Hk Hc. unfold final_prompt, context_parts.
  rewrite memory_string_absent, str_eqb_refl, Hs. simpl negb. cbv iota.
  destruct (world_part_ok format_value (the_world_manager app)) as (Hne & _).
  cbv zeta in Hne. rewrite Hne.
  unfold get_story_context, dict_mem.
  rewrite (proj2 (dict_get_None _ _) Hk). simpl negb. cbv iota.
  destruct Hc as [Hc| ->].
  - rewrite Hc. destruct (truthy_str (Some sid));
      destruct (use_world_context request);
      destruct (use_character_memory request); reflexivity.
  - simpl truthy_str. cbv iota.
    destruct (use_world_context request);
      destruct (use_character_memory request); reflexivity.
Qed.

Lemma final_prompt_absent_chapter (app : App)
    (request : AdvancedGenerationRequest) (sid : str) :
  story_id request = Some sid -> sid <> [] ->
  ~ In sid (keys (stories (the_story_manager app))) ->
  truthy_int (chapter_number request) = true ->
  final_prompt format_value app request = Raise KeyError.
Proof.
  intros Hs Hne Hk Hc. unfold final_prompt, context_parts.
  rewrite Hs, Hc.
  assert (truthy_str (Some sid) = true) as ->
    by (destruct sid; [congruence|reflexivity]).
  unfold get_story_context, dict_mem.
  rewrite (proj2 (dict_get_None _ _) Hk). simpl negb. cbv iota.
  cbv beta iota delta [bind].
  unfold get_current_chapter_context. rewrite (dict_item_None _ _ Hk).
  reflexivity.
Qed.

(** X18. [POST /generate/advanced] answers errors with the status 500
    only, also when the model is not ready; a request for the chapter of a
    story that is not stored is such an error.  A successful answer
    reports the world context as used exactly when it was requested, the
    story context whenever a story identifier is given, even an unknown
    one, for which the prompt holds no story block, and the character
    memory whenever it was requested. *)
Theorem generation_answers (app : App)
    (request : AdvancedGenerationRequest) :
  let r := advanced_generate format_value is_ready generate app request in
  (forall e, r = inl e -> status_code e = 500)
  /\ (is_ready = false -> r = inl (mkHTTPException 500))
  /\ (forall sid,
        story_id request = Some sid -> sid <> [] ->
        ~ In sid (keys (stories (the_story_manager app))) ->
        truthy_int (chapter_number request) = true ->
        r = inl (mkHTTPException 500))
  /\ (forall resp,
        r = inr resp ->
        is_ready = true
        /\ used_world_context resp = use_world_context request
        /\ used_story_context resp = truthy_str (story_id request)
        /\ used_character_memory resp = use_character_memory request)
  /\ (forall sid text,
        is_ready = true ->
        story_id request = Some sid -> sid <> [] ->
        ~ In sid (keys (stories (the_story_manager app))) ->
        truthy_int (chapter_number request) = false ->
        generate
          (prompt_around
             (if use_world_context request
              then get_world_context format_value (the_world_manager app)
                                     None
              else [])
             (prompt request))
          (max_tokens request) (temperature request) = Ok text ->
        r = inr (mkGenerationResponse text (use_world_context request)
                                      true (use_character_memory request))).
Proof.
  intros r. subst r.
  destruct (world_part_ok format_value (the_world_manager app)) as (Hne & _).
  cbv zeta in Hne.
  split; [|split; [|split; [|split]]].
  - intros e. unfold advanced_generate.
    destruct (negb is_ready); [now intros [= <-]|].
    destruct (bind _ _); [discriminate | now intros [= <-]].
  - intros ->. reflexivity.
  - intros sid Hs Hn Hk Hc. unfold advanced_generate.
    destruct (negb is_ready); [reflexivity|].
    now rewrite (final_prompt_absent_chapter _ _ _ Hs Hn Hk Hc).
  - intros resp. unfold advanced_generate.
    destruct is_ready; simpl negb; cbv iota; [|discriminate].
    destruct (bind _ _) as [response|e]; [|discriminate].
    intros [= <-]. simpl. rewrite Hne, andb_true_r. auto.
  - intros sid text -> Hs Hn Hk Hc Hgen. unfold advanced_generate.
    simpl negb. cbv iota.
    rewrite (final_prompt_absent_story _ _ _ Hs Hk (or_introl Hc)).
    cbv beta iota delta [bind]. rewrite Hgen, Hne, andb_true_r, Hs.
    assert (truthy_str (Some sid) = true) as ->
      by (destruct sid; [congruence|reflexivity]).
    reflexivity.
Qed.

End GenerationFacts.

(** ** The character memory (memory_manager) *)

Lemma dict_mem_absent {V : Type} (d : dict V) (k : str) :
  ~ In k (keys d) -> dict_mem d k = false.
Proof.
  intros H. unfold dict_mem. now rewrite (proj2 (dict_get_None d k) H).
Qed.

Lemma save_memory_characters (now : str) (cm : CharacterMemoryManager) :
  characters (_save_memory now cm) = characters cm.
Proof. reflexivity. Qed.

(** what a restart finds after [_save_memory] *)
Lemma saved_memory_loads (now : str) (cm : CharacterMemoryManager) :
  (encodable_text (memory_document now (characters (_save_memory now cm)))
   = true ->
   _load_memory (memory_file (_save_memory now cm))
   = Some (characters (_save_memory now cm)))
  /\ (encodable_text
        (memory_document now (characters (_save_memory now cm))) = false ->
      memory_file (_save_memory now cm) = Unreadable
      /\ _load_memory (memory_file (_save_memory now cm)) = Some []).
Proof.
  rewrite save_memory_file, save_memory_characters.
  split; intros ->.
  - apply load_memory_document.
  - split; reflexivity.
Qed.

Lemma memory_document_text (now : str) (d : dict CharacterProfile.t) :
  encodable_text (memory_document now d)
  = encodable_text (characters_document d) && encodable now.
Proof.
  unfold memory_document. cbn [encodable_text forallb fst snd].
  replace (encodable (lit "characters")) with true
    by (vm_compute; reflexivity).
  replace (encodable (lit "last_updated")) with true
    by (vm_compute; reflexivity).
  cbn [andb]. now rewrite !andb_true_r.
Qed.

(** X19. After [add_character] the name gives the new profile, with no
    appearance and no development note, also when the name was stored
    before; the other characters are unchanged, a known name keeps its
    place and a new one goes last.  The memory file loads back as the
    characters when every string of the document can be encoded in UTF-8;
    otherwise it is left with a cut text and loads as no character. *)
Theorem add_character_resets_profile (now_created now_saved : str)
    (cm : CharacterMemoryManager) (name description : str)
    (traits : option (list str)) (background : str)
    (relationships : option (dict str)) :
  let cm' := add_character now_created now_saved cm name description traits
                           background relationships in
  let profile :=
    CharacterProfile.mk description (or_empty traits) background
                        (or_empty relationships) [] [] now_created None in
  get_character_info cm' name = Some profile
  /\ (forall other, other <> name ->
        get_character_info cm' other = get_character_info cm other)
  /\ (In name (keys (characters cm)) ->
      keys (characters cm') = keys (characters cm))
  /\ (~ In name (keys (characters cm)) ->
      characters cm' = characters cm ++ [(name, profile)])
  /\ (encodable_text (memory_document now_saved (characters cm')) = true ->
      _load_memory (memory_file cm') = Some (characters cm'))
  /\ (encodable_text (memory_document now_saved (characters cm')) = false ->
      memory_file cm' = Unreadable
      /\ _load_memory (memory_file cm') = Some []).
Proof.
  intros cm' profile. unfold get_character_info.
  subst cm'. unfold add_character. fold profile.
  split; [apply dict_get_set_same|].
  split; [intros other Hne; apply dict_get_set_other; congruence|].
  split; [intros Hin; now apply keys_dict_set_mem|].
  split; [intros Hout; now apply dict_set_fresh|].
  apply saved_memory_loads.
Qed.

(** X20. [update_character] raises [ValueError] for an unknown name and
    changes nothing; for a stored name it replaces the fields that are
    given, keeps the others, the appearances, the development notes and
    the creation date, sets [updated_at], leaves the other characters and
    the order of the names unchanged, and saves: the memory file then
    loads back as the characters when every string of the document can be
    encoded in UTF-8, and is left with a cut text otherwise. *)
Theorem update_character_keeps_history (now_updated now_saved : str)
    (cm : CharacterMemoryManager) (name : str)
    (description : option str) (traits : option (list str))
    (background : option str) (relationships : option (dict str)) :
  let r := update_character now_updated now_saved cm name description traits
                            background relationships in
  (~ In name (keys (characters cm)) -> r = (cm, Raise ValueError))
  /\ forall old,
       get_character_info cm name = Some old ->
       snd r = Ok tt
       /\ (exists new,
             get_character_info (fst r) name = Some new
             /\ CharacterProfile.story_appearances new
                = CharacterProfile.story_appearances old
             /\ CharacterProfile.development_notes new
                = CharacterProfile.development_notes old
             /\ CharacterProfile.created_at new
                = CharacterProfile.created_at old
             /\ CharacterProfile.updated_at new = Some now_updated
             /\ CharacterProfile.description new
                = match description with
                  | Some d => d
                  | None => CharacterProfile.description old
                  end
             /\ CharacterProfile.traits new
                = match traits with
                  | Some t => t
                  | None => CharacterProfile.traits old
                  end
             /\ CharacterProfile.background new
                = match background with
                  | Some b => b
                  | None => CharacterProfile.background old
                  end
             /\ CharacterProfile.relationships new
                = match relationships with
                  | Some x => x
                  | None => CharacterProfile.relationships old
                  end)
       /\ (forall other, other <> name ->
             get_character_info (fst r) other = get_character_info cm other)
       /\ keys (characters (fst r)) = keys (characters cm)
       /\ (encodable_text
             (memory_document now_saved (characters (fst r))) = true ->
           _load_memory (memory_file (fst r)) = Some (characters (fst r)))
       /\ (encodable_text
             (memory_document now_saved (characters (fst r))) = false ->
           memory_file (fst r) = Unreadable
           /\ _load_memory (memory_file (fst r)) = Some []).
Proof.
  intros r. subst r. unfold update_character, get_character_info. split.
  - intros Hout. now rewrite (dict_mem_absent _ _ Hout).
  - intros old Hold.
    rewrite (dict_mem_get _ _ _ Hold), (dict_item_Some _ _ _ Hold).
    cbv beta iota delta [negb]. cbn [fst snd].
    split; [reflexivity|]. split.
    + eexists. split; [apply dict_get_set_same|].
      cbn. repeat split.
    + split; [intros other Hne; apply dict_get_set_other; congruence|].
      split; [apply keys_dict_set_mem;
              exact (dict_item_key _ _ _ (dict_item_Some _ _ _ Hold))|].
      apply saved_memory_loads.
Qed.

Lemma zsum_values_set {V : Type} (f : V -> Z) (d : dict V) (k : str)
    (v v' : V) :
  dict_get d k = Some v ->
  zsum (List.map f (values (dict_set d k v')))
  = zsum (List.map f (values d)) - f v + f v'.
Proof.
  induction d as [|[k0 v0] d IH]; simpl; [discriminate|].
  destruct (str_eqb k0 k); simpl.
  - intros [= ->]. lia.
  - intros H. rewrite (IH H). lia.
Qed.

(** X21. [add_story_appearance], [add_character_development] and
    [add_character_relationship] do nothing, silently and without saving,
    for an unknown name.  For a stored name the appearance and the note
    are appended last, the number of appearances of the statistics grows
    by one, and the relationship is the one [get_character_relationships]
    then gives for the related character. *)
Theorem recording_on_a_character (cm : CharacterMemoryManager)
    (name : str) :
  (~ In name (keys (characters cm)) ->
   (forall n1 n2 title role,
      add_story_appearance n1 n2 cm name title role = cm)
   /\ (forall n1 n2 note, add_character_development n1 n2 cm name note = cm)
   /\ (forall n related relationship,
         add_character_relationship n cm name related relationship = cm)
   /\ get_character_relationships cm name = [])
  /\ forall char,
       get_character_info cm name = Some char ->
       (forall n1 n2 title role,
          exists char',
            get_character_info (add_story_appearance n1 n2 cm name title role)
                               name = Some char'
            /\ CharacterProfile.story_appearances char'
               = CharacterProfile.story_appearances char
                   ++ [mkAppearance title role n1]
            /\ total_story_appearances
                 (get_character_statistics
                    (add_story_appearance n1 n2 cm name title role))
               = total_story_appearances (get_character_statistics cm) + 1)
       /\ (forall n1 n2 note,
             exists char',
               get_character_info (add_character_development n1 n2 cm name
                                                             note)
                                  name = Some char'
               /\ CharacterProfile.development_notes char'
                  = CharacterProfile.development_notes char
                      ++ [mkDevelopment note n1])
       /\ (forall n related relationship,
             dict_get (get_character_relationships
                         (add_character_relationship n cm name related
                                                     relationship)
                         name)
                      related
             = Some relationship
             /\ forall other, other <> related ->
                  dict_get (get_character_relationships
                              (add_character_relationship n cm name related
                                                          relationship)
                              name)
                           other
                  = dict_get (get_character_relationships cm name) other).
Proof.
  split.
  - intros Hout. pose proof (dict_mem_absent _ _ Hout) as Hm.
    unfold add_story_appearance, add_character_development,
      add_character_relationship, get_character_relationships.
    rewrite Hm. repeat split.
  - intros char Hc. unfold get_character_info in *.
    pose proof (dict_mem_get _ _ _ Hc) as Hm.
    split; [|split].
    + intros n1 n2 title role. unfold add_story_appearance.
      rewrite Hm, Hc. eexists.
      rewrite save_memory_characters. cbn [characters].
      split; [apply dict_get_set_same|]. split; [reflexivity|].
      unfold get_character_statistics. cbn [total_story_appearances].
      rewrite save_memory_characters. cbn [characters].
      rewrite !fold_left_add, !Z.add_0_l.
      rewrite (zsum_values_set _ _ _ _ _ Hc).
      cbn [CharacterProfile.story_appearances].
      rewrite len_app_one. lia.
    + intros n1 n2 note. unfold add_character_development.
      rewrite Hm, Hc. eexists.
      rewrite save_memory_characters. cbn [characters].
      split; [apply dict_get_set_same|]. reflexivity.
    + intros n related relationship.
      unfold add_character_relationship, get_character_relationships.
      rewrite Hm, Hc.
      rewrite save_memory_characters. cbn [characters].
      unfold dict_mem. rewrite dict_get_set_same.
      cbn [CharacterProfile.relationships].
      split; [apply dict_get_set_same|].
      intros other Hne. apply dict_get_set_other. congruence.
Qed.

Lemma memory_step_saved (cm : CharacterMemoryManager) (c : memory_call) :
  memory_step cm c = cm
  \/ exists cm0, memory_step cm c = _save_memory (saved_at c) cm0.
Proof.
  destruct c as [n1 n2 name d t b r|n1 n2 name d t b r|n1 n2 name title role
                |n1 n2 name note|n name related rel];
    cbn [memory_step saved_at].
  - right. unfold add_character. eauto.
  - unfold update_character.
    destruct (negb (dict_mem (characters cm) name)); [now left|].
    destruct (dict_item (characters cm) name); [|now left].
    right. cbn [fst]. eauto.
  - unfold add_story_appearance.
    destruct (dict_mem (characters cm) name); [|now left].
    destruct (dict_get (characters cm) name); [|now left]. right. eauto.
  - unfold add_character_development.
    destruct (dict_mem (characters cm) name); [|now left].
    destruct (dict_get (characters cm) name); [|now left]. right. eauto.
  - unfold add_character_relationship.
    destruct (dict_mem (characters cm) name); [|now left].
    destruct (dict_get (characters cm) name); [|now left]. right. eauto.
Qed.

(** the memory file of a reached state is the one its last save left *)
Lemma memory_run_saved (calls : list memory_call) :
  let cm := memory_run fresh_memory calls in
  (characters cm = [] /\ memory_file cm = Absent)
  \/ exists c,
       In c calls
       /\ memory_file cm
          = if encodable_text (memory_document (saved_at c) (characters cm))
            then Doc (memory_document (saved_at c) (characters cm))
            else Unreadable.
Proof.
  cbv zeta.
  induction calls as [|c calls IH] using rev_ind; [left; now split|].
  unfold memory_run in *. rewrite fold_left_app. simpl fold_left.
  destruct (memory_step_saved (fold_left memory_step calls fresh_memory) c)
    as [->|(cm0 & ->)].
  - destruct IH as [IH|(c0 & Hin & IH)]; [now left|].
    right. exists c0. split; [|exact IH].
    apply in_or_app. now left.
  - right. exists c. split; [apply in_or_app; right; now left|].
    rewrite save_memory_characters. apply save_memory_file.
Qed.

(** X22. After any sequence of calls on the character memory from a
    first start, the memory file loads back as the stored characters when
    every string of the characters can be encoded in UTF-8 (the clock
    readings being encodable, as ISO dates are).  When a string of the
    characters holds a lone surrogate, the file is left with a cut text
    and loads as no character. *)
Theorem restart_finds_the_characters (calls : list memory_call) :
  let cm := memory_run fresh_memory calls in
  let doc := characters_document (characters cm) in
  (encodable_text doc = true ->
   Forall (fun c => encodable (saved_at c) = true) calls ->
   _load_memory (memory_file cm) = Some (characters cm))
  /\ (encodable_text doc = false ->
      memory_file cm = Unreadable
      /\ _load_memory (memory_file cm) = Some []).
Proof.
  cbv zeta.
  destruct (memory_run_saved calls) as [[He Hf]|(c & Hin & Hf)];
    cbv zeta in Hf.
  - rewrite Hf, He. split; [reflexivity|discriminate].
  - rewrite Hf, memory_document_text. split.
    + intros -> Hclock. rewrite Forall_forall in Hclock.
      rewrite (Hclock c Hin). cbn [andb]. apply load_memory_document.
    + intros ->. cbn [andb]. split; reflexivity.
Qed.

Lemma occurrences_nonneg (t : str) (l : list str) : 0 <= occurrences t l.
Proof. unfold occurrences, len. lia. Qed.

Lemma occurrences_cons (t x : str) (l : list str) :
  occurrences t (x :: l)
  = (if str_eqb t x then 1 else 0) + occurrences t l.
Proof.
  unfold occurrences, len. cbn [List.filter].
  destruct (str_eqb t x); cbn [List.length];
    rewrite ?Nat2Z.inj_succ; lia.
Qed.

Lemma occurrences_In (t : str) (l : list str) :
  In t l -> 1 <= occurrences t l.
Proof.
  induction l as [|x l IH]; intros H; [destruct H|].
  rewrite occurrences_cons. pose proof (occurrences_nonneg t l).
  destruct H as [->|H].
  - rewrite str_eqb_refl. lia.
  - specialize (IH H). destruct (str_eqb t x); lia.
Qed.

Lemma str_eqb_sym (a b : str) : str_eqb a b = str_eqb b a.
Proof.
  destruct (str_eqb a b) eqn:E1, (str_eqb b a) eqn:E2; try reflexivity.
  - apply str_eqb_eq in E1. subst. now rewrite str_eqb_refl in E2.
  - apply str_eqb_eq in E2. subst. now rewrite str_eqb_refl in E1.
Qed.

Lemma count_trait_spec (tc : dict Z) (x t : str) :
  count_of (count_trait tc x) t
  = count_of tc t + (if str_eqb t x then 1 else 0).
Proof.
  unfold count_of, count_trait.
  destruct (str_eqb t x) eqn:E.
  - apply str_eqb_eq in E. subst x. rewrite dict_get_set_same. reflexivity.
  - rewrite dict_get_set_other.
    + destruct (dict_get tc t); lia.
    + intros ->. now rewrite str_eqb_refl in E.
Qed.

Lemma count_trait_positive (tc : dict Z) (x : str) :
  counts_positive tc -> counts_positive (count_trait tc x).
Proof.
  intros H t n. unfold count_trait.
  destruct (str_eqb t x) eqn:E.
  - apply str_eqb_eq in E. subst x. rewrite dict_get_set_same.
    intros [= <-]. destruct (dict_get tc t) as [m|] eqn:Em; [|lia].
    specialize (H t m Em). lia.
  - rewrite dict_get_set_other; [apply H|].
    intros ->. now rewrite str_eqb_refl in E.
Qed.

Lemma count_traits_fold (l : list str) (tc : dict Z) :
  NoDup (keys tc) -> counts_positive tc ->
  let tc' := List.fold_left count_trait l tc in
  NoDup (keys tc') /\ counts_positive tc'
  /\ forall t, count_of tc' t = count_of tc t + occurrences t l.
Proof.
  revert tc. induction l as [|x l IH]; intros tc Hnd Hpos; simpl.
  - repeat split; try assumption. intros t. unfold occurrences, len.
    simpl. lia.
  - destruct (IH (count_trait tc x)
                 (dict_set_NoDup _ _ _ Hnd)
                 (count_trait_positive _ _ Hpos)) as (H1 & H2 & H3).
    repeat split; try assumption.
    intros t. rewrite H3, count_trait_spec, occurrences_cons. lia.
Qed.

Lemma fold_left_flat_map {A B C : Type} (f : C -> B -> C) (g : A -> list B)
    (l : list A) (acc : C) :
  List.fold_left (fun acc a => List.fold_left f (g a) acc) l acc
  = List.fold_left f (List.flat_map g l) acc.
Proof.
  revert acc. induction l as [|a l IH]; intros acc; simpl; [reflexivity|].
  now rewrite IH, fold_left_app.
Qed.

Lemma In_dict_get {V : Type} (d : dict V) (k : str) (v : V) :
  NoDup (keys d) -> In (k, v) d -> dict_get d k = Some v.
Proof.
  induction d as [|[k0 v0] d IH]; intros Hnd Hin; [destruct Hin|].
  simpl in *. inversion Hnd as [|? ? Hout Hnd']; subst.
  destruct Hin as [[= -> ->]|Hin].
  - now rewrite str_eqb_refl.
  - destruct (str_eqb k0 k) eqn:E; [|now apply IH].
    apply str_eqb_eq in E. subst k0. exfalso. apply Hout.
    apply in_map_iff. now exists (k, v).
Qed.

Lemma In_firstn {A : Type} (n : nat) (l : list A) (a : A) :
  In a (List.firstn n l) -> In a l.
Proof.
  intros H. rewrite <- (firstn_skipn n l). apply in_or_app. now left.
Qed.

Lemma StronglySorted_app_le {A : Type} (R : A -> A -> Prop)
    (l1 l2 : list A) :
  StronglySorted R (l1 ++ l2) ->
  forall a b, In a l1 -> In b l2 -> R a b.
Proof.
  induction l1 as [|x l1 IH]; intros Hs a b Ha Hb; [destruct Ha|].
  simpl in Hs. inversion Hs as [|? ? Hs' Hall]; subst.
  destruct Ha as [->|Ha].
  - rewrite Forall_forall in Hall. apply Hall. apply in_or_app. now right.
  - now apply IH.
Qed.

Lemma StronglySorted_firstn {A : Type} (R : A -> A -> Prop) (n : nat)
    (l : list A) :
  StronglySorted R l -> StronglySorted R (List.firstn n l).
Proof.
  revert n. induction l as [|x l IH]; intros [|n] Hs; simpl;
    try constructor.
  - inversion Hs; subst. now apply IH.
  - inversion Hs as [|? ? Hs' Hall]; subst.
    rewrite Forall_forall in *. intros y Hy. apply Hall.
    exact (In_firstn _ _ _ Hy).
Qed.

Lemma occurrences_pos_In (t : str) (l : list str) :
  1 <= occurrences t l -> In t l.
Proof.
  induction l as [|x l IH]; intros H.
  - unfold occurrences, len in H. simpl in H. lia.
  - rewrite occurrences_cons in H. destruct (str_eqb t x) eqn:E.
    + apply str_eqb_eq in E. subst. now left.
    + right. apply IH. lia.
Qed.

Lemma StronglySorted_impl {A : Type} (R R' : A -> A -> Prop) (l : list A) :
  (forall a b, R a b -> R' a b) ->
  StronglySorted R l -> StronglySorted R' l.
Proof.
  intros H. induction 1 as [|x l Hs IH Hall]; constructor; [exact IH|].
  eapply Forall_impl; [|exact Hall]. intros a. apply H.
Qed.

Lemma sorted_by_strongly {A : Type} (key : A -> Z) (l : list A) :
  StronglySorted (fun a b => key a <= key b) (sorted_by key l).
Proof.
  apply Sorted_StronglySorted.
  - intros a b c Hab Hbc. lia.
  - exact (sorted_by_sorted key l).
Qed.

Lemma trait_counts_spec (cm : CharacterMemoryManager) :
  let tc :=
    List.fold_left
      (fun trait_counts char =>
         List.fold_left count_trait (CharacterProfile.traits char)
                        trait_counts)
      (values (characters cm)) [] in
  NoDup (keys tc)
  /\ forall t n, In (t, n) tc
                 <-> (In t (all_traits cm)
                      /\ n = occurrences t (all_traits cm)).
Proof.
  cbv zeta. rewrite fold_left_flat_map. fold (all_traits cm).
  destruct (count_traits_fold (all_traits cm) [])
    as (Hnd & Hpos & Hcount).
  { constructor. }
  { intros t n H. discriminate H. }
  cbv zeta in Hnd, Hpos, Hcount.
  split; [exact Hnd|]. intros t n. split.
  - intros Hin. pose proof (In_dict_get _ _ _ Hnd Hin) as Hget.
    specialize (Hcount t). unfold count_of in Hcount.
    rewrite Hget in Hcount. simpl in Hcount.
    pose proof (Hpos t n Hget).
    split; [apply occurrences_pos_In; lia | lia].
  - intros [Hin ->]. apply dict_get_In.
    specialize (Hcount t). unfold count_of in Hcount. simpl in Hcount.
    pose proof (occurrences_In _ _ Hin).
    destruct (dict_get _ t) as [m|]; [f_equal; lia | lia].
Qed.

(** X23. [get_character_statistics] counts the characters, their
    appearances and those with a relationship; [most_common_traits] holds
    at most five traits, none twice, each with its number of occurrences
    over all characters, in non-increasing order of this number, and a
    trait that is left out occurs no more often than a listed one. *)
Theorem statistics_of_the_characters (cm : CharacterMemoryManager) :
  let stats := get_character_statistics cm in
  let top := most_common_traits stats in
  total_characters stats = len (characters cm)
  /\ total_story_appearances stats
     = zsum (List.map (fun c => len (CharacterProfile.story_appearances c))
                      (values (characters cm)))
  /\ characters_with_relationships stats
     = len (List.filter
              (fun c => match CharacterProfile.relationships c with
                        | [] => false
                        | _ => true
                        end)
              (values (characters cm)))
  /\ (List.length top <= 5)%nat
  /\ NoDup (List.map fst top)
  /\ (forall t n, In (t, n) top ->
                  In t (all_traits cm) /\ n = occurrences t (all_traits cm))
  /\ StronglySorted (fun a b => snd b <= snd a) top
  /\ (forall t, In t (all_traits cm) ->
                In (t, occurrences t (all_traits cm)) top
                \/ (List.length top = 5%nat
                    /\ forall t' n', In (t', n') top ->
                                     occurrences t (all_traits cm) <= n')).
Proof.
  intros stats top.
  destruct (trait_counts_spec cm) as (Hnd & Hspec). cbv zeta in Hnd, Hspec.
  subst top stats. unfold get_character_statistics.
  cbn [total_characters total_story_appearances most_common_traits
       characters_with_relationships].
  set (tc := List.fold_left
               (fun trait_counts char =>
                  List.fold_left count_trait (CharacterProfile.traits char)
                                 trait_counts)
               (values (characters cm)) []) in *.
  set (sorted := sorted_by (fun kv : str * Z => - snd kv) tc).
  assert (Hperm : Permutation tc sorted) by apply sorted_by_perm.
  assert (Hss : StronglySorted (fun a b : str * Z => snd b <= snd a) sorted).
  { apply (StronglySorted_impl (fun a b : str * Z => - snd a <= - snd b)).
    - intros a b H. lia.
    - apply sorted_by_strongly. }
  split; [reflexivity|].
  split; [now rewrite fold_left_add, Z.add_0_l|].
  split; [reflexivity|].
  split; [apply firstn_le_length|].
  split.
  { rewrite <- firstn_map.
    assert (Hn : NoDup (List.map fst sorted)).
    { apply (Permutation_NoDup (l := keys tc)); [|exact Hnd].
      unfold keys. now apply Permutation_map. }
    rewrite <- (firstn_skipn 5 (List.map fst sorted)) in Hn.
    exact (NoDup_app_remove_r _ _ Hn). }
  split.
  { intros t n Hin. apply Hspec.
    apply (Permutation_in _ (Permutation_sym Hperm)).
    exact (In_firstn _ _ _ Hin). }
  split; [now apply StronglySorted_firstn|].
  intros t Hin.
  assert (Hs : In (t, occurrences t (all_traits cm)) sorted).
  { apply (Permutation_in _ Hperm). apply Hspec. now split. }
  rewrite <- (firstn_skipn 5 sorted) in Hs. apply in_app_or in Hs.
  destruct Hs as [Hs|Hs]; [now left|]. right. split.
  - apply firstn_length_le.
    destruct (Nat.le_gt_cases 5 (List.length sorted)) as [H|H]; [exact H|].
    rewrite skipn_all2 in Hs by lia. destruct Hs.
  - intros t' n' Hin'.
    rewrite <- (firstn_skipn 5 sorted) in Hss.
    exact (StronglySorted_app_le _ _ _ Hss _ _ Hin' Hs).
Qed.

(** ** The character endpoints (main) *)

Lemma dict_get_del_same {V : Type} (d : dict V) (k : str) :
  NoDup (keys d) -> dict_get (dict_del d k) k = None.
Proof.
  induction d as [|[k0 v0] d IH]; intros Hnd; simpl; [reflexivity|].
  inversion Hnd as [|? ? Hout Hnd']; subst.
  destruct (str_eqb k0 k) eqn:E.
  - apply str_eqb_eq in E. subst k0. now apply dict_get_None.
  - simpl. rewrite E. now apply IH.
Qed.

Lemma dict_get_del_other {V : Type} (d : dict V) (k k' : str) :
  k <> k' -> dict_get (dict_del d k) k' = dict_get d k'.
Proof.
  intros Hne. induction d as [|[k0 v0] d IH]; simpl; [reflexivity|].
  destruct (str_eqb k0 k) eqn:E; simpl.
  - apply str_eqb_eq in E. subst k0.
    apply str_eqb_neq in Hne. now rewrite Hne.
  - destruct (str_eqb k0 k'); [reflexivity | exact IH].
Qed.

Lemma keys_dict_del {V : Type} (d : dict V) (k : str) :
  NoDup (keys d) ->
  keys (dict_del d k) = List.filter (fun x => negb (str_eqb x k)) (keys d).
Proof.
  induction d as [|[k0 v0] d IH]; intros Hnd; simpl; [reflexivity|].
  inversion Hnd as [|? ? Hout Hnd']; subst.
  destruct (str_eqb k0 k) eqn:E; simpl.
  - apply str_eqb_eq in E. subst k0. symmetry.
    clear IH Hnd Hnd'. induction d as [|[k1 v1] d IH]; simpl;
      [reflexivity|].
    destruct (str_eqb k1 k) eqn:E1; simpl.
    + apply str_eqb_eq in E1. subst k1. exfalso. apply Hout. now left.
    + f_equal. apply IH. intros H. apply Hout. now right.
  - f_equal. now apply IH.
Qed.

Lemma memory_step_NoDup (cm : CharacterMemoryManager) (c : memory_call) :
  NoDup (keys (characters cm)) ->
  NoDup (keys (characters (memory_step cm c))).
Proof.
  intros H.
  destruct c as [n1 n2 name d t b r|n1 n2 name d t b r|n1 n2 name title role
                |n1 n2 name note|n name related rel]; simpl.
  - unfold add_character. rewrite ?save_memory_characters.
    now apply dict_set_NoDup.
  - unfold memory_manager.update_character.
    destruct (negb (dict_mem (characters cm) name)); [exact H|].
    destruct (dict_item (characters cm) name); [|exact H].
    simpl fst. rewrite ?save_memory_characters. now apply dict_set_NoDup.
  - unfold add_story_appearance.
    destruct (dict_mem (characters cm) name); [|exact H].
    destruct (dict_get (characters cm) name); [|exact H].
    rewrite ?save_memory_characters. now apply dict_set_NoDup.
  - unfold memory_manager.add_character_development.
    destruct (dict_mem (characters cm) name); [|exact H].
    destruct (dict_get (characters cm) name); [|exact H].
    rewrite ?save_memory_characters. now apply dict_set_NoDup.
  - unfold add_character_relationship.
    destruct (dict_mem (characters cm) name); [|exact H].
    destruct (dict_get (characters cm) name); [|exact H].
    rewrite ?save_memory_characters. now apply dict_set_NoDup.
Qed.

Lemma memory_run_NoDup (calls : list memory_call)
    (cm : CharacterMemoryManager) :
  NoDup (keys (characters cm)) ->
  NoDup (keys (characters (memory_run cm calls))).
Proof.
  revert cm. induction calls as [|c calls IH]; intros cm H; simpl;
    [exact H|].
  apply IH. now apply memory_step_NoDup.
Qed.

(** X24. On a name that is not stored the character endpoints of
    [main.py] answer 404 and change nothing.  On a stored name the update
    succeeds, and the deletion removes the character: it is not found
    afterwards, the others are unchanged and keep their order.  The memory
    file then loads back as the remaining characters when every string of
    the document can be encoded in UTF-8; otherwise it is left with a cut
    text and loads as no character. *)
Theorem character_endpoints (calls : list memory_call) (name : str) :
  let cm := memory_run fresh_memory calls in
  (~ In name (keys (characters cm)) ->
   main.get_character cm name = inl (mkHTTPException 404)
   /\ (forall n1 n2 request,
         main.update_character n1 n2 cm name request
         = (cm, inl (mkHTTPException 404)))
   /\ (forall n, main.delete_character n cm name
                 = (cm, inl (mkHTTPException 404)))
   /\ (forall n1 n2 development,
         main.add_character_development n1 n2 cm name development
         = Some (cm, inl (mkHTTPException 404))))
  /\ (In name (keys (characters cm)) ->
      (forall n1 n2 request,
         exists body,
           snd (main.update_character n1 n2 cm name request) = inr body)
      /\ forall n,
           let r := main.delete_character n cm name in
           (exists body, snd r = inr body)
           /\ main.get_character (fst r) name = inl (mkHTTPException 404)
           /\ (forall other, other <> name ->
                 get_character_info (fst r) other
                 = get_character_info cm other)
           /\ keys (characters (fst r))
              = List.filter (fun x => negb (str_eqb x name))
                            (keys (characters cm))
           /\ (encodable_text (memory_document n (characters (fst r)))
               = true ->
               _load_memory (memory_file (fst r))
               = Some (characters (fst r)))
           /\ (encodable_text (memory_document n (characters (fst r)))
               = false ->
               memory_file (fst r) = Unreadable
               /\ _load_memory (memory_file (fst r)) = Some [])).
Proof.
  intros cm.
  assert (Hnd : NoDup (keys (characters cm))).
  { apply memory_run_NoDup. constructor. }
  split.
  - intros Hout. pose proof (dict_mem_absent _ _ Hout) as Hm.
    unfold main.get_character, main.update_character,
      main.delete_character, main.add_character_development,
      get_all_characters, get_character_info.
    rewrite Hm, (proj2 (dict_get_None _ _) Hout). repeat split.
  - intros Hin.
    assert (Hm : dict_mem (characters cm) name = true).
    { unfold dict_mem. destruct (dict_get (characters cm) name) eqn:E;
        [reflexivity|]. apply dict_get_None in E. contradiction. }
    split.
    + intros n1 n2 request. unfold main.update_character, get_all_characters.
      rewrite Hm. simpl negb. cbv iota.
      unfold memory_manager.update_character. rewrite Hm. simpl negb.
      cbv iota. unfold dict_item.
      destruct (dict_get (characters cm) name) eqn:E.
      * eexists. reflexivity.
      * apply dict_get_None in E. contradiction.
    + intros n r. subst r. unfold main.delete_character, get_all_characters.
      rewrite Hm. simpl negb. cbv iota. cbn [fst snd].
      unfold main.get_character, get_character_info.
      split; [eexists; reflexivity|].
      split; [rewrite save_memory_characters; cbn [characters];
              now rewrite (dict_get_del_same _ _ Hnd)|].
      split; [intros other Hne; rewrite save_memory_characters;
              cbn [characters]; apply dict_get_del_other; congruence|].
      split; [rewrite save_memory_characters; cbn [characters];
              now apply keys_dict_del|].
      apply saved_memory_loads.
Qed.

(** ** The listings of the application (advanced_main) *)

(** X25. In every state the application reaches through its endpoints,
    [GET /stories] lists the stored stories in the order of the store, each
    with the progress [0/50000] and its number of chapters, and
    [GET /world/settings] lists the stored settings with the value of
    their type; both give the number of entries as [total_count]. *)
Theorem listings_of_the_stores (calls : list api_call) :
  let app := api_run fresh_app calls in
  Endpoints.get_stories app
  = PDict
      [ (lit "stories",
           PDict (List.map
                    (fun kv =>
                       (fst kv,
                        PDict [ (lit "title", PStr (Story.title (snd kv)));
                                (lit "genre", PStr (Story.genre (snd kv)));
                                (lit "summary",
                                   PStr (Story.summary (snd kv)));
                                (lit "progress", PStr (lit "0/50000"));
                                (lit "chapters",
                                   PInt (len (Story.chapters (snd kv))));
                                (lit "status",
                                   PStr (Story.status (snd kv))) ]))
                    (stories (the_story_manager app))));
        (lit "total_count", PInt (len (stories (the_story_manager app)))) ]
  /\ Endpoints.get_world_settings app
     = PDict
         [ (lit "settings",
              PDict (List.map
                       (fun kv =>
                          (fst kv,
                           PDict [ (lit "name",
                                      PStr (WorldSetting.name (snd kv)));
                                   (lit "type",
                                      PStr (SettingType_value
                                              (WorldSetting.type (snd kv))));
                                   (lit "description",
                                      PStr (WorldSetting.description
                                              (snd kv)));
                                   (lit "details",
                                      PDict (WorldSetting.details
                                               (snd kv))) ]))
                       (settings (the_world_manager app))));
           (lit "total_count",
              PInt (len (settings (the_world_manager app)))) ].
Proof.
  intros app. split.
  - assert (Hb : store_blank (the_story_manager app)).
    { apply api_run_blank. constructor. }
    assert (Hnd : NoDup (keys (stories (the_story_manager app)))).
    { unfold app. rewrite stories_of_run.
      exact (proj1 (reached_store Absent _)). }
    unfold Endpoints.get_stories. cbv zeta.
    rewrite (rebuild_dict
               (fun story =>
                  PDict [ (lit "title", PStr (Story.title story));
                          (lit "genre", PStr (Story.genre story));
                          (lit "summary", PStr (Story.summary story));
                          (lit "progress",
                             PStr (str_of_int (Story.current_word_count story)
                                     ++ lit "/"
                                     ++ str_of_int
                                          (Story.target_word_count story)));
                          (lit "chapters", PInt (len (Story.chapters story)));
                          (lit "status", PStr (Story.status story)) ])
               _ [] Hnd).
    cbn [List.app]. unfold len. rewrite length_map.
    unfold store_blank in Hb. rewrite Forall_forall in Hb.
    rewrite (map_ext_in _
               (fun kv : str * Story.t =>
                  (fst kv,
                   PDict [ (lit "title", PStr (Story.title (snd kv)));
                           (lit "genre", PStr (Story.genre (snd kv)));
                           (lit "summary", PStr (Story.summary (snd kv)));
                           (lit "progress", PStr (lit "0/50000"));
                           (lit "chapters",
                              PInt (len (Story.chapters (snd kv))));
                           (lit "status", PStr (Story.status (snd kv))) ]))).
    + reflexivity.
    + intros kv Hin. destruct (Hb _ Hin) as (HT & Hw & _).
      rewrite HT, Hw.
      replace (str_of_int 0 ++ lit "/" ++ str_of_int STORY_TARGET)
        with (lit "0/50000") by (vm_compute; reflexivity).
      reflexivity.
  - destruct (api_reached_world calls) as (Hs & _). fold app in Hs.
    unfold Endpoints.get_world_settings. cbv zeta.
    rewrite (rebuild_dict
               (fun v =>
                  PDict [ (lit "name", PStr (WorldSetting.name v));
                          (lit "type",
                             PStr (SettingType_value (WorldSetting.type v)));
                          (lit "description",
                             PStr (WorldSetting.description v));
                          (lit "details", PDict (WorldSetting.details v)) ])
               _ [] (numbered_from_NoDup _ _ Hs)).
    reflexivity.
Qed.

(* ================================================================== *)
(** * Instances of the further properties *)
(* ================================================================== *)

(** a chapter for a story that is not stored *)
Lemma failed_story_call_changes_nothing_witness :
  story_step example_manager
    (AddChapter (lit "2024-01-01T00:00:00") (lit "2024-01-01T00:00:00")
                (lit "nobody") (lit "Lost") (lit "Nowhere"))
  = example_manager.
Proof.
  apply (failed_story_call_changes_nothing _ _ ValueError).
  vm_compute. reflexivity.
Defined.

(** the chapter number 0 addresses the last chapter *)
Lemma add_scene_chapter_choice_witness :
  snd (add_scene (lit "2024-01-01T00:00:00") example_manager example_id 0
                 (lit "Hall") (lit "In the hall") (lit "Great hall")
                 [lit "Aria"] (lit "Meet the king"))
  = Ok (lit "story_1_1700000000_chapter_1_scene_2").
Proof.
  assert (Hk : dict_get (stories example_manager) example_id
               = Some example_first_story) by (vm_compute; reflexivity).
  destruct (add_scene_chapter_choice
              (lit "2024-01-01T00:00:00") example_manager example_id
              example_first_story 0 (lit "Hall") (lit "In the hall")
              (lit "Great hall") [lit "Aria"] (lit "Meet the king") Hk)
    as (_ & _ & Hin).
  destruct Hin as (chapter & story' & Hnth & Hsnd & _).
  { vm_compute. split; [reflexivity | discriminate]. }
  rewrite Hsnd. vm_compute in Hnth. injection Hnth as <-.
  vm_compute. reflexivity.
Defined.

(** the first story of the example store *)
Lemma identifiers_follow_positions_witness :
  Story.id example_first_story = example_id.
Proof.
  apply (identifiers_follow_positions Absent example_calls example_id
           example_first_story).
  vm_compute. reflexivity.
Defined.

(** a file whose count of 999 is not the one of the loaded story *)
Lemma loaded_counts_are_recomputed_witness :
  _load_stories (lit "2024-02-02T00:00:00") miscounted_file
  = Some [(lit "s1", recounted_story)]
  /\ Story.current_word_count recounted_story
     = zsum (List.map Chapter.actual_word_count
                      (Story.chapters recounted_story)).
Proof.
  assert (Hload : _load_stories (lit "2024-02-02T00:00:00") miscounted_file
                  = Some [(lit "s1", recounted_story)])
    by (vm_compute; reflexivity).
  split; [exact Hload|].
  apply (loaded_counts_are_recomputed _ _ _ Hload (lit "s1")).
  left. reflexivity.
Defined.

(** the context of the first story of the example store *)
Lemma story_context_contents_witness :
  exists text,
    get_story_context example_manager example_id = Ok text
    /\ contains (Story.title example_first_story) text.
Proof.
  assert (Hk : dict_get (stories example_manager) example_id
               = Some example_first_story) by (vm_compute; reflexivity).
  destruct (story_context_contents _ _ _ Hk) as (text & Hget & _ & Ht & _).
  exists text. split; assumption.
Defined.

(** the requested target of 1000 is not the one of the story *)
Lemma api_stories_never_progress_witness :
  Story.target_word_count example_api_story = 50000
  /\ Story.current_word_count example_api_story = 0.
Proof.
  destruct (api_stories_never_progress example_requests example_id
              example_api_story) as (HT & Hw & _).
  { vm_compute. reflexivity. }
  split; assumption.
Defined.

(** the example store, and the store whose last content is a lone
    surrogate *)
Lemma restart_finds_the_store_witness :
  StoryManager_init (lit "2024-02-02T00:00:00") (stories_file example_manager)
  = Some (mkStoryManager (stories example_manager) None
                         (stories_file example_manager))
  /\ StoryManager_init (lit "2024-02-02T00:00:00")
                       (stories_file surrogate_manager)
     = Some (mkStoryManager [] None Unreadable).
Proof.
  split.
  - destruct (restart_finds_the_store example_calls
                (lit "2024-02-02T00:00:00")) as [Hok _].
    apply Hok. vm_compute. reflexivity.
  - destruct (restart_finds_the_store surrogate_calls
                (lit "2024-02-02T00:00:00")) as [_ Hcut].
    apply Hcut. vm_compute. reflexivity.
Defined.

(** a first event named A, and a first event whose name is a lone
    surrogate *)
Lemma posting_an_event_witness :
  (exists body,
     snd (advanced_main.add_timeline_event (api_run fresh_app [])
                                           (event_request "A" 500 2))
     = inr body)
  /\ snd (advanced_main.add_timeline_event (api_run fresh_app [])
                                           surrogate_event_request)
     = inl (mkHTTPException 500).
Proof.
  split.
  - destruct (posting_an_event [] (event_request "A" 500 2))
      as (_ & Hno & _).
    destruct (Hno eq_refl) as (Hok & _).
    eexists. apply Hok; vm_compute; reflexivity.
  - destruct (posting_an_event [] surrogate_event_request)
      as (_ & Hno & _).
    destruct (Hno eq_refl) as (_ & _ & Hcut & _).
    apply Hcut. vm_compute. reflexivity.
Defined.

(** the example character, and one whose description is a lone
    surrogate *)
Lemma add_character_resets_profile_witness :
  _load_memory (memory_file example_memory)
  = Some (characters example_memory)
  /\ memory_file surrogate_memory = Unreadable.
Proof.
  split.
  - destruct (add_character_resets_profile
                (lit "2024-01-01T00:00:00") (lit "2024-01-01T00:00:01")
                (mkCharacterMemoryManager [] Absent)
                (lit "Aria") (lit "A young knight")
                (Some [lit "brave"]) (lit "Raised in Eldoria") None)
      as (_ & _ & _ & _ & Hok & _).
    apply Hok. vm_compute. reflexivity.
  - destruct (add_character_resets_profile
                (lit "2024-01-01T00:00:00") (lit "2024-01-01T00:00:01")
                (mkCharacterMemoryManager [] Absent)
                (lit "Aria") [55296%N]
                (Some [lit "brave"]) (lit "Raised in Eldoria") None)
      as (_ & _ & _ & _ & _ & Hcut).
    apply Hcut. vm_compute. reflexivity.
Defined.

(** the description of the example character replaced by a lone
    surrogate *)
Lemma update_character_keeps_history_witness :
  memory_file
    (fst (update_character (lit "2024-01-03T00:00:00")
            (lit "2024-01-03T00:00:01") example_memory (lit "Aria")
            (Some [55296%N]) None None None))
  = Unreadable.
Proof.
  destruct (update_character_keeps_history
              (lit "2024-01-03T00:00:00") (lit "2024-01-03T00:00:01")
              example_memory (lit "Aria") (Some [55296%N]) None None None)
    as (_ & Hin).
  destruct (Hin (CharacterProfile.mk (lit "A young knight") [lit "brave"]
                   (lit "Raised in Eldoria") [] [] []
                   (lit "2024-01-01T00:00:00") None))
    as (_ & _ & _ & _ & _ & Hcut).
  - vm_compute. reflexivity.
  - apply Hcut. vm_compute. reflexivity.
Defined.

(** the memory after the example character, and after a second one
    whose description is a lone surrogate *)
Lemma restart_finds_the_characters_witness :
  _load_memory (memory_file (memory_run fresh_memory
                               (List.firstn 1 mixed_memory_calls)))
  = Some (characters (memory_run fresh_memory
                        (List.firstn 1 mixed_memory_calls)))
  /\ memory_file (memory_run fresh_memory mixed_memory_calls) = Unreadable.
Proof.
  split.
  - destruct (restart_finds_the_characters
                (List.firstn 1 mixed_memory_calls)) as [Hok _].
    apply Hok.
    + vm_compute. reflexivity.
    + repeat constructor.
  - destruct (restart_finds_the_characters mixed_memory_calls)
      as [_ Hcut].
    apply Hcut. vm_compute. reflexivity.
Defined.

(** the example character deleted while the other one holds a lone
    surrogate *)
Lemma character_endpoints_witness :
  main.get_character
    (fst (main.delete_character (lit "2024-01-04T00:00:00")
            (memory_run fresh_memory mixed_memory_calls) (lit "Aria")))
    (lit "Aria")
  = inl (mkHTTPException 404)
  /\ memory_file
       (fst (main.delete_character (lit "2024-01-04T00:00:00")
               (memory_run fresh_memory mixed_memory_calls) (lit "Aria")))
     = Unreadable.
Proof.
  destruct (character_endpoints mixed_memory_calls (lit "Aria"))
    as (_ & Hin).
  destruct Hin as (_ & Hdel).
  { vm_compute. left. reflexivity. }
  destruct (Hdel (lit "2024-01-04T00:00:00"))
    as (_ & Hgone & _ & _ & _ & Hcut).
  split; [exact Hgone|].
  apply Hcut. vm_compute. reflexivity.
Defined.
